(** * Budget threshold monitoring and alert dispatch

    A shallow embedding of the budget status calculator
    ([services/budget.service.ts]), of the threshold evaluator, the
    notification dispatcher and the alert query surface
    ([services/alert.service.ts]) and of the documents they read and
    write, followed by the properties of the engine.

    Conventions of the embedding.
    - A MongoDB collection looked up by [_id] is a [gmap] from the id to the
      document; a collection that is scanned, appended to and sorted (alerts,
      transactions) is a list in insertion order.
    - An [ObjectId] is its hexadecimal string; ids are taken well formed.
    - A JavaScript number holding money in minor units or a threshold is a
      [Z]; a number obtained by division (dollar amounts, percentages) is
      the rational value of a finite double, a [Q].  [/] and [*] round their
      exact result to the nearest double ([divide], [times]); a total that
      MongoDB sums reaches the service as the double nearest to the sum
      ([toNumber]); [Math.round], [Math.min], [>] and [>=] are exact on
      doubles, and so are their models on [Q].  Subtractions are kept exact.
      Infinities and NaN are outside the embedding.
    - An async service is a function from the world to a result and the world
      after it; a thrown exception is the [Throw] result, and the effects
      done before the throw stay in the world.
    - The collaborators that are not part of the two services (the clock, the
      date-fns month boundaries, the currency helpers and the two transports)
      are the fields of the class [Collaborators]; every theorem holds for
      all of them. *)

From Stdlib Require Import ZArith QArith Qround Qminmax Qpower.
From Stdlib Require Import String Ascii DecimalString List Lia Lqa.
From stdpp Require Import base option list gmap strings sorting.

Open Scope string_scope.
Open Scope Z_scope.

(** ** JavaScript numbers *)

(** The integer nearest to [x], a tie going to the even one. *)
Definition roundHalfEven (x : Q) : Z :=
  let f := Qfloor x in
  match (x - inject_Z f ?= 1 # 2)%Q with
  | Lt => f
  | Gt => f + 1
  | Eq => if Z.even f then f else f + 1
  end.

(** The exponent of the leading bit of a positive [x]: the [e] with
    [2^e <= x < 2^(e+1)]. *)
Definition ilog2 (x : Q) : Z :=
  let e := Z.log2 (Qnum x) - Z.log2 (Zpos (Qden x)) in
  if Qle_bool (2 ^ e) x then e else e - 1.

(** The weight of the last bit of the double nearest to a positive [x]: a
    double has 53 significant bits, and no bit below [2^-1074]. *)
Definition ulp (x : Q) : Q := (2 ^ Z.max (ilog2 x - 52) (-1074))%Q.

Definition nearest (x : Q) : Q :=
  (inject_Z (roundHalfEven (x / ulp x)) * ulp x)%Q.

(** The double nearest to [x] (IEEE 754 binary64, a tie going to the even
    significand). *)
Definition binary64 (x : Q) : Q :=
  match (x ?= 0)%Q with
  | Eq => 0%Q
  | Gt => nearest x
  | Lt => (- nearest (- x))%Q
  end.

(** [a / b] and [a * b] on doubles. *)
Definition divide (a b : Q) : Q := binary64 (a / b).
Definition times (a b : Q) : Q := binary64 (a * b).

(** An integer total as the number that reaches JavaScript. *)
Definition toNumber (z : Z) : Z := Qfloor (binary64 (inject_Z z)).

(** [String(v)] for an integer [v]. *)
Definition numberToString (v : Z) : string := NilZero.string_of_int (Z.to_int v).

(** [s.indexOf(needle) !== -1] *)
Fixpoint occursIn (needle s : string) : bool :=
  String.prefix needle s
  || match s with
     | EmptyString => false
     | String _ rest => occursIn needle rest
     end.

(** [s] holds the character [c]. *)
Fixpoint holds (c : ascii) (s : string) : bool :=
  match s with
  | EmptyString => false
  | String d rest => Ascii.eqb c d || holds c rest
  end.

(** ** Documents *)

Definition ObjectId := string.
Definition Date := Z.

(** JavaScript truthiness of a string: every string but the empty one. *)
Definition truthy (s : string) : bool :=
  match s with EmptyString => false | String _ _ => true end.

(** [budget.model.ts] *)
Inductive BudgetTypeEnum := USER | HOUSEHOLD.

Record BudgetDocument := {
  budget_userId : option ObjectId;
  budget_householdId : option ObjectId;
  budget_type : BudgetTypeEnum;
  monthlyLimit : Z;
  budget_name : string;
  isActive : bool
}.

(** [user.model.ts]; the password and the picture play no part here. *)
Record UserDocument := {
  user_name : string;
  email : string;
  phoneNumber : option string
}.

(** [household.model.ts] *)
Inductive HouseholdRoleEnum := OWNER | MEMBER | VIEWER.

Record HouseholdMember := {
  member_userId : ObjectId;
  role : HouseholdRoleEnum;
  joinedAt : Date
}.

Record HouseholdDocument := {
  household_name : string;
  monthlyBudgetLimit : Z;
  members : list HouseholdMember
}.

(** The transaction model is only imported by the services; a transaction is
    the fields that their aggregation reads. *)
Inductive TransactionTypeEnum := INCOME | EXPENSE.

Record TransactionDocument := {
  tx_userId : option ObjectId;
  tx_householdId : option ObjectId;
  tx_type : TransactionTypeEnum;
  tx_date : Date;
  tx_status : string;
  amount : Z
}.

(** [alert.model.ts] *)
Inductive AlertTypeEnum := EMAIL | SMS.
Inductive AlertStatusEnum := PENDING | SENT | FAILED.

Definition SEVENTY_PERCENT : Z := 70.
Definition NINETY_PERCENT : Z := 90.
Definition HUNDRED_PERCENT : Z := 100.

(** [Object.values(AlertThresholdEnum)]: TypeScript compiles a numeric enum
    to an object that maps each name to its number and each number back to
    its name; [Object.values] lists the values of the integer keys first. *)
Inductive EnumValue := Name (s : string) | Num (n : Z).

#[global] Instance EnumValue_eq_dec : EqDecision EnumValue.
Proof. solve_decision. Defined.

Definition AlertThresholdEnum_values : list EnumValue :=
  [Name "SEVENTY_PERCENT"; Name "NINETY_PERCENT"; Name "HUNDRED_PERCENT";
   Num 70; Num 90; Num 100].

(** The validator that [enum: option] puts on a Number path.  Mongoose hands
    the elements of an array option to the schema type's method as its
    arguments, and [SchemaNumber.enum(values, message)] takes the first for
    the allowed values and the second for the error message.  When [values]
    is a number, all the arguments are the allowed values; when it is a
    string, [values.indexOf(v) !== -1] is the substring test of
    [String.prototype.indexOf].  No schema here has an empty option. *)
Definition enumValidator (arguments : list EnumValue) (v : Z) : bool :=
  match arguments with
  | Name values :: _ => occursIn (numberToString v) values
  | Num _ :: _ => bool_decide (Num v ∈ arguments)
  | [] => true
  end.

(** The message of that validator: the second argument when the first is not
    a number, else the default of mongoose. *)
Definition enumMessage (arguments : list EnumValue) : string :=
  match arguments with
  | Name _ :: Name message :: _ => message
  | _ => "`{VALUE}` is not a valid enum value for path `{PATH}`."
  end.

Record AlertMetadata := {
  currentSpending : Q;
  meta_budgetLimit : Q;
  meta_percentageUsed : Q
}.

Record AlertDocument := {
  alert_userId : ObjectId;
  alert_budgetId : ObjectId;
  alert_householdId : option ObjectId;
  alertType : AlertTypeEnum;
  threshold : Z;
  status : AlertStatusEnum;
  sentAt : option Date;
  errorMessage : option string;
  metadata : option AlertMetadata;
  createdAt : Date;
  updatedAt : Date
}.

(** The fields a caller of [AlertModel.create] supplies; mongoose adds the
    two timestamps. *)
Record AlertInput := {
  in_userId : ObjectId;
  in_budgetId : ObjectId;
  in_householdId : option ObjectId;
  in_alertType : AlertTypeEnum;
  in_threshold : Z;
  in_status : AlertStatusEnum;
  in_sentAt : option Date;
  in_errorMessage : option string;
  in_metadata : option AlertMetadata
}.

#[global] Instance BudgetTypeEnum_eq_dec : EqDecision BudgetTypeEnum.
Proof. solve_decision. Defined.
#[global] Instance TransactionTypeEnum_eq_dec : EqDecision TransactionTypeEnum.
Proof. solve_decision. Defined.
#[global] Instance AlertTypeEnum_eq_dec : EqDecision AlertTypeEnum.
Proof. solve_decision. Defined.
#[global] Instance AlertStatusEnum_eq_dec : EqDecision AlertStatusEnum.
Proof. solve_decision. Defined.

(** ** Transports *)

(** The argument of [sendEmail] in [mailers/mailer]. *)
Record EmailParams := {
  to : string;
  subject : string;
  html : string;
  text : string
}.

(** What a transport does with one message: it returns, or it throws an
    error that carries a message. *)
Inductive Delivery := Delivered | Undelivered (message : string).

(** One entry of the log of messages handed to a transport. *)
Inductive Attempt :=
| EmailAttempt (p : EmailParams)
| SmsAttempt (phone body : string).

(** ** The world *)

Record World := {
  budgets : gmap ObjectId BudgetDocument;
  users : gmap ObjectId UserDocument;
  households : gmap ObjectId HouseholdDocument;
  transactions : list TransactionDocument;
  alerts : list AlertDocument;
  outbox : list Attempt;
  ticks : nat
}.

Definition set_alerts (l : list AlertDocument) (w : World) : World :=
  {| budgets := budgets w; users := users w; households := households w;
     transactions := transactions w; alerts := l; outbox := outbox w;
     ticks := ticks w |}.

Definition set_outbox (l : list Attempt) (w : World) : World :=
  {| budgets := budgets w; users := users w; households := households w;
     transactions := transactions w; alerts := alerts w; outbox := l;
     ticks := ticks w |}.

Definition set_ticks (n : nat) (w : World) : World :=
  {| budgets := budgets w; users := users w; households := households w;
     transactions := transactions w; alerts := alerts w; outbox := outbox w;
     ticks := n |}.

Definition set_households (h : gmap ObjectId HouseholdDocument) (w : World) : World :=
  {| budgets := budgets w; users := users w; households := h;
     transactions := transactions w; alerts := alerts w; outbox := outbox w;
     ticks := ticks w |}.

Definition set_transactions (l : list TransactionDocument) (w : World) : World :=
  {| budgets := budgets w; users := users w; households := households w;
     transactions := l; alerts := alerts w; outbox := outbox w;
     ticks := ticks w |}.

(** ** Services as world transformers *)

(** [utils/app-error] *)
Inductive AppError :=
| NotFoundException (msg : string)
| BadRequestException (msg : string).

(** What a service can throw: an [AppError], or the validation error with
    which mongoose rejects a [create] or a [save], with the path that
    failed. *)
Inductive Thrown :=
| AppThrown (e : AppError)
| ValidationError (path : string).

Coercion AppThrown : AppError >-> Thrown.

Inductive Result (A : Type) :=
| Ok (a : A)
| Throw (e : Thrown).
Arguments Ok {A} a.
Arguments Throw {A} e.

Definition M (A : Type) : Type := World -> Result A * World.

Definition ret {A} (a : A) : M A := fun w => (Ok a, w).
Definition throw {A} (e : Thrown) : M A := fun w => (Throw e, w).
Definition bind {A B} (m : M A) (k : A -> M B) : M B :=
  fun w => match m w with
           | (Ok a, w') => k a w'
           | (Throw e, w') => (Throw e, w')
           end.

Notation "'let!' x ':=' m 'in' k" := (bind m (fun x => k))
  (at level 10, x name, m at level 100, k at level 200).

(** [try { body } catch (error) { handler(error) }] *)
Definition try_catch {A} (body : M A) (handler : Thrown -> M A) : M A :=
  fun w => match body w with
           | (Ok a, w') => (Ok a, w')
           | (Throw error, w') => handler error w'
           end.

(** [for (const x of xs) { await body(x) }] *)
Fixpoint forEach {A} (xs : list A) (body : A -> M unit) : M unit :=
  match xs with
  | [] => ret tt
  | x :: rest => let! _ := body x in forEach rest body
  end.

(** ** Collaborators *)

Class Collaborators := {
  (** the value of the n-th reading of the system clock *)
  clock : nat -> Date;
  (** date-fns *)
  startOfMonth : Date -> Date;
  endOfMonth : Date -> Date;
  (** utils/format-currency *)
  convertToDollarUnit : Z -> Q;
  formatCurrency : Q -> string;
  (** Number.prototype.toFixed(2) *)
  toFixed2 : Q -> string;
  (** the outcome of the n-th message handed to a transport *)
  sendEmail_outcome : nat -> EmailParams -> Delivery;
  sendSMS_outcome : nat -> string -> string -> Delivery
}.

(** The SMS transport of [alert.service.ts] is a placeholder that logs the
    message and returns: every message is delivered. *)
Definition sendSMS_placeholder (n : nat) (phoneNumber message : string) : Delivery :=
  Delivered.

(** Modelled from the spec: [utils/format-currency] is not part of the
    sources; money is kept in integer minor units and converted to display
    units at the boundary, one display unit being 100 minor units. *)
Definition centsToDollars (cents : Z) : Q := divide (inject_Z cents) 100.

Section Services.
Context `{Collaborators}.

(** [new Date()] and the timestamps of mongoose read the clock. *)
Definition newDate : M Date :=
  fun w => (Ok (clock (ticks w)), set_ticks (S (ticks w)) w).

(** ** The status calculator, [budget.service.ts] *)

Record BudgetStatus := {
  totalSpentThisMonth : Q;
  budgetLimit : Q;
  remaining : Q;
  overBudget : bool;
  percentageUsed : Q
}.

(** [Math.round]: the nearest integer, a tie going up. *)
Definition Math_round (x : Q) : Q := inject_Z (Qfloor (x + (1 # 2))).

(** The [$match] stage built in [matchQuery]. *)
Definition matchQuery (budget : BudgetDocument) (monthStart monthEnd : Date)
    (t : TransactionDocument) : bool :=
  bool_decide (tx_type t = EXPENSE)
  && (monthStart <=? tx_date t) && (tx_date t <=? monthEnd)
  && String.eqb (tx_status t) "COMPLETED"
  && match budget_type budget with
     | USER => bool_decide (tx_userId t = budget_userId budget)
     | HOUSEHOLD => bool_decide (tx_householdId t = budget_householdId budget)
     end.

(** [TransactionModel.aggregate([{$match}, {$group: {_id: null, totalSpent:
    {$sum: "$amount"}}}])]: no group when nothing matches, else one group
    with the sum, as a number. *)
Definition aggregation (budget : BudgetDocument) (monthStart monthEnd : Date)
    (ledger : list TransactionDocument) : list Z :=
  match filter (fun t => matchQuery budget monthStart monthEnd t = true) ledger with
  | [] => []
  | matched => [toNumber (foldr (fun t acc => amount t + acc) 0 matched)]
  end.

Definition aggregate (budget : BudgetDocument) (monthStart monthEnd : Date)
    : M (list Z) :=
  fun w => (Ok (aggregation budget monthStart monthEnd (transactions w)), w).

(** [aggregationResult[0]?.totalSpent || 0] *)
Definition totalSpentInCents (aggregationResult : list Z) : Z :=
  match aggregationResult with
  | [] => 0
  | totalSpent :: _ => if totalSpent =? 0 then 0 else totalSpent
  end.

Definition findBudgetById (budgetId : ObjectId) : M (option BudgetDocument) :=
  fun w => (Ok (budgets w !! budgetId), w).

Definition findUserById (userId : ObjectId) : M (option UserDocument) :=
  fun w => (Ok (users w !! userId), w).

Definition findHouseholdById (householdId : ObjectId) : M (option HouseholdDocument) :=
  fun w => (Ok (households w !! householdId), w).

(** The computation that ends [getBudgetStatusService], from the two amounts
    in display units to the status it returns. *)
Definition statusOf (totalSpentThisMonth budgetLimit : Q) : BudgetStatus :=
  let remaining := (budgetLimit - totalSpentThisMonth)%Q in
  let overBudget := negb (Qle_bool totalSpentThisMonth budgetLimit) in
  let percentageUsed :=
    if negb (Qle_bool budgetLimit 0)
    then Qmin (times (divide totalSpentThisMonth budgetLimit) 100) 100
    else 0%Q in
  {| totalSpentThisMonth := totalSpentThisMonth;
     budgetLimit := budgetLimit;
     remaining := remaining;
     overBudget := overBudget;
     percentageUsed := divide (Math_round (times percentageUsed 100)) 100 |}.

Definition getBudgetStatusService (budgetId : ObjectId) : M BudgetStatus :=
  let! found := findBudgetById budgetId in
  match found with
  | None => throw (NotFoundException "Budget not found")
  | Some budget =>
    if negb (isActive budget) then
      ret {| totalSpentThisMonth := 0;
             budgetLimit := convertToDollarUnit (monthlyLimit budget);
             remaining := convertToDollarUnit (monthlyLimit budget);
             overBudget := false;
             percentageUsed := 0 |}
    else
      let! now := newDate in
      let monthStart := startOfMonth now in
      let monthEnd := endOfMonth now in
      let! aggregationResult := aggregate budget monthStart monthEnd in
      let totalSpentThisMonth := convertToDollarUnit (totalSpentInCents aggregationResult) in
      let budgetLimit := convertToDollarUnit (monthlyLimit budget) in
      ret (statusOf totalSpentThisMonth budgetLimit)
  end.

(** ** The notification dispatcher, [alert.service.ts] *)

Definition nl : string := String (ascii_of_nat 10) EmptyString.

(** [s.replace(/<[^>]*>/g, "")] on the characters that follow; [pending] holds
    an opened tag that has not met its closing bracket yet. *)
Fixpoint stripTags_from (pending : option string) (s : string) : string :=
  match s with
  | EmptyString => match pending with Some p => p | None => EmptyString end
  | String c rest =>
    match pending with
    | None =>
        if Ascii.eqb c "<" then stripTags_from (Some "<") rest
        else String c (stripTags_from None rest)
    | Some p =>
        if Ascii.eqb c ">" then stripTags_from None rest
        else stripTags_from (Some (p ++ String c EmptyString)) rest
    end
  end.

Definition stripTags (s : string) : string := stripTags_from None s.

Definition thresholdText (threshold : Z) : string :=
  if threshold =? 70 then "70%" else if threshold =? 90 then "90%" else "100%".

Definition isOverBudget (threshold : Z) (metadata : AlertMetadata) : bool :=
  (threshold =? 100) && Qle_bool 100 (meta_percentageUsed metadata).

Definition emailSubject (budget : BudgetDocument) (threshold : Z)
    (metadata : AlertMetadata) : string :=
  if isOverBudget threshold metadata
  then "🚨 Budget Exceeded: " ++ budget_name budget
  else "⚠️ Budget Alert: " ++ budget_name budget ++ " - "
       ++ thresholdText threshold ++ " Used".

Definition emailBody (user : UserDocument) (budget : BudgetDocument)
    (threshold : Z) (metadata : AlertMetadata) : string :=
  let over := isOverBudget threshold metadata in
  nl ++ "        <h2>" ++ (if over then "Budget Exceeded!" else "Budget Alert")
     ++ "</h2>" ++ nl
  ++ "        <p>Hello " ++ user_name user ++ ",</p>" ++ nl
  ++ "        <p>Your budget <strong>" ++ budget_name budget
     ++ "</strong> has reached " ++ thresholdText threshold
     ++ " of its limit.</p>" ++ nl
  ++ "        <ul>" ++ nl
  ++ "          <li><strong>Budget Limit:</strong> "
     ++ formatCurrency (meta_budgetLimit metadata) ++ "</li>" ++ nl
  ++ "          <li><strong>Current Spending:</strong> "
     ++ formatCurrency (currentSpending metadata) ++ "</li>" ++ nl
  ++ "          <li><strong>Percentage Used:</strong> "
     ++ toFixed2 (meta_percentageUsed metadata) ++ "%</li>" ++ nl
  ++ "          <li><strong>Remaining:</strong> "
     ++ formatCurrency (meta_budgetLimit metadata - currentSpending metadata)%Q
     ++ "</li>" ++ nl
  ++ "        </ul>" ++ nl
  ++ "        " ++ (if over
       then "<p style='color: red;'><strong>⚠️ You have exceeded your budget limit!</strong></p>"
       else EmptyString) ++ nl
  ++ "        <p>Please review your spending and adjust accordingly.</p>" ++ nl
  ++ "      ".

Definition smsMessage (budget : BudgetDocument) (threshold : Z)
    (metadata : AlertMetadata) : string :=
  if isOverBudget threshold metadata
  then "🚨 Budget Alert: " ++ budget_name budget ++ " exceeded! Spent: "
       ++ formatCurrency (currentSpending metadata) ++ " of "
       ++ formatCurrency (meta_budgetLimit metadata)
  else "⚠️ Budget Alert: " ++ budget_name budget ++ " - "
       ++ thresholdText threshold ++ " used. Spent: "
       ++ formatCurrency (currentSpending metadata) ++ " of "
       ++ formatCurrency (meta_budgetLimit metadata).

(** [await sendEmail(p)]: the message is handed to the mailer, which delivers
    it or throws. *)
Definition sendEmail (p : EmailParams) : M Delivery :=
  fun w => (Ok (sendEmail_outcome (length (outbox w)) p),
            set_outbox (outbox w ++ [EmailAttempt p]) w).

(** [await sendSMS(phoneNumber, message)] *)
Definition sendSMS (phoneNumber message : string) : M Delivery :=
  fun w => (Ok (sendSMS_outcome (length (outbox w)) phoneNumber message),
            set_outbox (outbox w ++ [SmsAttempt phoneNumber message]) w).

(** The document mongoose stores for [input] at time [now]
    ([timestamps: true]). *)
Definition timestamped (input : AlertInput) (now : Date) : AlertDocument :=
  {| alert_userId := in_userId input;
     alert_budgetId := in_budgetId input;
     alert_householdId := in_householdId input;
     alertType := in_alertType input;
     threshold := in_threshold input;
     status := in_status input;
     sentAt := in_sentAt input;
     errorMessage := in_errorMessage input;
     metadata := in_metadata input;
     createdAt := now;
     updatedAt := now |}.

(** The validator of the path [threshold] of the alert schema,
    [{ type: Number, enum: Object.values(AlertThresholdEnum), required: true }]. *)
Definition thresholdValidator (v : Z) : bool :=
  enumValidator AlertThresholdEnum_values v.

(** [AlertModel.create]: mongoose validates the document against the schema
    and rejects it with a validation error when a path fails; a document that
    passes gets its timestamps and is appended to the collection. *)
Definition createAlert (input : AlertInput) : M AlertDocument :=
  fun w =>
    if thresholdValidator (in_threshold input) then
      let doc := timestamped input (clock (ticks w)) in
      (Ok doc, set_ticks (S (ticks w)) (set_alerts (alerts w ++ [doc]) w))
    else (Throw (ValidationError "threshold"), w).

(** [householdId ? new mongoose.Types.ObjectId(householdId) : undefined] *)
Definition householdObjectId (householdId : option string) : option ObjectId :=
  match householdId with
  | Some h => if truthy h then Some h else None
  | None => None
  end.

(** The alert of one channel, before its outcome is known. *)
Definition alertInput (userId budgetId : ObjectId) (householdId : option string)
    (channel : AlertTypeEnum) (threshold : Z) (metadata : AlertMetadata)
    (st : AlertStatusEnum) (sent : option Date) (err : option string) : AlertInput :=
  {| in_userId := userId;
     in_budgetId := budgetId;
     in_householdId := householdObjectId householdId;
     in_alertType := channel;
     in_threshold := threshold;
     in_status := st;
     in_sentAt := sent;
     in_errorMessage := err;
     in_metadata := Some metadata |}.

(** [error.message] in a [catch] block of the dispatcher, where a validation
    error is one of [AlertModel.create]. *)
Definition errorMessageOf (error : Thrown) : string :=
  match error with
  | AppThrown (NotFoundException msg) => msg
  | AppThrown (BadRequestException msg) => msg
  | ValidationError path =>
      "Alert validation failed: " ++ path ++ ": "
      ++ enumMessage AlertThresholdEnum_values
  end.

(** The [catch] block of one channel: a FAILED row with the error's message.
    Its [create] is not guarded: what it throws leaves the dispatcher. *)
Definition recordFailure (userId budgetId : ObjectId) (householdId : option string)
    (channel : AlertTypeEnum) (threshold : Z) (metadata : AlertMetadata)
    (message : string) (sentAlerts : list AlertDocument) : M (list AlertDocument) :=
  let! _ := createAlert (alertInput userId budgetId householdId channel
                           threshold metadata FAILED None (Some message)) in
  ret sentAlerts.

(** The [try]/[catch] of one channel, once the transport has answered.  When
    the transport delivered, the [try] block goes on with the SENT row, which
    it pushes on [alerts]; what its [create] throws is caught like an error of
    the transport. *)
Definition recordOutcome (userId budgetId : ObjectId) (householdId : option string)
    (channel : AlertTypeEnum) (threshold : Z) (metadata : AlertMetadata)
    (outcome : Delivery) (sentAlerts : list AlertDocument) : M (list AlertDocument) :=
  match outcome with
  | Delivered =>
      try_catch
        (let! now := newDate in
         let! alert := createAlert (alertInput userId budgetId householdId channel
                                      threshold metadata SENT (Some now) None) in
         ret (sentAlerts ++ [alert])%list)
        (fun error =>
           recordFailure userId budgetId householdId channel threshold metadata
             (errorMessageOf error) sentAlerts)
  | Undelivered message =>
      recordFailure userId budgetId householdId channel threshold metadata
        message sentAlerts
  end.

(** [if (user.email) { try { ... } catch { ... } }] *)
Definition emailAlert (userId : ObjectId) (user : UserDocument)
    (budgetId : ObjectId) (budget : BudgetDocument) (householdId : option string)
    (threshold : Z) (metadata : AlertMetadata)
    (sentAlerts : list AlertDocument) : M (list AlertDocument) :=
  if truthy (email user) then
    let body := emailBody user budget threshold metadata in
    let! outcome := sendEmail {| to := email user;
                                 subject := emailSubject budget threshold metadata;
                                 html := body;
                                 text := stripTags body |} in
    recordOutcome userId budgetId householdId EMAIL threshold metadata outcome sentAlerts
  else ret sentAlerts.

(** [if (user.phoneNumber) { try { ... } catch { ... } }] *)
Definition smsAlert (userId : ObjectId) (user : UserDocument)
    (budgetId : ObjectId) (budget : BudgetDocument) (householdId : option string)
    (threshold : Z) (metadata : AlertMetadata)
    (sentAlerts : list AlertDocument) : M (list AlertDocument) :=
  match phoneNumber user with
  | Some phone =>
      if truthy phone then
        let! outcome := sendSMS phone (smsMessage budget threshold metadata) in
        recordOutcome userId budgetId householdId SMS threshold metadata outcome sentAlerts
      else ret sentAlerts
  | None => ret sentAlerts
  end.

(** The result is [None] where the source returns [undefined]. *)
Definition sendBudgetAlertService (userId budgetId : ObjectId)
    (householdId : option string) (threshold : Z) (metadata : AlertMetadata)
    : M (option (list AlertDocument)) :=
  let! user := findUserById userId in
  match user with
  | None => ret None
  | Some user =>
    let! budget := findBudgetById budgetId in
    match budget with
    | None => ret None
    | Some budget =>
      let! sentAlerts := emailAlert userId user budgetId budget householdId
                           threshold metadata [] in
      let! sentAlerts := smsAlert userId user budgetId budget householdId
                           threshold metadata sentAlerts in
      ret (Some sentAlerts)
    end
  end.

(** ** The threshold evaluator, [alert.service.ts] *)

Definition thresholds : list Z :=
  [SEVENTY_PERCENT; NINETY_PERCENT; HUNDRED_PERCENT].

(** The filter of [AlertModel.findOne] in the threshold loop. *)
Definition sentThisMonth (budgetId : ObjectId) (t : Z) (monthStart : Date)
    (a : AlertDocument) : bool :=
  bool_decide (alert_budgetId a = budgetId)
  && (threshold a =? t)
  && bool_decide (status a = SENT)
  && (monthStart <=? createdAt a).

Definition findExistingAlert (budgetId : ObjectId) (t : Z) (monthStart : Date)
    : M (option AlertDocument) :=
  fun w => (Ok (List.find (sentThisMonth budgetId t monthStart) (alerts w)), w).

(** The block that fills [usersToNotify]. *)
Definition resolveUsersToNotify (budget : BudgetDocument) : M (list ObjectId) :=
  match budget_type budget, budget_userId budget, budget_householdId budget with
  | USER, Some userId, _ => ret [userId]
  | HOUSEHOLD, _, Some householdId =>
      let! household := findHouseholdById householdId in
      match household with
      | Some household => ret (map member_userId (members household))
      | None => ret []
      end
  | _, _, _ => ret []
  end.

(** The body of [for (const threshold of thresholds)]. *)
Definition checkThreshold (budgetId : ObjectId) (budget : BudgetDocument)
    (monthStart : Date) (usersToNotify : list ObjectId)
    (metadata : AlertMetadata) (t : Z) : M unit :=
  if Qle_bool (inject_Z t) (meta_percentageUsed metadata) then
    let! existingAlert := findExistingAlert budgetId t monthStart in
    match existingAlert with
    | Some _ => ret tt
    | None =>
        forEach usersToNotify (fun userId =>
          let! _ := sendBudgetAlertService userId budgetId
                      (budget_householdId budget) t metadata in
          ret tt)
    end
  else ret tt.

(** The snapshot passed to the dispatcher; the percentage is neither clamped
    nor rounded here. *)
Definition checkMetadata (budget : BudgetDocument) (aggregationResult : list Z)
    : AlertMetadata :=
  let totalSpentThisMonth := convertToDollarUnit (totalSpentInCents aggregationResult) in
  let budgetLimit := convertToDollarUnit (monthlyLimit budget) in
  let percentageUsed :=
    if negb (Qle_bool budgetLimit 0)
    then times (divide totalSpentThisMonth budgetLimit) 100
    else 0%Q in
  {| currentSpending := totalSpentThisMonth;
     meta_budgetLimit := budgetLimit;
     meta_percentageUsed := percentageUsed |}.

Definition checkBudgetThresholdsService (budgetId : ObjectId) : M unit :=
  let! found := findBudgetById budgetId in
  match found with
  | None => ret tt
  | Some budget =>
    if negb (isActive budget) then ret tt
    else
      let! now := newDate in
      let monthStart := startOfMonth now in
      let monthEnd := endOfMonth now in
      let! aggregationResult := aggregate budget monthStart monthEnd in
      let metadata := checkMetadata budget aggregationResult in
      let! usersToNotify := resolveUsersToNotify budget in
      forEach thresholds
        (checkThreshold budgetId budget monthStart usersToNotify metadata)
  end.

(** ** The alert query surface, [alert.service.ts] *)

Record AlertFilters := {
  filter_budgetId : option string;
  filter_status : option AlertStatusEnum;
  filter_threshold : option Z;
  (** a page size is a count *)
  filter_limit : option nat
}.

(** The [query] object; a key that was not set is [None]. *)
Record AlertQuery := {
  query_userId : ObjectId;
  query_budgetId : option ObjectId;
  query_status : option AlertStatusEnum;
  query_threshold : option Z
}.

(** The three [if (filters?.x)] tests: a filter is copied into the query when
    it is given and truthy. *)
Definition buildQuery (userId : string) (filters : option AlertFilters) : AlertQuery :=
  {| query_userId := userId;
     query_budgetId :=
       match filters with
       | Some f => match filter_budgetId f with
                   | Some b => if truthy b then Some b else None
                   | None => None
                   end
       | None => None
       end;
     query_status :=
       match filters with
       | Some f => filter_status f
       | None => None
       end;
     query_threshold :=
       match filters with
       | Some f => match filter_threshold f with
                   | Some t => if t =? 0 then None else Some t
                   | None => None
                   end
       | None => None
       end |}.

(** [filters?.limit || 50] *)
Definition pageLimit (filters : option AlertFilters) : nat :=
  match filters with
  | Some f => match filter_limit f with
              | Some n => if Nat.eqb n 0 then 50%nat else n
              | None => 50%nat
              end
  | None => 50%nat
  end.

Definition matchesQuery (q : AlertQuery) (a : AlertDocument) : bool :=
  bool_decide (alert_userId a = query_userId q)
  && match query_budgetId q with
     | Some b => bool_decide (alert_budgetId a = b)
     | None => true
     end
  && match query_status q with
     | Some s => bool_decide (status a = s)
     | None => true
     end
  && match query_threshold q with
     | Some t => threshold a =? t
     | None => true
     end.

(** [.sort({ createdAt: -1 })] *)
Definition newerFirst (a b : AlertDocument) : Prop := createdAt b <= createdAt a.

#[global] Instance newerFirst_dec a b : Decision (newerFirst a b).
Proof. unfold newerFirst. apply _. Defined.

(** An alert with its two references populated. *)
Record PopulatedAlert := {
  alert : AlertDocument;
  populated_budget : option (string * BudgetTypeEnum);
  populated_household : option string
}.

Definition populate (w : World) (a : AlertDocument) : PopulatedAlert :=
  {| alert := a;
     populated_budget :=
       match budgets w !! alert_budgetId a with
       | Some b => Some (budget_name b, budget_type b)
       | None => None
       end;
     populated_household :=
       match alert_householdId a with
       | Some h => match households w !! h with
                   | Some hh => Some (household_name hh)
                   | None => None
                   end
       | None => None
       end |}.

Definition getUserAlertsService (userId : string) (filters : option AlertFilters)
    : M (list PopulatedAlert) :=
  fun w =>
    let query := buildQuery userId filters in
    let limit := pageLimit filters in
    let found := filter (fun a => matchesQuery query a = true) (alerts w) in
    (Ok (map (populate w) (take limit (merge_sort newerFirst found))), w).

(** ** Joining a household, [budget.service.ts] *)

Definition saveHousehold (householdId : ObjectId) (h : HouseholdDocument) : M unit :=
  fun w => (Ok tt, set_households (<[householdId := h]> (households w)) w).

Definition joinHouseholdService (householdId userId : string) : M HouseholdDocument :=
  let! found := findHouseholdById householdId in
  match found with
  | None => throw (NotFoundException "Household not found")
  | Some household =>
    if existsb (fun m => String.eqb (member_userId m) userId) (members household)
    then ret household
    else
      let! now := newDate in
      let joined := {| household_name := household_name household;
                       monthlyBudgetLimit := monthlyBudgetLimit household;
                       members := members household
                                  ++ [{| member_userId := userId;
                                         role := MEMBER;
                                         joinedAt := now |}] |} in
      let! _ := saveHousehold householdId joined in
      ret joined
  end.

End Services.

Open Scope list_scope.

(** ** Specification vocabulary *)

(** Modelled from the spec's words [round(x, 2)]: the multiple of [1/10^d]
    nearest to [x], a tie going up. *)
Definition round_dp (d : nat) (x : Q) : Q :=
  (inject_Z (Qfloor (x * inject_Z (10 ^ Z.of_nat d) + (1 # 2)))
   / inject_Z (10 ^ Z.of_nat d))%Q.

(** The spec's words for the percentage: [round(min(spend/limit*100, 100), 2)]
    when the limit is positive, else 0. *)
Definition spec_percentageUsed (spend limit : Q) : Q :=
  if negb (Qle_bool limit 0)
  then round_dp 2 (Qmin (spend / limit * 100) 100)
  else 0%Q.

(** [w'] is [w] after some alerts were appended and some messages were handed
    to the transports; the other collections are the same. *)
Record extends (w w' : World) (rows : list AlertDocument) (msgs : list Attempt)
    : Prop := {
  ext_budgets : budgets w' = budgets w;
  ext_users : users w' = users w;
  ext_households : households w' = households w;
  ext_transactions : transactions w' = transactions w;
  ext_alerts : alerts w' = alerts w ++ rows;
  ext_outbox : outbox w' = outbox w ++ msgs;
  ext_ticks : (ticks w <= ticks w')%nat
}.

(** The address a recipient has on a channel, if any. *)
Definition address (channel : AlertTypeEnum) (user : UserDocument) : option string :=
  match channel with
  | EMAIL => if truthy (email user) then Some (email user) else None
  | SMS => match phoneNumber user with
           | Some phone => if truthy phone then Some phone else None
           | None => None
           end
  end.

(** The channels on which a recipient has an address, in the order in which
    the dispatcher tries them. *)
Definition channelsOf (user : UserDocument) : list AlertTypeEnum :=
  filter (fun channel => is_Some (address channel user)) [EMAIL; SMS].

(** ** A toy deployment, to run the services on *)

(** Days as dates and months of 30 days; the mailer refuses one domain. *)
Definition demoCollaborators : Collaborators :=
  {| clock := fun n => 100 + Z.of_nat n / 50;
     startOfMonth := fun d => d / 30 * 30;
     endOfMonth := fun d => d / 30 * 30 + 29;
     convertToDollarUnit := centsToDollars;
     formatCurrency := fun _ => "$";
     toFixed2 := fun _ => "%";
     sendEmail_outcome := fun _ p =>
       if String.eqb (to p) "bob@down.example"
       then Undelivered "connection refused" else Delivered;
     sendSMS_outcome := sendSMS_placeholder |}.

Definition groceries : BudgetDocument :=
  {| budget_userId := Some "u1"; budget_householdId := None; budget_type := USER;
     monthlyLimit := 50000; budget_name := "Groceries"; isActive := true |}.

Definition shared : BudgetDocument :=
  {| budget_userId := None; budget_householdId := Some "h1";
     budget_type := HOUSEHOLD;
     monthlyLimit := 50000; budget_name := "Home"; isActive := true |}.

Definition paused : BudgetDocument :=
  {| budget_userId := Some "u1"; budget_householdId := None; budget_type := USER;
     monthlyLimit := 20000; budget_name := "Travel"; isActive := false |}.

Definition alice : UserDocument :=
  {| user_name := "Alice"; email := "alice@up.example";
     phoneNumber := Some "+15550001" |}.

Definition bob : UserDocument :=
  {| user_name := "Bob"; email := "bob@down.example"; phoneNumber := None |}.

Definition home : HouseholdDocument :=
  {| household_name := "Home"; monthlyBudgetLimit := 0;
     members := [{| member_userId := "u1"; role := OWNER; joinedAt := 1 |}] |}.

Definition expense (who : ObjectId) (day cents : Z) : TransactionDocument :=
  {| tx_userId := Some who; tx_householdId := Some "h1"; tx_type := EXPENSE;
     tx_date := day; tx_status := "COMPLETED"; amount := cents |}.

(** A row of the alert ledger, as it is found there. *)
Definition sentRow (who budgetId : ObjectId) (channel : AlertTypeEnum) (t : Z)
    (st : AlertStatusEnum) (day : Date) : AlertDocument :=
  {| alert_userId := who; alert_budgetId := budgetId; alert_householdId := None;
     alertType := channel; threshold := t; status := st;
     sentAt := None; errorMessage := None; metadata := None;
     createdAt := day; updatedAt := day |}.

Definition demoWorld (ledger : list TransactionDocument)
    (rows : list AlertDocument) : World :=
  {| budgets := <["b1" := groceries]> (<["b2" := shared]> (<["b3" := paused]> ∅));
     users := <["u1" := alice]> (<["u2" := bob]> ∅);
     households := <["h1" := home]> ∅;
     transactions := ledger;
     alerts := rows;
     outbox := [];
     ticks := 0 |}.

(** Alice has spent 620.00 of the 500.00 of her groceries budget. *)
Definition overspent : World := demoWorld [expense "u1" 100 62000] [].

(** Alice has spent 475.00 of 500.00. *)
Definition nearLimit : World := demoWorld [expense "u1" 100 47500] [].

(** As [overspent], with a row on the ledger that has threshold 90 of the
    groceries budget as sent by SMS to Bob earlier in the month. *)
Definition notified : World :=
  demoWorld [expense "u1" 100 62000] [sentRow "u2" "b1" SMS 90 SENT 95].

(** The household has spent 620.00 of the 500.00 of its budget, and a row
    on the ledger has threshold 90 as sent to Alice by email earlier in the
    month. *)
Definition notifiedHome : World :=
  demoWorld [expense "u1" 100 62000] [sentRow "u1" "b2" EMAIL 90 SENT 95].

(** One alert of threshold 70 for Alice is on record. *)
Definition oneAlert : World :=
  demoWorld [] [sentRow "u1" "b1" EMAIL 70 SENT 95].

Definition zeroFilters : AlertFilters :=
  {| filter_budgetId := None; filter_status := None;
     filter_threshold := Some 0; filter_limit := Some 0%nat |}.

Definition someMetadata : AlertMetadata :=
  {| currentSpending := 620; meta_budgetLimit := 500;
     meta_percentageUsed := 124 |}.

(** ** More of [budget.service.ts] *)

Definition set_budgets (b : gmap ObjectId BudgetDocument) (w : World) : World :=
  {| budgets := b; users := users w; households := households w;
     transactions := transactions w; alerts := alerts w; outbox := outbox w;
     ticks := ticks w |}.

(** [{ success: true }] *)
Record Success := { success : bool }.

(** The result of [getUserBudgetsService]; a document is listed with its
    [_id].  The order in which [find] lists documents is not modelled. *)
Record UserBudgets := {
  userBudgets : list (ObjectId * BudgetDocument);
  householdBudgets : list (ObjectId * BudgetDocument)
}.

(** The outcome of a service that is written without the monad. *)
Inductive Outcome (A : Type) :=
| Returned (a : A)
| Raised (t : Thrown).
Arguments Returned {A} a.
Arguments Raised {A} t.

Section MoreServices.
Context `{Collaborators}.

(** [household.members.some(m => m.userId.toString() === userId.toString())] *)
Definition isMember (userId : string) (household : HouseholdDocument) : bool :=
  existsb (fun m => String.eqb (member_userId m) userId) (members household).

(** [household.members.find(m => m.userId.toString() === userId.toString())] *)
Definition findMember (userId : string) (household : HouseholdDocument)
    : option HouseholdMember :=
  List.find (fun m => String.eqb (member_userId m) userId) (members household).

(** [HouseholdModel.findById(budget.householdId)]: mongoose looks for
    [_id: null] when the id is [undefined], and finds nothing. *)
Definition findHouseholdOf (budget : BudgetDocument) : M (option HouseholdDocument) :=
  fun w => (Ok match budget_householdId budget with
               | Some householdId => households w !! householdId
               | None => None
               end, w).

(** [budget.userId?.toString() !== userId.toString()] *)
Definition notOwnedBy (userId : string) (budget : BudgetDocument) : bool :=
  match budget_userId budget with
  | Some owner => negb (String.eqb owner userId)
  | None => true
  end.

Definition getBudgetByIdService (budgetId userId : string) : M BudgetDocument :=
  let! found := findBudgetById budgetId in
  match found with
  | None => throw (NotFoundException "Budget not found")
  | Some budget =>
    match budget_type budget with
    | USER =>
        if notOwnedBy userId budget
        then throw (BadRequestException "You don't have access to this budget")
        else ret budget
    | HOUSEHOLD =>
        let! household := findHouseholdOf budget in
        match household with
        | None => throw (NotFoundException "Household not found")
        | Some household =>
            if negb (isMember userId household)
            then throw (BadRequestException "You don't have access to this budget")
            else ret budget
        end
    end
  end.

(** [BudgetModel.findByIdAndDelete(budgetId)] *)
Definition findBudgetByIdAndDelete (budgetId : ObjectId) : M unit :=
  fun w => (Ok tt, set_budgets (delete budgetId (budgets w)) w).

Definition deleteBudgetService (budgetId userId : string) : M Success :=
  let! found := findBudgetById budgetId in
  match found with
  | None => throw (NotFoundException "Budget not found")
  | Some budget =>
    let! _ :=
      match budget_type budget with
      | USER =>
          if notOwnedBy userId budget
          then throw (BadRequestException "You can only delete your own budgets")
          else ret tt
      | HOUSEHOLD =>
          let! household := findHouseholdOf budget in
          match household with
          | None => throw (NotFoundException "Household not found")
          | Some household =>
              match findMember userId household with
              | Some member =>
                  match role member with
                  | OWNER => ret tt
                  | _ => throw (BadRequestException
                                  "Only owners can delete household budgets")
                  end
              | None => throw (BadRequestException
                                 "Only owners can delete household budgets")
              end
          end
      end in
    let! _ := findBudgetByIdAndDelete budgetId in
    ret {| success := true |}
  end.

(** The three [find] queries of [getUserBudgetsService]. *)
Definition isUserBudgetOf (userId : string) (entry : ObjectId * BudgetDocument) : bool :=
  bool_decide (budget_type (snd entry) = USER)
  && bool_decide (budget_userId (snd entry) = Some userId)
  && isActive (snd entry).

Definition isHouseholdBudgetIn (householdIds : list ObjectId)
    (entry : ObjectId * BudgetDocument) : bool :=
  bool_decide (budget_type (snd entry) = HOUSEHOLD)
  && match budget_householdId (snd entry) with
     | Some householdId => bool_decide (householdId ∈ householdIds)
     | None => false
     end
  && isActive (snd entry).

Definition getUserBudgetsService (userId : string) : M UserBudgets :=
  fun w =>
    let userBudgets :=
      filter (fun entry => isUserBudgetOf userId entry = true)
             (map_to_list (budgets w)) in
    let households :=
      filter (fun entry => isMember userId (snd entry) = true)
             (map_to_list (households w)) in
    let householdIds := map fst households in
    let householdBudgets :=
      filter (fun entry => isHouseholdBudgetIn householdIds entry = true)
             (map_to_list (budgets w)) in
    (Ok {| userBudgets := userBudgets; householdBudgets := householdBudgets |}, w).

(** The [$match] stage of the legacy status. *)
Definition matchHousehold (householdId : ObjectId) (monthStart monthEnd : Date)
    (t : TransactionDocument) : bool :=
  bool_decide (tx_householdId t = Some householdId)
  && bool_decide (tx_type t = EXPENSE)
  && (monthStart <=? tx_date t) && (tx_date t <=? monthEnd)
  && String.eqb (tx_status t) "COMPLETED".

Definition householdAggregation (householdId : ObjectId)
    (monthStart monthEnd : Date) (ledger : list TransactionDocument) : list Z :=
  match filter (fun t => matchHousehold householdId monthStart monthEnd t = true)
               ledger with
  | [] => []
  | matched => [toNumber (foldr (fun t acc => amount t + acc) 0 matched)]
  end.

Definition getBudgetStatusByHouseholdService (householdId : string) : M BudgetStatus :=
  let! found := findHouseholdById householdId in
  match found with
  | None => throw (NotFoundException "Household not found")
  | Some household =>
    let! now := newDate in
    let monthStart := startOfMonth now in
    let monthEnd := endOfMonth now in
    let! aggregationResult :=
      (fun w => (Ok (householdAggregation householdId monthStart monthEnd
                       (transactions w)), w)) in
    let totalSpentThisMonth := convertToDollarUnit (totalSpentInCents aggregationResult) in
    let budgetLimit := convertToDollarUnit (monthlyBudgetLimit household) in
    ret (statusOf totalSpentThisMonth budgetLimit)
  end.

(** [utils/format-currency] is not among the sources: the conversion of an
    amount to minor units is a parameter. *)
Variable convertToCents : Q -> Z.

(** [household.save()] after the limit was assigned: mongoose validates
    [monthlyBudgetLimit] against [min: 0] and rejects the save when it fails;
    nothing is stored then. *)
Definition updateBudgetLimitService (householdId userId : ObjectId) (newLimit : Q)
    : World -> Outcome HouseholdDocument * World :=
  fun w =>
    match households w !! householdId with
    | None => (Raised (AppThrown (NotFoundException "Household not found")), w)
    | Some household =>
      match findMember userId household with
      | None =>
          (Raised (AppThrown (NotFoundException
                                "User is not a member of this household")), w)
      | Some member =>
          match role member with
          | OWNER =>
              let updated :=
                {| household_name := household_name household;
                   monthlyBudgetLimit := convertToCents newLimit;
                   members := members household |} in
              if monthlyBudgetLimit updated <? 0
              then (Raised (ValidationError "monthlyBudgetLimit"), w)
              else (Returned updated,
                    set_households (<[householdId := updated]> (households w)) w)
          | _ =>
              (Raised (AppThrown (NotFoundException
                                    "Only household owners can update budget limit")), w)
          end
      end
    end.

End MoreServices.

(** ** More specification vocabulary *)

(** [s] holds the character [>]. *)
Fixpoint closes (s : string) : bool :=
  match s with
  | EmptyString => false
  | String c rest => Ascii.eqb c ">" || closes rest
  end.

(** The pattern [<[^>]*>] matches somewhere in [s]: some [<] is followed,
    sooner or later, by a [>]. *)
Fixpoint hasTag (s : string) : bool :=
  match s with
  | EmptyString => false
  | String c rest => (Ascii.eqb c "<" && closes rest) || hasTag rest
  end.

(** Modelled from the spec: [utils/format-currency] is not part of the
    sources; an amount in display units is 100 times as many minor units,
    rounded to the nearest integer. *)
Definition dollarsToCents (amount : Q) : Z := Qfloor (amount * 100 + (1 # 2)).

Section MoreVocabulary.
Context `{Collaborators}.

(** The email that the dispatcher renders for a recipient. *)
Definition renderedEmail (user : UserDocument) (budget : BudgetDocument)
    (t : Z) (metadata0 : AlertMetadata) : EmailParams :=
  {| to := email user;
     subject := emailSubject budget t metadata0;
     html := emailBody user budget t metadata0;
     text := stripTags (emailBody user budget t metadata0) |}.

(** [msg] is the email or the SMS that the dispatcher renders for [user]
    about threshold [t] of [budget]. *)
Definition messageOf (user : UserDocument) (budget : BudgetDocument) (t : Z)
    (metadata0 : AlertMetadata) (msg : Attempt) : Prop :=
  match msg with
  | EmailAttempt p => p = renderedEmail user budget t metadata0
  | SmsAttempt phone body =>
      phoneNumber user = Some phone /\ body = smsMessage budget t metadata0
  end.

(** What the transport answers to the [n]-th message. *)
Definition transport (n : nat) (msg : Attempt) : Delivery :=
  match msg with
  | EmailAttempt p => sendEmail_outcome n p
  | SmsAttempt phone body => sendSMS_outcome n phone body
  end.

(** The message that the dispatcher renders for [user] on [channel]. *)
Definition rendered (channel : AlertTypeEnum) (user : UserDocument)
    (budget : BudgetDocument) (t : Z) (metadata0 : AlertMetadata) : Attempt :=
  match channel with
  | EMAIL => EmailAttempt (renderedEmail user budget t metadata0)
  | SMS => SmsAttempt (default EmptyString (phoneNumber user))
             (smsMessage budget t metadata0)
  end.

(** The world in which a channel gives up: [msg] was handed to its transport,
    and the clock was read for [sentAt] when the transport delivered. *)
Definition afterAttempt (w : World) (msg : Attempt) : World :=
  let w1 := set_outbox (outbox w ++ [msg]) w in
  match transport (length (outbox w)) msg with
  | Delivered => set_ticks (S (ticks w1)) w1
  | Undelivered _ => w1
  end.

(** The recipients of a budget, read from the households on record. *)
Definition recipients (hs : gmap ObjectId HouseholdDocument)
    (budget : BudgetDocument) : list ObjectId :=
  match budget_type budget, budget_userId budget, budget_householdId budget with
  | USER, Some userId, _ => [userId]
  | HOUSEHOLD, _, Some householdId =>
      match hs !! householdId with
      | Some household => map member_userId (members household)
      | None => []
      end
  | _, _, _ => []
  end.

(** The first of the recipients that the dispatcher can reach, with the
    channel that it tries first. *)
Fixpoint firstReachable (us : gmap ObjectId UserDocument)
    (usersToNotify : list ObjectId) : option (UserDocument * AlertTypeEnum) :=
  match usersToNotify with
  | [] => None
  | userId :: rest =>
      match us !! userId with
      | Some user =>
          match channelsOf user with
          | channel :: _ => Some (user, channel)
          | [] => firstReachable us rest
          end
      | None => firstReachable us rest
      end
  end.

(** The spend, in minor units, that a service that starts in [w] aggregates
    for [budget]. *)
Definition spentInCents (w : World) (budget : BudgetDocument) : Z :=
  totalSpentInCents
    (aggregation budget (startOfMonth (clock (ticks w)))
       (endOfMonth (clock (ticks w))) (transactions w)).

(** The start of the month in which a check that starts in [w] runs. *)
Definition monthStartAt (w : World) : Date := startOfMonth (clock (ticks w)).

(** The snapshot that a check that starts in [w] computes for [budget]. *)
Definition snapshot (w : World) (budget : BudgetDocument) : AlertMetadata :=
  checkMetadata budget
    (aggregation budget (startOfMonth (clock (ticks w)))
       (endOfMonth (clock (ticks w))) (transactions w)).

(** The inner loop of the evaluator: threshold [t] goes to every recipient. *)
Definition dispatchAll (budgetId : ObjectId) (budget : BudgetDocument)
    (usersToNotify : list ObjectId) (metadata0 : AlertMetadata) (t : Z) : M unit :=
  forEach usersToNotify (fun userId =>
    let! _ := sendBudgetAlertService userId budgetId
                (budget_householdId budget) t metadata0 in
    ret tt).

(** Threshold [t] is due: the percentage has reached it, and the ledger holds
    no SENT alert for it since the start of the month. *)
Definition due (budgetId : ObjectId) (monthStart : Date)
    (metadata0 : AlertMetadata) (ledger : list AlertDocument) (t : Z) : bool :=
  Qle_bool (inject_Z t) (meta_percentageUsed metadata0)
  && match List.find (sentThisMonth budgetId t monthStart) ledger with
     | Some _ => false
     | None => true
     end.

(** The spec's words for the percentage with JavaScript's arithmetic:
    [Math.round(Math.min(spend / limit * 100, 100) * 100) / 100] when the
    limit is positive, else 0. *)
Definition double_percentageUsed (spend limit : Q) : Q :=
  if negb (Qle_bool limit 0)
  then divide (Math_round (times (Qmin (times (divide spend limit) 100) 100) 100)) 100
  else 0%Q.

End MoreVocabulary.

(** Whom a message is for, and how it starts: the subject of an email, the
    body of a text message. *)
Definition headline (msg : Attempt) : string * string :=
  match msg with
  | EmailAttempt p => (to p, subject p)
  | SmsAttempt phone body => (phone, body)
  end.

(** The value a service returned, or the empty list when it threw. *)
Definition fst_ok {A} (run : Result (list A) * World) : list A :=
  match fst run with
  | Ok l => l
  | Throw _ => []
  end.

(** Who may read a budget: its owner, or any member of its household. *)
Definition mayRead (w : World) (userId : ObjectId) (budget : BudgetDocument) : Prop :=
  match budget_type budget with
  | USER => budget_userId budget = Some userId
  | HOUSEHOLD =>
      exists householdId household,
        budget_householdId budget = Some householdId
        /\ households w !! householdId = Some household
        /\ userId ∈ map member_userId (members household)
  end.

(** Who may delete a budget: its owner, or the member of its household whose
    (first) membership has the role OWNER. *)
Definition mayDelete (w : World) (userId : ObjectId) (budget : BudgetDocument) : Prop :=
  match budget_type budget with
  | USER => budget_userId budget = Some userId
  | HOUSEHOLD =>
      exists householdId household member,
        budget_householdId budget = Some householdId
        /\ households w !! householdId = Some household
        /\ findMember userId household = Some member
        /\ role member = OWNER
  end.

(** Alice has spent 360.00 of 500.00, and threshold 70 was sent to her. *)
Definition settled : World :=
  demoWorld [expense "u1" 100 36000] [sentRow "u1" "b1" EMAIL 70 SENT 95].

(** A budget without a limit, on record beside the others of [overspent]. *)
Definition unlimited : BudgetDocument :=
  {| budget_userId := Some "u1"; budget_householdId := None; budget_type := USER;
     monthlyLimit := 0; budget_name := "Anything"; isActive := true |}.

Definition unlimitedWorld : World :=
  set_budgets (<["b4" := unlimited]> (budgets overspent)) overspent.

(** A budget of 40.00 of which Alice has spent 23 cents. *)
Definition pocket : BudgetDocument :=
  {| budget_userId := Some "u1"; budget_householdId := None; budget_type := USER;
     monthlyLimit := 4000; budget_name := "Pocket"; isActive := true |}.

Definition pennies : World :=
  let w := demoWorld [expense "u1" 100 23] [] in
  set_budgets (<["b5" := pocket]> (budgets w)) w.

(** A budget of 104.00 of which Alice has spent 93.60, nine tenths of it,
    after threshold 70 was sent to her. *)
Definition fuel : BudgetDocument :=
  {| budget_userId := Some "u1"; budget_householdId := None; budget_type := USER;
     monthlyLimit := 10400; budget_name := "Fuel"; isActive := true |}.

Definition ninetyPercent : World :=
  let w := demoWorld [expense "u1" 100 9360] [sentRow "u1" "b6" EMAIL 70 SENT 95] in
  set_budgets (<["b6" := fuel]> (budgets w)) w.

(** Carol has a phone number and no email address; Dave has neither. *)
Definition carol : UserDocument :=
  {| user_name := "Carol"; email := EmptyString; phoneNumber := Some "+15550003" |}.

Definition dave : UserDocument :=
  {| user_name := "Dave"; email := EmptyString; phoneNumber := None |}.

Definition guests : World :=
  {| budgets := budgets overspent;
     users := <["u3" := carol]> (<["u4" := dave]> (users overspent));
     households := households overspent;
     transactions := transactions overspent;
     alerts := alerts overspent;
     outbox := outbox overspent;
     ticks := ticks overspent |}.

(** A recipient the dispatcher cannot reach: not on record, or on record
    without an address on any channel. *)
Definition unreachable (w : World) (userId : ObjectId) : Prop :=
  match users w !! userId with
  | Some user => channelsOf user = []
  | None => True
  end.

#[global] Instance unreachable_dec w userId : Decision (unreachable w userId).
Proof. unfold unreachable. destruct (users w !! userId); apply _. Defined.

(** * Properties *)

(** ** Rounding to the nearest double *)

Lemma pow2_pos k : (0 < 2 ^ k)%Q.
Proof. apply Qpower_0_lt. reflexivity. Qed.

Lemma pow2_Z k : 0 <= k -> (2 ^ k == inject_Z (2 ^ k))%Q.
Proof. intros Hk. rewrite Zpower_Qpower by done. reflexivity. Qed.

Lemma roundHalfEven_le y M : (y <= inject_Z M)%Q -> roundHalfEven y <= M.
Proof.
  intros Hy. unfold roundHalfEven.
  pose proof (Qfloor_resp_le _ _ Hy) as Hf. rewrite Qfloor_Z in Hf.
  destruct (Z.eq_dec (Qfloor y) M) as [E|E].
  - pose proof (Qfloor_le y) as Hlo. rewrite E in *.
    destruct (Qcompare_spec (y - inject_Z M) (1 # 2)) as [H|H|H]; [lra|lia|lra].
  - destruct (y - inject_Z (Qfloor y) ?= 1 # 2)%Q; [destruct (Z.even _)| |]; lia.
Qed.

Lemma roundHalfEven_ge y M : (inject_Z M <= y)%Q -> M <= roundHalfEven y.
Proof.
  intros Hy. unfold roundHalfEven.
  pose proof (Qfloor_resp_le _ _ Hy) as Hf. rewrite Qfloor_Z in Hf.
  destruct (y - inject_Z (Qfloor y) ?= 1 # 2)%Q; [destruct (Z.even _)| |]; lia.
Qed.

Lemma ilog2_le x : (0 < x)%Q -> (2 ^ ilog2 x <= x)%Q.
Proof.
  destruct x as [n d]. intros Hx. unfold ilog2. cbn [Qnum Qden].
  destruct (Qle_bool (2 ^ (Z.log2 n - Z.log2 (Zpos d))) (n # d)) eqn:E;
    [by apply Qle_bool_iff|].
  assert (Hn : 0 < n) by (unfold Qlt in Hx; cbn in Hx; lia).
  destruct (Z.log2_spec n Hn) as [Hn1 _].
  destruct (Z.log2_spec (Zpos d) (Pos2Z.is_pos d)) as [_ Hd2].
  pose proof (Z.log2_nonneg n) as Ha. pose proof (Z.log2_nonneg (Zpos d)) as Hb.
  replace (Z.log2 n - Z.log2 (Zpos d) - 1)
    with (Z.log2 n - Z.succ (Z.log2 (Zpos d))) by lia.
  rewrite Qpower_minus by discriminate.
  rewrite (pow2_Z (Z.log2 n)), (pow2_Z (Z.succ (Z.log2 (Zpos d)))) by lia.
  apply Qle_shift_div_r.
  - change 0%Q with (inject_Z 0). rewrite <- Zlt_Qlt. lia.
  - unfold Qle, Qmult, inject_Z. cbn [Qnum Qden]. nia.
Qed.

Lemma ilog2_lt x : (0 < x)%Q -> (x < 2 ^ (ilog2 x + 1))%Q.
Proof.
  destruct x as [n d]. intros Hx. unfold ilog2. cbn [Qnum Qden].
  destruct (Qle_bool (2 ^ (Z.log2 n - Z.log2 (Zpos d))) (n # d)) eqn:E.
  - assert (Hn : 0 < n) by (unfold Qlt in Hx; cbn in Hx; lia).
    destruct (Z.log2_spec n Hn) as [_ Hn2].
    destruct (Z.log2_spec (Zpos d) (Pos2Z.is_pos d)) as [Hd1 _].
    pose proof (Z.log2_nonneg n) as Ha. pose proof (Z.log2_nonneg (Zpos d)) as Hb.
    replace (Z.log2 n - Z.log2 (Zpos d) + 1)
      with (Z.succ (Z.log2 n) - Z.log2 (Zpos d)) by lia.
    rewrite Qpower_minus by discriminate.
    rewrite (pow2_Z (Z.succ (Z.log2 n))), (pow2_Z (Z.log2 (Zpos d))) by lia.
    apply Qlt_shift_div_l.
    + change 0%Q with (inject_Z 0). rewrite <- Zlt_Qlt. lia.
    + unfold Qlt, Qmult, inject_Z. cbn [Qnum Qden]. nia.
  - replace (Z.log2 n - Z.log2 (Zpos d) - 1 + 1)
      with (Z.log2 n - Z.log2 (Zpos d)) by lia.
    apply Qnot_le_lt. intros Hle. apply Qle_bool_iff in Hle. congruence.
Qed.

Lemma ulp_pos x : (0 < ulp x)%Q.
Proof. apply pow2_pos. Qed.

(** Rounding [x] to a multiple of [u] does not cross a multiple of [u]. *)
Lemma scaled_le (x u : Q) (m : Z) :
  (0 < u)%Q -> (x <= inject_Z m * u)%Q ->
  (inject_Z (roundHalfEven (x / u)) * u <= inject_Z m * u)%Q.
Proof.
  intros Hu Hx. apply Qmult_le_compat_r; [|lra].
  rewrite <- Zle_Qle. apply roundHalfEven_le.
  apply Qle_shift_div_r; done.
Qed.

Lemma scaled_ge (x u : Q) (m : Z) :
  (0 < u)%Q -> (inject_Z m * u <= x)%Q ->
  (inject_Z m * u <= inject_Z (roundHalfEven (x / u)) * u)%Q.
Proof.
  intros Hu Hx. apply Qmult_le_compat_r; [|lra].
  rewrite <- Zle_Qle. apply roundHalfEven_ge.
  apply Qle_shift_div_l; done.
Qed.

(** An integer is a multiple of a power of two whose exponent is not
    positive. *)
Lemma multiple_of_pow2 (c k : Z) :
  k <= 0 -> (inject_Z c == inject_Z (c * 2 ^ (- k)) * 2 ^ k)%Q.
Proof.
  intros Hk. rewrite inject_Z_mult, <- pow2_Z by lia.
  rewrite <- Qmult_assoc, <- Qpower_plus by discriminate.
  replace (- k + k) with 0 by lia. cbn. ring.
Qed.

Lemma ulp_small x c :
  (0 < x)%Q -> c < 2 ^ 53 -> (x <= inject_Z c)%Q ->
  Z.max (ilog2 x - 52) (-1074) <= 0.
Proof.
  intros Hx Hc Hle.
  assert (H : (2 ^ ilog2 x < 2 ^ 53)%Q).
  { eapply Qle_lt_trans; [by apply ilog2_le|].
    eapply Qle_lt_trans; [exact Hle|].
    rewrite (pow2_Z 53) by lia. by rewrite <- Zlt_Qlt. }
  apply Qpower_lt_compat_l_inv in H; [lia|reflexivity].
Qed.

Lemma nearest_le x c :
  (0 < x)%Q -> c < 2 ^ 53 -> (x <= inject_Z c)%Q -> (nearest x <= inject_Z c)%Q.
Proof.
  intros Hx Hc Hle. unfold nearest, ulp.
  pose proof (ulp_small x c Hx Hc Hle) as Hk.
  rewrite (multiple_of_pow2 c _ Hk) in Hle |- *.
  apply scaled_le; [apply pow2_pos|done].
Qed.

Lemma nearest_ge x c :
  (0 < x)%Q -> c < 2 ^ 53 -> (inject_Z c <= x)%Q -> (inject_Z c <= nearest x)%Q.
Proof.
  intros Hx Hc Hle. unfold nearest, ulp.
  destruct (Z_le_gt_dec (Z.max (ilog2 x - 52) (-1074)) 0) as [Hk|Hk].
  - rewrite (multiple_of_pow2 c _ Hk) in Hle |- *.
    apply scaled_ge; [apply pow2_pos|done].
  - assert (Hmax : Z.max (ilog2 x - 52) (-1074) = ilog2 x - 52) by lia.
    rewrite Hmax in *.
    assert (Hbig : (inject_Z (2 ^ 52) * 2 ^ (ilog2 x - 52) <= x)%Q).
    { rewrite <- (pow2_Z 52), <- Qpower_plus by (lia || discriminate).
      replace (52 + (ilog2 x - 52)) with (ilog2 x) by lia. by apply ilog2_le. }
    eapply Qle_trans; [|apply scaled_ge; [apply pow2_pos|exact Hbig]].
    eapply Qle_trans with (inject_Z (2 ^ 52) * 2 ^ 1)%Q.
    + assert (E : (inject_Z (2 ^ 52) * 2 ^ 1 == inject_Z (2 ^ 53))%Q) by reflexivity.
      rewrite E, <- Zle_Qle. lia.
    + apply Qmult_le_l; [reflexivity|].
      apply Qpower_le_compat_l; [lia|discriminate].
Qed.

Lemma nearest_nonneg x : (0 < x)%Q -> (0 <= nearest x)%Q.
Proof.
  intros Hx. unfold nearest.
  apply Qmult_le_0_compat; [|apply Qlt_le_weak, ulp_pos].
  change 0%Q with (inject_Z 0). rewrite <- Zle_Qle.
  apply roundHalfEven_ge. change (inject_Z 0) with 0%Q.
  apply Qle_shift_div_l; [apply ulp_pos|lra].
Qed.

Lemma binary64_nonneg x : (0 <= x)%Q -> (0 <= binary64 x)%Q.
Proof.
  intros Hx. unfold binary64.
  destruct (Qcompare_spec x 0) as [H|H|H]; [lra|lra|by apply nearest_nonneg].
Qed.

Lemma binary64_nonpos x : (x <= 0)%Q -> (binary64 x <= 0)%Q.
Proof.
  intros Hx. unfold binary64.
  destruct (Qcompare_spec x 0) as [H|H|H]; [lra| |lra].
  assert (0 <= nearest (- x))%Q by (apply nearest_nonneg; lra). lra.
Qed.

(** Rounding does not cross an integer below 2^53. *)
Lemma binary64_le x c :
  0 <= c < 2 ^ 53 -> (x <= inject_Z c)%Q -> (binary64 x <= inject_Z c)%Q.
Proof.
  intros [Hc0 Hc] Hle.
  assert (H0 : (0 <= inject_Z c)%Q) by (change 0%Q with (inject_Z 0); by rewrite <- Zle_Qle).
  unfold binary64. destruct (Qcompare_spec x 0) as [H|H|H]; [done| |].
  - assert (0 <= nearest (- x))%Q by (apply nearest_nonneg; lra). lra.
  - by apply nearest_le.
Qed.

Lemma binary64_ge x c :
  0 <= c < 2 ^ 53 -> (inject_Z c <= x)%Q -> (inject_Z c <= binary64 x)%Q.
Proof.
  intros [Hc0 Hc] Hle.
  assert (H0 : (0 <= inject_Z c)%Q) by (change 0%Q with (inject_Z 0); by rewrite <- Zle_Qle).
  unfold binary64. destruct (Qcompare_spec x 0) as [H|H|H]; [lra|lra|].
  by apply nearest_ge.
Qed.

Lemma binary64_integer c :
  0 <= c < 2 ^ 53 -> (binary64 (inject_Z c) == inject_Z c)%Q.
Proof.
  intros Hc. apply Qle_antisym; [apply binary64_le|apply binary64_ge]; done || lra.
Qed.

(** ** The threshold validator of the alert schema *)

Lemma occursIn_head c needle s :
  occursIn (String c needle) s = true -> holds c s = true.
Proof.
  induction s as [|d s IH]; cbn [occursIn holds String.prefix].
  - intros H. discriminate H.
  - intros H. apply orb_true_iff in H as [H|H].
    + destruct (Ascii.eqb_spec c d) as [->|Hne].
      * done.
      * destruct (ascii_dec c d); [done|discriminate H].
    + rewrite (IH H). apply orb_true_r.
Qed.

Lemma string_of_uint_head d :
  match NilZero.string_of_uint d with
  | EmptyString => False
  | String c _ => holds c "0123456789" = true
  end.
Proof. destruct d; cbn; try done. Qed.

Lemma numberToString_head v :
  match numberToString v with
  | EmptyString => False
  | String c _ => holds c "-0123456789" = true
  end.
Proof.
  unfold numberToString. destruct (Z.to_int v) as [d|d]; cbn.
  - pose proof (string_of_uint_head d) as H.
    destruct (NilZero.string_of_uint d) as [|c s]; [done|].
    cbn in H |- *. rewrite H. apply orb_true_r.
  - done.
Qed.

Lemma holds_digit_no_letter c :
  holds c "-0123456789" = true -> holds c "SEVENTY_PERCENT" = false.
Proof.
  cbn. rewrite !orb_true_iff, !orb_false_r.
  intros H. repeat (destruct H as [H|H]); try discriminate H;
    apply Ascii.eqb_eq in H; subst c; reflexivity.
Qed.

(** The schema's validator rejects every threshold: the decimal text of a
    number is not part of the name [SEVENTY_PERCENT]. *)
Lemma thresholdEnum_rejects v : enumValidator AlertThresholdEnum_values v = false.
Proof.
  cbn. pose proof (numberToString_head v) as H.
  destruct (numberToString v) as [|c s]; [done|].
  destruct (occursIn (String c s) "SEVENTY_PERCENT") eqn:E; [|done].
  apply occursIn_head in E. by rewrite holds_digit_no_letter in E.
Qed.

(** ** Strings *)

Lemma append_cons (c : ascii) (s1 s2 : string) :
  (String c s1 ++ s2)%string = String c (s1 ++ s2)%string.
Proof. reflexivity. Qed.

Lemma append_empty (s : string) : (EmptyString ++ s)%string = s.
Proof. reflexivity. Qed.

Lemma append_inv_head (p s1 s2 : string) :
  (p ++ s1)%string = (p ++ s2)%string -> s1 = s2.
Proof.
  induction p as [|c p IH]; [done|].
  rewrite !append_cons. intros [= Heq]. by apply IH.
Qed.

Section Properties.
Context `{Collaborators}.

Lemma extends_refl w : extends w w [] [].
Proof. constructor; rewrite ?app_nil_r; auto. Qed.

Lemma afterAttempt_extends w msg : extends w (afterAttempt w msg) [] [msg].
Proof.
  unfold afterAttempt.
  destruct (transport (length (outbox w)) msg); constructor; cbn;
    rewrite ?app_nil_r; auto.
Qed.

(** *** The dispatcher *)

(** No alert passes the schema. *)
Lemma createAlert_rejects input w :
  createAlert input w = (Throw (ValidationError "threshold"), w).
Proof. unfold createAlert, thresholdValidator. by rewrite thresholdEnum_rejects. Qed.

(** So the row of a channel is never stored: the SENT row is rejected inside
    the [try] block, and the FAILED row of the [catch] block is rejected in
    turn. *)
Lemma recordOutcome_raises userId budgetId householdId channel t metadata0
    outcome sentAlerts w :
  recordOutcome userId budgetId householdId channel t metadata0 outcome
    sentAlerts w
  = (Throw (ValidationError "threshold"),
     match outcome with
     | Delivered => set_ticks (S (ticks w)) w
     | Undelivered _ => w
     end).
Proof.
  destruct outcome as [|message];
    unfold recordOutcome, try_catch, recordFailure, bind, newDate;
    by rewrite !createAlert_rejects.
Qed.

Lemma emailAlert_run userId user budgetId budget householdId t metadata0
    sentAlerts w :
  emailAlert userId user budgetId budget householdId t metadata0 sentAlerts w
  = match address EMAIL user with
    | Some _ => (Throw (ValidationError "threshold"),
                 afterAttempt w (rendered EMAIL user budget t metadata0))
    | None => (Ok sentAlerts, w)
    end.
Proof.
  unfold emailAlert, address. destruct (truthy (email user)); [|done].
  unfold bind, sendEmail. rewrite recordOutcome_raises.
  unfold afterAttempt, rendered, renderedEmail, transport.
  by destruct (sendEmail_outcome _ _).
Qed.

Lemma smsAlert_run userId user budgetId budget householdId t metadata0
    sentAlerts w :
  smsAlert userId user budgetId budget householdId t metadata0 sentAlerts w
  = match address SMS user with
    | Some _ => (Throw (ValidationError "threshold"),
                 afterAttempt w (rendered SMS user budget t metadata0))
    | None => (Ok sentAlerts, w)
    end.
Proof.
  unfold smsAlert, address, afterAttempt, rendered, transport.
  destruct (phoneNumber user) as [phone|]; [|done].
  destruct (truthy phone); [|done].
  unfold bind, sendSMS. rewrite recordOutcome_raises. cbn [default].
  by destruct (sendSMS_outcome _ _ _).
Qed.

(** The dispatcher for a recipient and a budget that are both on record: it
    returns when the recipient has no address, and else raises on the first
    channel that has one. *)
Lemma sendBudgetAlertService_run userId user budgetId budget householdId t
    metadata0 w :
  users w !! userId = Some user ->
  budgets w !! budgetId = Some budget ->
  sendBudgetAlertService userId budgetId householdId t metadata0 w
  = match channelsOf user with
    | channel :: _ =>
        (Throw (ValidationError "threshold"),
         afterAttempt w (rendered channel user budget t metadata0))
    | [] => (Ok (Some []), w)
    end.
Proof.
  intros Hu Hb.
  unfold sendBudgetAlertService, bind at 1, findUserById. rewrite Hu.
  unfold bind at 1, findBudgetById. rewrite Hb.
  unfold bind at 1. rewrite emailAlert_run.
  unfold channelsOf. rewrite !filter_cons, filter_nil.
  destruct (address EMAIL user) as [addr|].
  - by rewrite decide_True by (by eexists).
  - rewrite decide_False by (by intros [? ?]).
    unfold bind. rewrite smsAlert_run.
    destruct (address SMS user) as [addr|].
    + by rewrite decide_True by (by eexists).
    + by rewrite decide_False by (by intros [? ?]).
Qed.

Lemma sendBudgetAlertService_dangling userId budgetId householdId t metadata0 w :
  users w !! userId = None \/ budgets w !! budgetId = None ->
  sendBudgetAlertService userId budgetId householdId t metadata0 w
  = (Ok None, w).
Proof.
  intros Hmissing.
  unfold sendBudgetAlertService, bind, findUserById, findBudgetById.
  destruct (users w !! userId) as [user|]; [|done].
  destruct Hmissing as [?|Hb]; [done|]. by rewrite Hb.
Qed.

Lemma dispatchAll_run budgetId budget0 budget usersToNotify metadata0 t w :
  budgets w !! budgetId = Some budget0 ->
  dispatchAll budgetId budget usersToNotify metadata0 t w
  = match firstReachable (users w) usersToNotify with
    | Some (user, channel) =>
        (Throw (ValidationError "threshold"),
         afterAttempt w (rendered channel user budget0 t metadata0))
    | None => (Ok tt, w)
    end.
Proof.
  intros Hb. induction usersToNotify as [|u rest IH]; [done|].
  unfold dispatchAll in *. cbn [forEach firstReachable]. unfold bind at 1 2.
  destruct (users w !! u) as [user|] eqn:Hu.
  - rewrite (sendBudgetAlertService_run u user budgetId budget0) by done.
    destruct (channelsOf user); [exact IH|done].
  - rewrite sendBudgetAlertService_dangling by auto. exact IH.
Qed.

Lemma firstReachable_None us usersToNotify :
  firstReachable us usersToNotify = None
  <-> forall userId, userId ∈ usersToNotify ->
        match us !! userId with
        | Some user => channelsOf user = []
        | None => True
        end.
Proof.
  induction usersToNotify as [|u rest IH]; cbn [firstReachable].
  - split; [|done]. intros _ userId Hin. by apply elem_of_nil in Hin.
  - split.
    + intros Hnone userId Hin. apply elem_of_cons in Hin as [->|Hin].
      * destruct (us !! u) as [user|]; [|done].
        by destruct (channelsOf user).
      * apply IH; [|done].
        destruct (us !! u) as [user|]; [|done].
        by destruct (channelsOf user).
    + intros Hall.
      assert (Hrest : firstReachable us rest = None).
      { apply IH. intros userId Hin. apply Hall. by apply list_elem_of_further. }
      pose proof (Hall u (list_elem_of_here _ _)) as Hu.
      destruct (us !! u) as [user|]; [|done]. by rewrite Hu.
Qed.

Lemma firstReachable_Some us usersToNotify user channel :
  firstReachable us usersToNotify = Some (user, channel) ->
  exists userId others,
    userId ∈ usersToNotify /\ us !! userId = Some user
    /\ channelsOf user = channel :: others.
Proof.
  induction usersToNotify as [|u rest IH]; cbn [firstReachable]; [done|].
  destruct (us !! u) as [user0|] eqn:Hu.
  - destruct (channelsOf user0) as [|channel0 others] eqn:Hc.
    + intros Hrest. destruct (IH Hrest) as (userId & others & Hin & Hrec).
      exists userId, others. split; [by apply list_elem_of_further|done].
    + intros [= <- <-]. exists u, others. split; [apply list_elem_of_here|done].
  - intros Hrest. destruct (IH Hrest) as (userId & others & Hin & Hrec).
    exists userId, others. split; [by apply list_elem_of_further|done].
Qed.

(** *** The threshold loop *)

Lemma find_app {A} (p : A -> bool) (l l' : list A) :
  List.find p (l ++ l')
  = match List.find p l with Some x => Some x | None => List.find p l' end.
Proof.
  induction l as [|x l IH]; cbn; [done|]. by destruct (p x).
Qed.

Lemma find_sent_iff budgetId t monthStart (l : list AlertDocument) :
  List.find (sentThisMonth budgetId t monthStart) l <> None
  <-> exists a, a ∈ l /\ alert_budgetId a = budgetId /\ threshold a = t
                /\ status a = SENT /\ monthStart <= createdAt a.
Proof.
  assert (Hspec : forall a, sentThisMonth budgetId t monthStart a = true
            <-> alert_budgetId a = budgetId /\ threshold a = t
                /\ status a = SENT /\ monthStart <= createdAt a).
  { intros a. unfold sentThisMonth.
    rewrite !andb_true_iff, !bool_decide_eq_true, Z.eqb_eq, Z.leb_le. tauto. }
  split.
  - destruct (List.find _ l) as [a|] eqn:Hfind; [intros _|done].
    apply List.find_some in Hfind as [Hin Hp].
    exists a. split; [by apply list_elem_of_In|]. by apply Hspec.
  - intros (a & Hin & Ha) Hnone.
    pose proof (List.find_none _ _ Hnone a) as Hf.
    apply list_elem_of_In in Hin. specialize (Hf Hin).
    apply Hspec in Ha. congruence.
Qed.

Lemma checkThreshold_suppressed budgetId budget monthStart usersToNotify
    metadata0 t w :
  List.find (sentThisMonth budgetId t monthStart) (alerts w) <> None ->
  checkThreshold budgetId budget monthStart usersToNotify metadata0 t w
  = (Ok tt, w).
Proof.
  intros Hfound. unfold checkThreshold.
  destruct (Qle_bool (inject_Z t) (meta_percentageUsed metadata0)); [|done].
  unfold bind, findExistingAlert.
  by destruct (List.find (sentThisMonth budgetId t monthStart) (alerts w)).
Qed.

Lemma checkThreshold_fires budgetId budget monthStart usersToNotify
    metadata0 t w :
  Qle_bool (inject_Z t) (meta_percentageUsed metadata0) = true ->
  List.find (sentThisMonth budgetId t monthStart) (alerts w) = None ->
  checkThreshold budgetId budget monthStart usersToNotify metadata0 t w
  = dispatchAll budgetId budget usersToNotify metadata0 t w.
Proof.
  intros Hpct Hnone. unfold checkThreshold. rewrite Hpct.
  unfold bind at 1, findExistingAlert. by rewrite Hnone.
Qed.

Lemma checkThreshold_below budgetId budget monthStart usersToNotify metadata0 t w :
  Qle_bool (inject_Z t) (meta_percentageUsed metadata0) = false ->
  checkThreshold budgetId budget monthStart usersToNotify metadata0 t w
  = (Ok tt, w).
Proof. intros Hpct. unfold checkThreshold. by rewrite Hpct. Qed.

Lemma due_spec budgetId monthStart metadata0 ledger t :
  due budgetId monthStart metadata0 ledger t = true
  <-> (inject_Z t <= meta_percentageUsed metadata0)%Q
      /\ List.find (sentThisMonth budgetId t monthStart) ledger = None.
Proof.
  unfold due. rewrite andb_true_iff, Qle_bool_iff.
  destruct (List.find _ ledger); split; intros [? ?]; done.
Qed.

(** The body of the threshold loop dispatches the thresholds that are due,
    and only those. *)
Lemma checkThreshold_run budgetId budget monthStart usersToNotify metadata0 t w :
  checkThreshold budgetId budget monthStart usersToNotify metadata0 t w
  = if due budgetId monthStart metadata0 (alerts w) t
    then dispatchAll budgetId budget usersToNotify metadata0 t w
    else (Ok tt, w).
Proof.
  unfold due.
  destruct (Qle_bool (inject_Z t) (meta_percentageUsed metadata0)) eqn:Hpct;
    [|by apply checkThreshold_below].
  destruct (List.find (sentThisMonth budgetId t monthStart) (alerts w)) eqn:Hfind.
  - apply checkThreshold_suppressed. congruence.
  - by apply checkThreshold_fires.
Qed.

(** The threshold loop stops at the first threshold that is due, when
    somebody can be reached: the dispatch of that threshold raises. *)
Lemma thresholds_run budgetId budget0 budget monthStart usersToNotify metadata0
    ts w :
  budgets w !! budgetId = Some budget0 ->
  forEach ts (checkThreshold budgetId budget monthStart usersToNotify metadata0) w
  = match firstReachable (users w) usersToNotify,
          List.find (due budgetId monthStart metadata0 (alerts w)) ts with
    | Some (user, channel), Some t =>
        (Throw (ValidationError "threshold"),
         afterAttempt w (rendered channel user budget0 t metadata0))
    | _, _ => (Ok tt, w)
    end.
Proof.
  intros Hb. induction ts as [|t0 rest IH].
  - cbn. by destruct (firstReachable _ _) as [[? ?]|].
  - cbn [forEach List.find]. unfold bind. rewrite checkThreshold_run.
    destruct (due budgetId monthStart metadata0 (alerts w) t0); [|exact IH].
    rewrite (dispatchAll_run budgetId budget0) by done.
    destruct (firstReachable (users w) usersToNotify) as [[user channel]|] eqn:Hr;
      [done|].
    rewrite IH. done.
Qed.

(** *** The evaluator as a whole *)

Lemma resolveUsersToNotify_run budget w :
  resolveUsersToNotify budget w = (Ok (recipients (households w) budget), w).
Proof.
  unfold resolveUsersToNotify, recipients.
  destruct (budget_type budget), (budget_userId budget),
    (budget_householdId budget); try done;
    unfold bind, findHouseholdById; by destruct (households w !! _).
Qed.

Lemma check_run budgetId budget w :
  budgets w !! budgetId = Some budget ->
  isActive budget = true ->
  checkBudgetThresholdsService budgetId w
  = forEach thresholds
      (checkThreshold budgetId budget (monthStartAt w)
         (recipients (households w) budget) (snapshot w budget))
      (set_ticks (S (ticks w)) w).
Proof.
  intros Hb Hact.
  unfold checkBudgetThresholdsService, bind at 1, findBudgetById.
  rewrite Hb, Hact. cbn [negb].
  unfold bind at 1, newDate. unfold bind at 1, aggregate.
  unfold bind at 1. rewrite resolveUsersToNotify_run. reflexivity.
Qed.

Lemma check_idle budgetId w :
  match budgets w !! budgetId with
  | Some budget => isActive budget = false
  | None => True
  end ->
  checkBudgetThresholdsService budgetId w = (Ok tt, w).
Proof.
  unfold checkBudgetThresholdsService, bind, findBudgetById.
  destruct (budgets w !! budgetId) as [budget|]; [|done]. by intros ->.
Qed.

(** The check of an active budget, in full: it reads the clock; when a
    threshold is due and a recipient can be reached, it hands the first
    reachable recipient the message about the first due threshold on their
    first channel and raises the validation error of the row that records
    it; else it returns. *)
Lemma check_outcome budgetId budget w :
  budgets w !! budgetId = Some budget ->
  isActive budget = true ->
  checkBudgetThresholdsService budgetId w
  = match firstReachable (users w) (recipients (households w) budget),
          List.find (due budgetId (monthStartAt w) (snapshot w budget) (alerts w))
            thresholds with
    | Some (user, channel), Some t =>
        (Throw (ValidationError "threshold"),
         afterAttempt (set_ticks (S (ticks w)) w)
           (rendered channel user budget t (snapshot w budget)))
    | _, _ => (Ok tt, set_ticks (S (ticks w)) w)
    end.
Proof.
  intros Hb Hact. rewrite (check_run _ _ _ Hb Hact).
  by rewrite (thresholds_run budgetId budget).
Qed.

(** What a check leaves behind, whatever the budget id: no row, and at most
    one message. *)
Lemma check_frame budgetId w :
  exists r msgs w',
    checkBudgetThresholdsService budgetId w = (r, w')
    /\ extends w w' [] msgs
    /\ (r = Ok tt /\ msgs = []
        \/ r = Throw (ValidationError "threshold") /\ length msgs = 1%nat).
Proof.
  destruct (budgets w !! budgetId) as [budget|] eqn:Hb;
    [destruct (isActive budget) eqn:Hact|].
  - rewrite (check_outcome _ _ _ Hb Hact).
    assert (Htick : extends w (set_ticks (S (ticks w)) w) [] []).
    { constructor; cbn; rewrite ?app_nil_r; auto. }
    destruct (firstReachable _ _) as [[user channel]|];
      [destruct (List.find _ thresholds) as [t|]|].
    + exists (Throw (ValidationError "threshold")),
        [rendered channel user budget t (snapshot w budget)],
        (afterAttempt (set_ticks (S (ticks w)) w)
           (rendered channel user budget t (snapshot w budget))).
      split; [reflexivity|]. split; [|right; done].
      destruct (afterAttempt_extends (set_ticks (S (ticks w)) w)
                  (rendered channel user budget t (snapshot w budget))).
      constructor; cbn in *; auto. lia.
    + exists (Ok tt), [], (set_ticks (S (ticks w)) w). auto.
    + exists (Ok tt), [], (set_ticks (S (ticks w)) w). auto.
  - exists (Ok tt), [], w. split; [apply check_idle; by rewrite Hb|].
    split; [apply extends_refl|auto].
  - exists (Ok tt), [], w. split; [apply check_idle; by rewrite Hb|].
    split; [apply extends_refl|auto].
Qed.

(** *** The messages name their threshold *)

Lemma isOverBudget_reached t metadata0 :
  Qle_bool (inject_Z t) (meta_percentageUsed metadata0) = true ->
  isOverBudget t metadata0 = (t =? 100).
Proof.
  intros Hpct. unfold isOverBudget.
  destruct (Z.eqb_spec t 100) as [->|_]; [|done]. exact Hpct.
Qed.

Ltac differ_at n Heq :=
  apply (f_equal (String.get n)) in Heq; vm_compute in Heq; discriminate Heq.

Lemma isOverBudget_only_100 t metadata0 :
  isOverBudget t metadata0 = true -> t = 100.
Proof.
  unfold isOverBudget. intros Ho. apply andb_true_iff in Ho as [Ho _].
  by apply Z.eqb_eq in Ho.
Qed.

(** Two thresholds give two subjects, when the second was reached. *)
Lemma emailSubject_names_threshold budget t t' metadata0 :
  t' ∈ thresholds ->
  Qle_bool (inject_Z t') (meta_percentageUsed metadata0) = true ->
  t <> t' ->
  emailSubject budget t metadata0 <> emailSubject budget t' metadata0.
Proof.
  intros Hin Hpct Hne. unfold emailSubject.
  rewrite (isOverBudget_reached t' _ Hpct).
  pose proof (isOverBudget_only_100 t metadata0) as Hover.
  unfold thresholdText.
  revert Hin Hne.
  unfold thresholds, SEVENTY_PERCENT, NINETY_PERCENT, HUNDRED_PERCENT.
  rewrite !elem_of_cons, elem_of_nil.
  intros [->|[->|[->|[]]]] Hne; cbn [Z.eqb Pos.eqb];
    destruct (isOverBudget t metadata0);
    destruct (Z.eqb_spec t 70); destruct (Z.eqb_spec t 90);
    intros Heq;
    first [ lia
          | specialize (Hover eq_refl); lia
          | differ_at 0%nat Heq
          | do 2 apply append_inv_head in Heq; differ_at 3%nat Heq ].
Qed.

(** Two thresholds give two text messages, when the second was reached. *)
Lemma smsMessage_names_threshold budget t t' metadata0 :
  t' ∈ thresholds ->
  Qle_bool (inject_Z t') (meta_percentageUsed metadata0) = true ->
  t <> t' ->
  smsMessage budget t metadata0 <> smsMessage budget t' metadata0.
Proof.
  intros Hin Hpct Hne. unfold smsMessage.
  rewrite (isOverBudget_reached t' _ Hpct).
  pose proof (isOverBudget_only_100 t metadata0) as Hover.
  unfold thresholdText.
  revert Hin Hne.
  unfold thresholds, SEVENTY_PERCENT, NINETY_PERCENT, HUNDRED_PERCENT.
  rewrite !elem_of_cons, elem_of_nil.
  intros [->|[->|[->|[]]]] Hne; cbn [Z.eqb Pos.eqb];
    destruct (isOverBudget t metadata0);
    destruct (Z.eqb_spec t 70); destruct (Z.eqb_spec t 90);
    intros Heq;
    first [ lia
          | specialize (Hover eq_refl); lia
          | differ_at 0%nat Heq
          | do 2 apply append_inv_head in Heq; differ_at 3%nat Heq ].
Qed.

(** So a message that the dispatcher renders about a threshold that was
    reached is no message about another threshold, whoever it is for. *)
Lemma rendered_names_threshold channel user user' budget t t' metadata0 :
  t' ∈ thresholds ->
  Qle_bool (inject_Z t') (meta_percentageUsed metadata0) = true ->
  t <> t' ->
  ~ messageOf user' budget t metadata0 (rendered channel user budget t' metadata0).
Proof.
  intros Hin Hpct Hne. destruct channel; cbn [rendered messageOf].
  - intros Heq. apply (f_equal subject) in Heq. cbn [subject renderedEmail] in Heq.
    symmetry in Heq. by apply emailSubject_names_threshold in Heq.
  - intros [_ Heq]. symmetry in Heq. by apply smsMessage_names_threshold in Heq.
Qed.

Lemma afterAttempt_alerts w msg : alerts (afterAttempt w msg) = alerts w.
Proof. unfold afterAttempt. by destruct (transport _ _). Qed.

Lemma afterAttempt_outbox w msg : outbox (afterAttempt w msg) = outbox w ++ [msg].
Proof. unfold afterAttempt. by destruct (transport _ _). Qed.

Lemma afterAttempt_stores w msg :
  budgets (afterAttempt w msg) = budgets w
  /\ users (afterAttempt w msg) = users w
  /\ households (afterAttempt w msg) = households w
  /\ transactions (afterAttempt w msg) = transactions w.
Proof. unfold afterAttempt. by destruct (transport _ _). Qed.

(** A check of an active budget hands nobody a message about a threshold
    that has a SENT alert of this month, and stores no row. *)
Lemma check_silent budgetId budget w t :
  budgets w !! budgetId = Some budget ->
  isActive budget = true ->
  List.find (sentThisMonth budgetId t (monthStartAt w)) (alerts w) <> None ->
  exists r msgs w',
    checkBudgetThresholdsService budgetId w = (r, w')
    /\ alerts w' = alerts w
    /\ outbox w' = outbox w ++ msgs
    /\ Forall (fun msg => forall user,
                 ~ messageOf user budget t (snapshot w budget) msg) msgs.
Proof.
  intros Hb Hact Hsent. rewrite (check_outcome _ _ _ Hb Hact).
  destruct (firstReachable _ _) as [[user channel]|];
    [destruct (List.find _ thresholds) as [t'|] eqn:Hfind|].
  - apply List.find_some in Hfind as [Hin Hdue].
    apply list_elem_of_In in Hin. apply due_spec in Hdue as [Hpct Hnone].
    apply Qle_bool_iff in Hpct.
    assert (Hne : t <> t') by (intros ->; done).
    eexists; exists [rendered channel user budget t' (snapshot w budget)]; eexists.
    split; [reflexivity|].
    split; [by rewrite afterAttempt_alerts|].
    split; [by rewrite afterAttempt_outbox|].
    constructor; [|constructor]. intros user'.
    by apply rendered_names_threshold.
  - exists (Ok tt), [], (set_ticks (S (ticks w)) w).
    split; [done|]. split; [done|]. split; [by rewrite app_nil_r|constructor].
  - exists (Ok tt), [], (set_ticks (S (ticks w)) w).
    split; [done|]. split; [done|]. split; [by rewrite app_nil_r|constructor].
Qed.

Lemma first_due budgetId monthStart metadata0 ledger t :
  t ∈ thresholds ->
  due budgetId monthStart metadata0 ledger t = true ->
  (forall t', t' ∈ thresholds -> t' < t ->
     due budgetId monthStart metadata0 ledger t' = false) ->
  List.find (due budgetId monthStart metadata0 ledger) thresholds = Some t.
Proof.
  unfold thresholds, SEVENTY_PERCENT, NINETY_PERCENT, HUNDRED_PERCENT.
  intros Hin Hdue Hbelow.
  assert (H70 : 70 < t -> due budgetId monthStart metadata0 ledger 70 = false).
  { apply Hbelow. apply list_elem_of_here. }
  assert (H90 : 90 < t -> due budgetId monthStart metadata0 ledger 90 = false).
  { apply Hbelow. apply list_elem_of_further, list_elem_of_here. }
  revert Hin. rewrite !elem_of_cons, elem_of_nil.
  intros [->|[->|[->|[]]]]; cbn [List.find].
  - by rewrite Hdue.
  - by rewrite H70, Hdue by lia.
  - by rewrite H70, H90, Hdue by lia.
Qed.

(** *** The status calculator *)

Lemma hundredths (k : Z) :
  0 <= k <= 10000 ->
  (0 <= divide (inject_Z k) 100 /\ divide (inject_Z k) 100 <= 100)%Q.
Proof.
  intros [Hlo Hhi]. rewrite Zle_Qle in Hlo, Hhi.
  change (inject_Z 0) with 0%Q in Hlo. change (inject_Z 10000) with 10000%Q in Hhi.
  assert (E : (inject_Z k == (inject_Z k / 100) * 100)%Q) by field.
  unfold divide. revert E. generalize (inject_Z k / 100)%Q. intros x E.
  rewrite E in Hlo, Hhi. split.
  - apply binary64_nonneg. lra.
  - apply (binary64_le x 100); [done|]. change (inject_Z 100) with 100%Q. lra.
Qed.

(** [Math.round(p * 100) / 100] of a percentage between 0 and 100 is the
    double of a number of hundredths between 0 and 100. *)
Lemma round2_range (p : Q) :
  (0 <= p)%Q -> (p <= 100)%Q ->
  exists k : Z,
    0 <= k <= 10000 /\ Math_round (times p 100) = inject_Z k.
Proof.
  intros H0 H100. exists (Qfloor (times p 100 + (1 # 2))). split; [|done].
  assert (Hlo : (0 <= times p 100)%Q) by (apply binary64_nonneg; lra).
  assert (Hhi : (times p 100 <= 10000)%Q).
  { apply (binary64_le _ 10000); [done|]. change (inject_Z 10000) with 10000%Q. lra. }
  split.
  - change 0 with (Qfloor 0). apply Qfloor_resp_le. lra.
  - change 10000 with (Qfloor (10000 + (1 # 2))). apply Qfloor_resp_le. lra.
Qed.

Lemma round2_full (p : Q) :
  (p == 100)%Q -> (divide (Math_round (times p 100)) 100 == 100)%Q.
Proof.
  intros Hp.
  assert (Ht : (times p 100 == 10000)%Q).
  { apply Qle_antisym.
    - apply (binary64_le _ 10000); [done|]. change (inject_Z 10000) with 10000%Q. lra.
    - apply (binary64_ge _ 10000); [done|]. change (inject_Z 10000) with 10000%Q. lra. }
  unfold Math_round.
  assert (E : (times p 100 + (1 # 2) == 10000 + (1 # 2))%Q) by lra.
  rewrite (Qfloor_comp _ _ E). by vm_compute.
Qed.

Lemma ratio_reached (spend limit : Q) :
  (0 < limit)%Q -> (limit <= spend)%Q -> (100 <= times (divide spend limit) 100)%Q.
Proof.
  intros Hl Hs.
  assert (H1 : (1 <= divide spend limit)%Q).
  { apply (binary64_ge _ 1); [done|]. change (inject_Z 1) with 1%Q.
    apply Qle_shift_div_l; lra. }
  apply (binary64_ge _ 100); [done|]. change (inject_Z 100) with 100%Q. lra.
Qed.

Lemma ratio_nonneg (spend limit : Q) :
  (0 <= spend)%Q -> (0 < limit)%Q -> (0 <= times (divide spend limit) 100)%Q.
Proof.
  intros Hs Hl.
  assert (0 <= divide spend limit)%Q.
  { apply binary64_nonneg. apply Qle_shift_div_l; lra. }
  apply binary64_nonneg. lra.
Qed.

(** The percentage of [statusOf] is the spec's formula in JavaScript's
    arithmetic. *)
Lemma statusOf_percentage (spend limit : Q) :
  percentageUsed (statusOf spend limit) = double_percentageUsed spend limit.
Proof.
  unfold statusOf, double_percentageUsed; cbn [percentageUsed].
  by destruct (negb (Qle_bool limit 0)).
Qed.

Lemma double_percentage_zero_limit (spend limit : Q) :
  (limit == 0)%Q -> double_percentageUsed spend limit = 0%Q.
Proof.
  intros Hl. unfold double_percentageUsed.
  assert (Qle_bool limit 0 = true) as -> by (apply Qle_bool_iff; lra).
  reflexivity.
Qed.

Lemma double_percentage_positive_limit (spend limit : Q) :
  (0 < limit)%Q ->
  double_percentageUsed spend limit
  = divide (Math_round (times (Qmin (times (divide spend limit) 100) 100) 100)) 100.
Proof.
  intros Hl. unfold double_percentageUsed.
  destruct (Qle_bool limit 0) eqn:E; [|done].
  apply Qle_bool_iff in E. lra.
Qed.

Lemma double_percentage_range (spend limit : Q) :
  (0 <= spend)%Q -> (0 < limit)%Q ->
  exists k : Z,
    0 <= k <= 10000
    /\ double_percentageUsed spend limit = divide (inject_Z k) 100
    /\ (0 <= double_percentageUsed spend limit)%Q
    /\ (double_percentageUsed spend limit <= 100)%Q.
Proof.
  intros Hs Hl. rewrite double_percentage_positive_limit by done.
  destruct (round2_range (Qmin (times (divide spend limit) 100) 100))
    as (k & Hk & ->).
  - apply Q.min_glb; [by apply ratio_nonneg|lra].
  - apply Q.le_min_r.
  - exists k. split; [done|]. split; [done|]. by apply hundredths.
Qed.

Lemma double_percentage_no_spend (limit : Q) :
  double_percentageUsed 0 limit = 0%Q.
Proof.
  unfold double_percentageUsed. by destruct (negb (Qle_bool limit 0)).
Qed.

(** The status service on a budget that is on record and active. *)
Lemma getBudgetStatusService_active budgetId budget w :
  budgets w !! budgetId = Some budget ->
  isActive budget = true ->
  getBudgetStatusService budgetId w
  = (Ok (statusOf (convertToDollarUnit (spentInCents w budget))
                  (convertToDollarUnit (monthlyLimit budget))),
     set_ticks (S (ticks w)) w).
Proof.
  intros Hb Hact. unfold getBudgetStatusService, bind at 1, findBudgetById.
  by rewrite Hb, Hact.
Qed.

Lemma getBudgetStatusService_inactive budgetId budget w :
  budgets w !! budgetId = Some budget ->
  isActive budget = false ->
  getBudgetStatusService budgetId w
  = (Ok {| totalSpentThisMonth := 0;
           budgetLimit := convertToDollarUnit (monthlyLimit budget);
           remaining := convertToDollarUnit (monthlyLimit budget);
           overBudget := false;
           percentageUsed := 0 |}, w).
Proof.
  intros Hb Hact. unfold getBudgetStatusService, bind at 1, findBudgetById.
  by rewrite Hb, Hact.
Qed.


(** ** The claims *)

(** C2 (as amended). Status calculator percentage: for a budget on record
    the service returns a status whose [percentageUsed] is
    [Math.round(Math.min(spend / limit * 100, 100) * 100) / 100] of its own
    spend and limit, each division and multiplication rounded to the nearest
    double, when the limit is positive; then, for a spend that is not
    negative, it lies in [0,100] and is the double of a whole number of
    hundredths; it is 0 when the limit is 0, whatever the spend. *)
Theorem status_percentage w budgetId budget :
  budgets w !! budgetId = Some budget ->
  exists st w',
    getBudgetStatusService budgetId w = (Ok st, w')
    /\ (isActive budget = true ->
        totalSpentThisMonth st = convertToDollarUnit (spentInCents w budget)
        /\ budgetLimit st = convertToDollarUnit (monthlyLimit budget))
    /\ percentageUsed st
       = double_percentageUsed (totalSpentThisMonth st) (budgetLimit st)
    /\ ((budgetLimit st == 0)%Q -> percentageUsed st = 0%Q)
    /\ ((0 < budgetLimit st)%Q -> (0 <= totalSpentThisMonth st)%Q ->
        percentageUsed st
        = divide (Math_round
                    (times (Qmin (times (divide (totalSpentThisMonth st)
                                           (budgetLimit st)) 100) 100) 100)) 100
        /\ (0 <= percentageUsed st)%Q /\ (percentageUsed st <= 100)%Q
        /\ exists k : Z, 0 <= k <= 10000
                         /\ percentageUsed st = divide (inject_Z k) 100).
Proof.
  intros Hb.
  assert (Hgen : exists st w',
    getBudgetStatusService budgetId w = (Ok st, w')
    /\ (isActive budget = true ->
        totalSpentThisMonth st = convertToDollarUnit (spentInCents w budget)
        /\ budgetLimit st = convertToDollarUnit (monthlyLimit budget))
    /\ percentageUsed st
       = double_percentageUsed (totalSpentThisMonth st) (budgetLimit st)).
  { destruct (isActive budget) eqn:Hact.
    - eexists; eexists. split; [by apply getBudgetStatusService_active|].
      split; [done|]. apply statusOf_percentage.
    - eexists; eexists. split; [by apply getBudgetStatusService_inactive|].
      split; [done|]. cbn [percentageUsed totalSpentThisMonth budgetLimit].
      symmetry. apply double_percentage_no_spend. }
  destruct Hgen as (st & w' & Hrun & Hfields & Hpct).
  exists st, w'. split; [done|]. split; [done|]. split; [done|]. split.
  - intros Hl. rewrite Hpct. by apply double_percentage_zero_limit.
  - intros Hl Hs. rewrite Hpct.
    destruct (double_percentage_range _ _ Hs Hl) as (k & Hk & Hgrid & Hlo & Hhi).
    split; [by apply double_percentage_positive_limit|].
    split; [done|]. split; [done|]. by exists k.
Qed.


(** C6 (as amended). A budget id that is not on record makes the status
    service raise NotFound; the threshold check and the dispatcher return
    normally and leave the world as it is. *)
Theorem absent_budget w budgetId :
  budgets w !! budgetId = None ->
  getBudgetStatusService budgetId w
  = (Throw (NotFoundException "Budget not found"), w)
  /\ checkBudgetThresholdsService budgetId w = (Ok tt, w)
  /\ (forall userId householdId t metadata0,
        sendBudgetAlertService userId budgetId householdId t metadata0 w
        = (Ok None, w)).
Proof.
  intros Hb. split; [|split].
  - unfold getBudgetStatusService, bind, findBudgetById. by rewrite Hb.
  - unfold checkBudgetThresholdsService, bind, findBudgetById. by rewrite Hb.
  - intros. unfold sendBudgetAlertService, bind, findUserById, findBudgetById.
    destruct (users w !! userId); by rewrite ?Hb.
Qed.

(** C7. Inactive-budget short-circuit: for an inactive budget the status
    service returns zero spend, the limit as limit and as remaining, not over
    budget and 0 percent, whatever the transaction ledger holds; the threshold
    check sends nothing and creates no row. *)
Theorem inactive_short_circuit w budgetId budget :
  budgets w !! budgetId = Some budget ->
  isActive budget = false ->
  getBudgetStatusService budgetId w
  = (Ok {| totalSpentThisMonth := 0;
           budgetLimit := convertToDollarUnit (monthlyLimit budget);
           remaining := convertToDollarUnit (monthlyLimit budget);
           overBudget := false;
           percentageUsed := 0 |}, w)
  /\ (forall ledger,
        fst (getBudgetStatusService budgetId (set_transactions ledger w))
        = fst (getBudgetStatusService budgetId w))
  /\ checkBudgetThresholdsService budgetId w = (Ok tt, w).
Proof.
  intros Hb Hact. split; [|split].
  - by apply getBudgetStatusService_inactive.
  - intros ledger.
    rewrite (getBudgetStatusService_inactive budgetId budget w) by done.
    by rewrite (getBudgetStatusService_inactive budgetId budget
                  (set_transactions ledger w)).
  - unfold checkBudgetThresholdsService, bind, findBudgetById.
    by rewrite Hb, Hact.
Qed.

(** C10. Silent skip on dangling references: when the recipient or the
    budget is not on record, the dispatcher returns without a result, sends
    nothing, creates no row and raises nothing. *)
Theorem dangling_reference_skip w userId budgetId householdId t metadata0 :
  users w !! userId = None \/ budgets w !! budgetId = None ->
  sendBudgetAlertService userId budgetId householdId t metadata0 w
  = (Ok None, w).
Proof.
  intros Hmissing.
  unfold sendBudgetAlertService, bind, findUserById, findBudgetById.
  destruct (users w !! userId) as [user|]; [|done].
  destruct Hmissing as [?|Hb]; [done|]. by rewrite Hb.
Qed.


(** C5 (the defect). Dispatcher postcondition: for a recipient and a budget
    on record, the dispatcher hands the message of the first channel on which
    the recipient has an address to its transport and then raises the
    validation error of the alert schema, whatever the transport answered:
    the row that should record the attempt, SENT or FAILED, is rejected, so
    no row is stored; no other channel is tried, so a recipient with an email
    address gets no text message; nothing else changes. *)
Theorem dispatcher_raises w userId user budgetId budget householdId t metadata0
    channel others :
  users w !! userId = Some user ->
  budgets w !! budgetId = Some budget ->
  channelsOf user = channel :: others ->
  exists w',
    sendBudgetAlertService userId budgetId householdId t metadata0 w
    = (Throw (ValidationError "threshold"), w')
    /\ alerts w' = alerts w
    /\ outbox w' = outbox w ++ [rendered channel user budget t metadata0]
    /\ budgets w' = budgets w /\ users w' = users w
    /\ households w' = households w /\ transactions w' = transactions w.
Proof.
  intros Hu Hb Hchannels.
  rewrite (sendBudgetAlertService_run _ _ _ _ _ _ _ _ Hu Hb), Hchannels.
  eexists. split; [reflexivity|].
  split; [apply afterAttempt_alerts|].
  split; [apply afterAttempt_outbox|]. apply afterAttempt_stores.
Qed.

(** C1. Per-period idempotence: in a check of an active budget that has
    used at least [t] percent, if the ledger holds a SENT alert for the budget
    and [t] created at or after the start of the month, the check stores no
    row and hands no message about [t] to a transport, whoever it is for, and
    the loop body of [t] leaves every world whose ledger extends this one as
    it is, whoever the recipients are; if instead every alert for the budget
    and [t] of this month is not SENT (FAILED rows do not count), the loop
    body of [t] is the dispatch of [t] to all recipients, and when [t] is the
    first threshold without a SENT alert the check hands the message about
    [t] to the first recipient that can be reached (and raises, as C5
    tells). *)
Theorem threshold_alert_idempotence w budgetId budget t :
  budgets w !! budgetId = Some budget ->
  isActive budget = true ->
  t ∈ thresholds ->
  Qle_bool (inject_Z t) (meta_percentageUsed (snapshot w budget)) = true ->
  ((exists a, a ∈ alerts w /\ alert_budgetId a = budgetId /\ threshold a = t
              /\ status a = SENT /\ monthStartAt w <= createdAt a) ->
   (exists r msgs w',
      checkBudgetThresholdsService budgetId w = (r, w')
      /\ alerts w' = alerts w
      /\ outbox w' = outbox w ++ msgs
      /\ Forall (fun msg => forall user,
                   ~ messageOf user budget t (snapshot w budget) msg) msgs)
   /\ forall w0 later usersToNotify metadata0,
        alerts w0 = alerts w ++ later ->
        checkThreshold budgetId budget (monthStartAt w) usersToNotify
          metadata0 t w0 = (Ok tt, w0))
  /\ ((forall a, a ∈ alerts w -> alert_budgetId a = budgetId -> threshold a = t ->
                 monthStartAt w <= createdAt a -> status a <> SENT) ->
      (forall w0 usersToNotify,
         alerts w0 = alerts w ->
         checkThreshold budgetId budget (monthStartAt w) usersToNotify
           (snapshot w budget) t w0
         = dispatchAll budgetId budget usersToNotify (snapshot w budget) t w0)
      /\ forall user channel,
           firstReachable (users w) (recipients (households w) budget)
           = Some (user, channel) ->
           (forall t', t' ∈ thresholds -> t' < t ->
              exists a, a ∈ alerts w /\ alert_budgetId a = budgetId
                        /\ threshold a = t' /\ status a = SENT
                        /\ monthStartAt w <= createdAt a) ->
           exists w',
             checkBudgetThresholdsService budgetId w
             = (Throw (ValidationError "threshold"), w')
             /\ alerts w' = alerts w
             /\ outbox w'
                = outbox w ++ [rendered channel user budget t (snapshot w budget)]).
Proof.
  intros Hb Hact Hin Hpct. split.
  - intros Hsent. apply find_sent_iff in Hsent. split.
    + by apply check_silent.
    + intros w0 later usersToNotify metadata0 Hsame.
      apply checkThreshold_suppressed. rewrite Hsame, find_app.
      by destruct (List.find _ (alerts w)).
  - intros Hnone.
    assert (Hfind : List.find (sentThisMonth budgetId t (monthStartAt w)) (alerts w)
                    = None).
    { destruct (List.find _ (alerts w)) as [a|] eqn:Hfind; [|done].
      assert (Hex : List.find (sentThisMonth budgetId t (monthStartAt w)) (alerts w)
                    <> None) by congruence.
      apply find_sent_iff in Hex as (a' & Ha' & Hb' & Ht' & Hs' & Hc').
      by destruct (Hnone a' Ha' Hb' Ht' Hc'). }
    split.
    + intros w0 usersToNotify Hsame. apply checkThreshold_fires; [done|].
      by rewrite Hsame.
    + intros user channel Hreach Hbelow.
      rewrite (check_outcome _ _ _ Hb Hact), Hreach.
      rewrite (first_due _ _ _ _ t).
      * eexists. split; [reflexivity|].
        split; [by rewrite afterAttempt_alerts|by rewrite afterAttempt_outbox].
      * done.
      * apply due_spec. split; [by apply Qle_bool_iff|done].
      * intros t' Hin' Hlt.
        destruct (due budgetId (monthStartAt w) (snapshot w budget) (alerts w) t')
          eqn:Hdue; [|done].
        apply due_spec in Hdue as [_ Hnone'].
        specialize (Hbelow t' Hin' Hlt). apply find_sent_iff in Hbelow. done.
Qed.

(** C4 (the defect). All qualifying thresholds fire in one check: for an
    active budget without a SENT alert of this month, a check that finds at
    least 100 percent used and a recipient that can be reached hands that
    recipient the message about threshold 70 on their first channel and then
    raises the validation error of the alert schema: no row is stored, and
    no message about 90 or 100 is handed to a transport. *)
Theorem first_threshold_raises w budgetId budget user channel :
  budgets w !! budgetId = Some budget ->
  isActive budget = true ->
  (forall a, a ∈ alerts w -> alert_budgetId a = budgetId ->
             monthStartAt w <= createdAt a -> status a <> SENT) ->
  Qle_bool 100 (meta_percentageUsed (snapshot w budget)) = true ->
  firstReachable (users w) (recipients (households w) budget)
  = Some (user, channel) ->
  exists w',
    checkBudgetThresholdsService budgetId w
    = (Throw (ValidationError "threshold"), w')
    /\ alerts w' = alerts w
    /\ outbox w' = outbox w ++ [rendered channel user budget 70 (snapshot w budget)]
    /\ forall t recipient,
         t ∈ [90; 100] ->
         ~ messageOf recipient budget t (snapshot w budget)
             (rendered channel user budget 70 (snapshot w budget)).
Proof.
  intros Hb Hact Hnosent Hpct Hreach.
  assert (H70 : Qle_bool (inject_Z 70) (meta_percentageUsed (snapshot w budget))
                = true).
  { apply Qle_bool_iff. apply Qle_bool_iff in Hpct.
    assert (inject_Z 70 <= 100)%Q by (by vm_compute). lra. }
  assert (Hdue : due budgetId (monthStartAt w) (snapshot w budget) (alerts w) 70
                 = true).
  { apply due_spec. split; [by apply Qle_bool_iff|].
    destruct (List.find _ (alerts w)) as [a|] eqn:Hfind; [|done].
    assert (Hex : List.find (sentThisMonth budgetId 70 (monthStartAt w)) (alerts w)
                  <> None) by congruence.
    apply find_sent_iff in Hex as (a' & Ha' & Hb' & _ & Hs' & Hc').
    by destruct (Hnosent a' Ha' Hb' Hc'). }
  rewrite (check_outcome _ _ _ Hb Hact), Hreach.
  unfold thresholds, SEVENTY_PERCENT. cbn [List.find]. rewrite Hdue.
  eexists. split; [reflexivity|].
  split; [by rewrite afterAttempt_alerts|].
  split; [by rewrite afterAttempt_outbox|].
  intros t recipient Ht. apply rendered_names_threshold; [|done|].
  - apply list_elem_of_here.
  - revert Ht. rewrite !elem_of_cons, elem_of_nil. intros [->|[->|[]]]; lia.
Qed.

(** *** Joining a household *)

Lemma joinHouseholdService_post (householdId userId : ObjectId) w h w1 :
  joinHouseholdService householdId userId w = (Ok h, w1) ->
  budgets w1 = budgets w /\ users w1 = users w /\ alerts w1 = alerts w
  /\ households w1 !! householdId = Some h
  /\ userId ∈ map member_userId (members h).
Proof.
  unfold joinHouseholdService, bind at 1, findHouseholdById.
  destruct (households w !! householdId) as [household|] eqn:Hh;
    [|intros; discriminate].
  destruct (existsb _ (members household)) eqn:Hmember.
  - intros [= <- <-]. repeat split; try done.
    apply existsb_exists in Hmember as (m & Hin & Heq).
    apply String.eqb_eq in Heq as <-.
    apply list_elem_of_In, in_map, Hin.
  - cbn. intros [= <- <-]. cbn. repeat split; try done.
    + apply lookup_insert_eq.
    + rewrite map_app. apply elem_of_app. right. cbn.
      apply list_elem_of_singleton. done.
Qed.

(** C9. Deduplication is keyed on budget, threshold and month only: a SENT
    alert [a] for the budget and [t], whoever its recipient and whatever its
    channel, created in the month of the check, makes the loop body of [t]
    leave the world as it is whoever the recipients are, and keeps the check
    from storing a row and from handing a message about [t] to a transport,
    whoever it is for; and after somebody joins the household of the budget,
    the next check resolves them as a recipient and still hands nobody a
    message about [t]. *)
Theorem dedup_ignores_recipient_and_channel w budgetId budget t a :
  budgets w !! budgetId = Some budget ->
  isActive budget = true ->
  a ∈ alerts w ->
  alert_budgetId a = budgetId ->
  threshold a = t ->
  status a = SENT ->
  (monthStartAt w <= createdAt a ->
   (forall usersToNotify metadata0 w0 later,
      alerts w0 = alerts w ++ later ->
      checkThreshold budgetId budget (monthStartAt w) usersToNotify
        metadata0 t w0 = (Ok tt, w0))
   /\ exists r msgs w',
        checkBudgetThresholdsService budgetId w = (r, w')
        /\ alerts w' = alerts w
        /\ outbox w' = outbox w ++ msgs
        /\ Forall (fun msg => forall user,
                     ~ messageOf user budget t (snapshot w budget) msg) msgs)
  /\ (forall householdId newMember h w1,
        budget_type budget = HOUSEHOLD ->
        budget_householdId budget = Some householdId ->
        joinHouseholdService householdId newMember w = (Ok h, w1) ->
        monthStartAt w1 <= createdAt a ->
        newMember ∈ recipients (households w1) budget
        /\ exists r msgs w2,
             checkBudgetThresholdsService budgetId w1 = (r, w2)
             /\ alerts w2 = alerts w1
             /\ outbox w2 = outbox w1 ++ msgs
             /\ Forall (fun msg => forall user,
                          ~ messageOf user budget t (snapshot w1 budget) msg) msgs).
Proof.
  intros Hb Hact Ha Hbudget Ht Hsent.
  assert (Hfound : forall w0 later monthStart,
            alerts w0 = alerts w ++ later -> monthStart <= createdAt a ->
            List.find (sentThisMonth budgetId t monthStart) (alerts w0) <> None).
  { intros w0 later monthStart Hal Hmonth. apply find_sent_iff. exists a.
    rewrite Hal, elem_of_app. auto. }
  split.
  - intros Hmonth. split.
    + intros usersToNotify metadata0 w0 later Hal.
      apply checkThreshold_suppressed. by apply (Hfound w0 later).
    + apply check_silent; [done|done|].
      apply (Hfound w []); [by rewrite app_nil_r|done].
  - intros householdId newMember h w1 Htype Hhh Hjoin Hmonth.
    apply joinHouseholdService_post in Hjoin as (Hbs & _ & Hal & Hh & Hin).
    split.
    + unfold recipients. by rewrite Htype, Hhh, Hh.
    + apply check_silent; [by rewrite Hbs|done|].
      apply (Hfound w1 []); [by rewrite app_nil_r|done].
Qed.

(** *** The query surface *)

#[local] Instance newerFirst_trans : Transitive newerFirst.
Proof. unfold newerFirst. intros a b c. lia. Qed.

#[local] Instance newerFirst_total : Total newerFirst.
Proof. unfold newerFirst. intros a b. lia. Qed.

Lemma alert_populate w l : map alert (map (populate w) l) = l.
Proof. induction l as [|a l IH]; cbn; [done|]. by rewrite IH. Qed.

Lemma matchesQuery_spec q a :
  matchesQuery q a = true <->
  alert_userId a = query_userId q
  /\ (forall b, query_budgetId q = Some b -> alert_budgetId a = b)
  /\ (forall st, query_status q = Some st -> status a = st)
  /\ (forall t, query_threshold q = Some t -> threshold a = t).
Proof.
  unfold matchesQuery. rewrite !andb_true_iff, bool_decide_eq_true.
  destruct (query_budgetId q) as [b|], (query_status q) as [st|],
    (query_threshold q) as [t|];
    rewrite ?bool_decide_eq_true, ?Z.eqb_eq;
    (split; [intros (((Hu & Hb) & Hs) & Ht); repeat split; 
               first [done | by intros ? [= <-]]
            |intros (Hu & Hb & Hs & Ht); repeat split; eauto]).
Qed.

(** C8 (as amended). The alert query returns only alerts of the recipient
    that satisfy every filter that is given and truthy (a budget id that is
    not empty, a status, a threshold other than 0), newest first, at most
    [limit] of them when a limit other than 0 is given and at most 50
    otherwise; it changes nothing. *)
Theorem alert_query_contract w userId filters :
  exists page,
    getUserAlertsService userId filters w = (Ok page, w)
    /\ (forall p, p ∈ page ->
          alert p ∈ alerts w
          /\ alert_userId (alert p) = userId
          /\ (forall f b, filters = Some f -> filter_budgetId f = Some b ->
                truthy b = true -> alert_budgetId (alert p) = b)
          /\ (forall f st, filters = Some f -> filter_status f = Some st ->
                status (alert p) = st)
          /\ (forall f t, filters = Some f -> filter_threshold f = Some t ->
                t <> 0 -> threshold (alert p) = t))
    /\ StronglySorted newerFirst (map alert page)
    /\ (forall f n, filters = Some f -> filter_limit f = Some n -> n <> 0%nat ->
          (length page <= n)%nat)
    /\ ((forall f, filters = Some f ->
           filter_limit f = None \/ filter_limit f = Some 0%nat) ->
        (length page <= 50)%nat).
Proof.
  eexists. split; [reflexivity|].
  set (found := filter (fun a => matchesQuery (buildQuery userId filters) a = true)
                  (alerts w)).
  split; [|split; [|split]].
  - intros p Hp. apply list_elem_of_In, in_map_iff in Hp as (a & <- & Hin).
    apply list_elem_of_In in Hin. apply subseteq_take in Hin.
    rewrite merge_sort_Permutation in Hin.
    apply list_elem_of_filter in Hin as [Hmatch Hin].
    apply matchesQuery_spec in Hmatch as (Hu & Hq1 & Hq2 & Hq3).
    cbn [alert populate]. split; [done|]. split; [done|]. split; [|split].
    + intros f b -> Hf Htruthy. apply Hq1. cbn. by rewrite Hf, Htruthy.
    + intros f st -> Hf. apply Hq2. cbn. by rewrite Hf.
    + intros f t -> Hf Hne. apply Hq3. cbn. rewrite Hf.
      by destruct (Z.eqb_spec t 0).
  - rewrite alert_populate.
    pose proof (StronglySorted_merge_sort newerFirst found) as Hsorted.
    rewrite <- (take_drop (pageLimit filters) (merge_sort newerFirst found))
      in Hsorted.
    by apply StronglySorted_app_1_l in Hsorted.
  - intros f n -> Hf Hne. rewrite length_map, length_take. cbn. rewrite Hf.
    destruct (Nat.eqb_spec n 0); lia.
  - intros Hnolimit. rewrite length_map, length_take.
    assert (pageLimit filters = 50%nat) as ->; [|lia].
    unfold pageLimit. destruct filters as [f|]; [|done].
    destruct (Hnolimit f eq_refl) as [->| ->]; done.
Qed.

End Properties.

(** ** The claims on the toy deployment *)

Lemma status_percentage_witness :
  budgets nearLimit !! "b1" = Some groceries
  /\ exists st w',
       @getBudgetStatusService demoCollaborators "b1" nearLimit = (Ok st, w')
       /\ (0 <= percentageUsed st)%Q /\ (percentageUsed st <= 100)%Q.
Proof.
  split; [reflexivity|].
  destruct (@status_percentage demoCollaborators nearLimit "b1" groceries eq_refl)
    as (st & w' & Hrun & Hfields & _ & _ & Hpos).
  destruct (Hfields eq_refl) as [Hspend Hlimit].
  exists st, w'. split; [exact Hrun|].
  destruct Hpos as (_ & Hlo & Hhi & _);
    [rewrite Hlimit; by vm_compute|rewrite Hspend; by vm_compute|].
  split; [exact Hlo|exact Hhi].
Defined.

(** C2, as stated, fails: of a budget of 40.00 Alice has spent 23 cents; the
    ratio is 0.575 percent, which rounds to 0.58, and the service returns
    0.57, the quotient having been rounded to a double below 0.575 before
    [Math.round] sees it. *)
Lemma status_percentage_is_not_the_exact_rounding :
  budgets pennies !! "b5" = Some pocket
  /\ match fst (@getBudgetStatusService demoCollaborators "b5" pennies) with
     | Ok st =>
         (0 < budgetLimit st)%Q /\ (0 <= totalSpentThisMonth st)%Q
         /\ (round_dp 2 (Qmin (totalSpentThisMonth st / budgetLimit st * 100) 100)
             == 58 # 100)%Q
         /\ (round_dp 2 (Qmin ((23 # 100) / 40 * 100) 100) == 58 # 100)%Q
         /\ (percentageUsed st == binary64 (57 # 100))%Q
         /\ ~ (percentageUsed st
               == spec_percentageUsed (totalSpentThisMonth st) (budgetLimit st))%Q
     | Throw _ => False
     end.
Proof.
  split; [reflexivity|]. vm_compute. repeat split; done.
Qed.


Lemma absent_budget_witness :
  budgets nearLimit !! "b9" = None
  /\ @getBudgetStatusService demoCollaborators "b9" nearLimit
     = (Throw (NotFoundException "Budget not found"), nearLimit)
  /\ @checkBudgetThresholdsService demoCollaborators "b9" nearLimit
     = (Ok tt, nearLimit).
Proof.
  split; [reflexivity|].
  destruct (@absent_budget demoCollaborators nearLimit "b9" eq_refl)
    as (Hstatus & Hcheck & _).
  split; [exact Hstatus|exact Hcheck].
Defined.

(** C6, as stated, fails: on a budget id that is not on record the threshold
    check does not raise NotFound. *)
Lemma absent_budget_check_returns :
  budgets nearLimit !! "b9" = None
  /\ ~ exists msg w',
        @checkBudgetThresholdsService demoCollaborators "b9" nearLimit
        = (Throw (NotFoundException msg), w').
Proof.
  split; [reflexivity|]. intros (msg & w' & Hrun).
  assert (E : @checkBudgetThresholdsService demoCollaborators "b9" nearLimit
              = (Ok tt, nearLimit)) by reflexivity.
  rewrite E in Hrun. discriminate Hrun.
Qed.

Lemma inactive_short_circuit_witness :
  budgets overspent !! "b3" = Some paused /\ isActive paused = false
  /\ @getBudgetStatusService demoCollaborators "b3" overspent
     = (Ok {| totalSpentThisMonth := 0;
              budgetLimit := centsToDollars 20000;
              remaining := centsToDollars 20000;
              overBudget := false;
              percentageUsed := 0 |}, overspent)
  /\ @checkBudgetThresholdsService demoCollaborators "b3" overspent
     = (Ok tt, overspent).
Proof.
  split; [reflexivity|]. split; [reflexivity|].
  destruct (@inactive_short_circuit demoCollaborators overspent "b3" paused
              eq_refl eq_refl)
    as (Hstatus & _ & Hcheck).
  split; [exact Hstatus|exact Hcheck].
Defined.

Lemma dangling_reference_skip_witness :
  users overspent !! "u9" = None
  /\ @sendBudgetAlertService demoCollaborators "u9" "b1" None 90 someMetadata
       overspent
     = (Ok None, overspent).
Proof.
  split; [reflexivity|].
  apply (@dangling_reference_skip demoCollaborators overspent "u9" "b1" None 90
           someMetadata).
  left. reflexivity.
Defined.

(** Alice has an email address and a phone number: the dispatcher hands her
    email to the mailer and raises; no row, no text message. *)
Lemma dispatcher_raises_witness :
  users overspent !! "u1" = Some alice
  /\ budgets overspent !! "b1" = Some groceries
  /\ channelsOf alice = [EMAIL; SMS]
  /\ exists w',
       @sendBudgetAlertService demoCollaborators "u1" "b1" None 90 someMetadata
         overspent
       = (Throw (ValidationError "threshold"), w')
       /\ alerts w' = alerts overspent
       /\ outbox w'
          = outbox overspent
            ++ [@rendered demoCollaborators EMAIL alice groceries 90 someMetadata].
Proof.
  split; [reflexivity|]. split; [reflexivity|]. split; [reflexivity|].
  destruct (@dispatcher_raises demoCollaborators overspent "u1" alice "b1"
              groceries None 90 someMetadata EMAIL [SMS] eq_refl eq_refl eq_refl)
    as (w' & Hrun & Halerts & Hout & _).
  exists w'. split; [exact Hrun|]. split; [exact Halerts|exact Hout].
Defined.

Lemma threshold_alert_idempotence_witness :
  budgets notified !! "b1" = Some groceries /\ isActive groceries = true
  /\ Qle_bool (inject_Z 90)
       (meta_percentageUsed (@snapshot demoCollaborators notified groceries))
     = true
  /\ exists r msgs w',
       @checkBudgetThresholdsService demoCollaborators "b1" notified = (r, w')
       /\ alerts w' = alerts notified
       /\ outbox w' = outbox notified ++ msgs
       /\ Forall (fun msg => forall user,
                    ~ @messageOf demoCollaborators user groceries 90
                        (@snapshot demoCollaborators notified groceries) msg)
            msgs.
Proof.
  split; [reflexivity|]. split; [reflexivity|]. split; [by vm_compute|].
  destruct (@threshold_alert_idempotence demoCollaborators notified "b1"
              groceries 90 eq_refl eq_refl)
    as [Hsup _].
  - unfold thresholds. apply list_elem_of_further, list_elem_of_here.
  - by vm_compute.
  - apply Hsup. exists (sentRow "u2" "b1" SMS 90 SENT 95).
    split; [apply list_elem_of_here|]. repeat split. by vm_compute.
Defined.

Lemma first_threshold_raises_witness :
  budgets overspent !! "b1" = Some groceries /\ isActive groceries = true
  /\ alerts overspent = []
  /\ Qle_bool 100
       (meta_percentageUsed (@snapshot demoCollaborators overspent groceries))
     = true
  /\ exists w',
       @checkBudgetThresholdsService demoCollaborators "b1" overspent
       = (Throw (ValidationError "threshold"), w')
       /\ alerts w' = []
       /\ outbox w'
          = [@rendered demoCollaborators EMAIL alice groceries 70
               (@snapshot demoCollaborators overspent groceries)].
Proof.
  split; [reflexivity|]. split; [reflexivity|]. split; [reflexivity|].
  split; [by vm_compute|].
  destruct (@first_threshold_raises demoCollaborators overspent "b1" groceries
              alice EMAIL eq_refl eq_refl)
    as (w' & Hrun & Halerts & Hout & _).
  - intros a Ha. by apply elem_of_nil in Ha.
  - by vm_compute.
  - reflexivity.
  - exists w'. split; [exact Hrun|]. split; [exact Halerts|exact Hout].
Defined.

Lemma dedup_ignores_recipient_and_channel_witness :
  budgets notifiedHome !! "b2" = Some shared /\ isActive shared = true
  /\ exists h w1,
       @joinHouseholdService demoCollaborators "h1" "u2" notifiedHome = (Ok h, w1)
       /\ "u2" ∈ recipients (households w1) shared
       /\ exists r msgs w2,
            @checkBudgetThresholdsService demoCollaborators "b2" w1 = (r, w2)
            /\ alerts w2 = alerts w1
            /\ outbox w2 = outbox w1 ++ msgs
            /\ Forall (fun msg => forall user,
                         ~ @messageOf demoCollaborators user shared 90
                             (@snapshot demoCollaborators w1 shared) msg) msgs.
Proof.
  split; [reflexivity|]. split; [reflexivity|].
  destruct (@joinHouseholdService demoCollaborators "h1" "u2" notifiedHome)
    as [[h|e] w1] eqn:Hjoin; [|by vm_compute in Hjoin].
  exists h, w1. split; [reflexivity|].
  destruct (@dedup_ignores_recipient_and_channel demoCollaborators notifiedHome
              "b2" shared 90 (sentRow "u1" "b2" EMAIL 90 SENT 95)
              eq_refl eq_refl (list_elem_of_here _ _) eq_refl eq_refl eq_refl)
    as [_ Hjoined].
  destruct (Hjoined "h1" "u2" h w1 eq_refl eq_refl Hjoin) as (Hin & Hcheck).
  - assert (E : w1 = snd (@joinHouseholdService demoCollaborators "h1" "u2"
                            notifiedHome)) by (by rewrite Hjoin).
    rewrite E. by vm_compute.
  - split; [exact Hin|exact Hcheck].
Defined.

(** C8, as stated, fails: a threshold filter of 0 and a limit of 0 are
    given, and the page holds an alert of threshold 70. *)
Lemma zero_filters_are_ignored :
  filter_threshold zeroFilters = Some 0
  /\ filter_limit zeroFilters = Some 0%nat
  /\ exists page,
       getUserAlertsService "u1" (Some zeroFilters) oneAlert
       = (Ok page, oneAlert)
       /\ (exists p, p ∈ page /\ threshold (alert p) <> 0)
       /\ ~ (length page <= 0)%nat.
Proof.
  split; [reflexivity|]. split; [reflexivity|].
  exists [populate oneAlert (sentRow "u1" "b1" EMAIL 70 SENT 95)].
  split; [reflexivity|]. split.
  - eexists. split; [apply list_elem_of_here|]. cbn. lia.
  - cbn. lia.
Qed.

(** ** The scenarios of the specification, run on the toy deployment *)

(** 475.00 of 500.00: 25.00 remain, 95 percent used. *)
Example scenario_near_limit_status :
  match fst (@getBudgetStatusService demoCollaborators "b1" nearLimit) with
  | Ok st => (remaining st == 25)%Q /\ overBudget st = false
             /\ (percentageUsed st == 95)%Q
  | Throw _ => False
  end.
Proof. by vm_compute. Qed.

(** 620.00 of 500.00: 120.00 over, and the percentage is clamped. *)
Example scenario_overspent_status :
  match fst (@getBudgetStatusService demoCollaborators "b1" overspent) with
  | Ok st => (remaining st == -120)%Q /\ overBudget st = true
             /\ (percentageUsed st == 100)%Q
  | Throw _ => False
  end.
Proof. by vm_compute. Qed.

(** At 95 percent the check gets as far as the email about threshold 70 to
    Alice: the row that records it is rejected, the check raises, and the
    text message about 70 and the messages about 90 are never sent. *)
Example scenario_near_limit_check :
  let run := @checkBudgetThresholdsService demoCollaborators "b1" nearLimit in
  fst run = Throw (ValidationError "threshold")
  /\ alerts (snd run) = []
  /\ map headline (outbox (snd run))
     = [("alice@up.example", "⚠️ Budget Alert: Groceries - 70% Used")].
Proof. by vm_compute. Qed.

(** At 124 percent it is the same: one email about 70, and nothing about 90
    or 100. *)
Example scenario_overspent_check :
  let run := @checkBudgetThresholdsService demoCollaborators "b1" overspent in
  fst run = Throw (ValidationError "threshold")
  /\ alerts (snd run) = []
  /\ map headline (outbox (snd run))
     = [("alice@up.example", "⚠️ Budget Alert: Groceries - 70% Used")].
Proof. by vm_compute. Qed.

(** With threshold 90 on record as sent, the check still raises at 70, and
    the ledger is as it was. *)
Example scenario_repeated_check :
  let run := @checkBudgetThresholdsService demoCollaborators "b1" notified in
  fst run = Throw (ValidationError "threshold")
  /\ alerts (snd run) = alerts notified
  /\ map headline (outbox (snd run))
     = [("alice@up.example", "⚠️ Budget Alert: Groceries - 70% Used")].
Proof. by vm_compute. Qed.

(** 93.60 of 104.00 is nine tenths, and the doubles make it
    89.99999999999999 percent: with 70 on record as sent, the check sends
    nothing and returns. *)
Example scenario_ninety_percent :
  let run := @checkBudgetThresholdsService demoCollaborators "b6" ninetyPercent in
  fst run = Ok tt
  /\ outbox (snd run) = []
  /\ alerts (snd run) = alerts ninetyPercent
  /\ (meta_percentageUsed (@snapshot demoCollaborators ninetyPercent fuel) < 90)%Q
  /\ ((9360 # 100) / (10400 # 100) * 100 == 90)%Q.
Proof. by vm_compute. Qed.

(** Bob's mail server is down and he has no phone: the FAILED row of the
    catch block is rejected, and the dispatcher raises. *)
Example scenario_failed_email :
  let run := @sendBudgetAlertService demoCollaborators "u2" "b1" None 90
               someMetadata overspent in
  fst run = Throw (ValidationError "threshold")
  /\ alerts (snd run) = []
  /\ map headline (outbox (snd run))
     = [("bob@down.example", "⚠️ Budget Alert: Groceries - 90% Used")].
Proof. by vm_compute. Qed.

(** A check of the household budget after Bob joined: threshold 90 is on
    record; the check raises on Alice's email about 70, and Bob gets
    nothing. *)
Example scenario_joined_member :
  let joined := snd (@joinHouseholdService demoCollaborators "h1" "u2" notifiedHome) in
  let run := @checkBudgetThresholdsService demoCollaborators "b2" joined in
  fst run = Throw (ValidationError "threshold")
  /\ alerts (snd run) = alerts notifiedHome
  /\ map headline (outbox (snd run))
     = [("alice@up.example", "⚠️ Budget Alert: Home - 70% Used")].
Proof. by vm_compute. Qed.

(** * Further properties of the services *)

Section MoreProperties.
Context `{Collaborators}.

(** ** The spend aggregation *)

Lemma binary64_integer_signed c :
  - 2 ^ 53 < c < 2 ^ 53 -> (binary64 (inject_Z c) == inject_Z c)%Q.
Proof.
  intros Hc. destruct (Z_lt_le_dec c 0) as [Hneg|Hpos].
  - unfold binary64.
    assert (Hlt : (inject_Z c < 0)%Q)
      by (change 0%Q with (inject_Z 0); by rewrite <- Zlt_Qlt).
    destruct (Qcompare_spec (inject_Z c) 0) as [E|E|E]; [lra| |lra].
    assert (Hpos : (0 < - inject_Z c)%Q) by lra.
    assert (Heq : (- inject_Z c == inject_Z (- c))%Q) by (by rewrite inject_Z_opp).
    pose proof (nearest_le _ (- c) Hpos ltac:(lia) ltac:(rewrite Heq; apply Qle_refl)) as H1.
    pose proof (nearest_ge _ (- c) Hpos ltac:(lia) ltac:(rewrite Heq; apply Qle_refl)) as H2.
    rewrite <- Heq in H1, H2. apply Qle_antisym; lra.
  - apply binary64_integer. lia.
Qed.

(** A total that is a safe integer reaches the service as it is. *)
Lemma toNumber_safe c : - 2 ^ 53 < c < 2 ^ 53 -> toNumber c = c.
Proof.
  intros Hc. unfold toNumber.
  rewrite (Qfloor_comp _ _ (binary64_integer_signed c Hc)). apply Qfloor_Z.
Qed.

Lemma totalSpentInCents_sum budget monthStart monthEnd ledger :
  totalSpentInCents (aggregation budget monthStart monthEnd ledger)
  = toNumber
      (foldr (fun t acc => amount t + acc) 0
         (filter (fun t => matchQuery budget monthStart monthEnd t = true) ledger)).
Proof.
  unfold aggregation.
  destruct (filter _ ledger) as [|t matched]; [done|].
  cbn [totalSpentInCents].
  destruct (Z.eqb_spec (toNumber (foldr (fun t acc => amount t + acc) 0
                                    (t :: matched))) 0)
    as [E|E]; [by rewrite E|done].
Qed.

Lemma foldr_amount_app (l1 l2 : list TransactionDocument) :
  foldr (fun t acc => amount t + acc) 0 (l1 ++ l2)
  = foldr (fun t acc => amount t + acc) 0 l1
    + foldr (fun t acc => amount t + acc) 0 l2.
Proof. induction l1 as [|t l1 IH]; cbn; [done|]. rewrite IH. lia. Qed.

(** X1. Which transactions count, and by how much. A transaction matches
    the query of a budget exactly when it is a completed expense dated within
    the month and carries the budget's user, for a USER budget, or the
    budget's household, for a HOUSEHOLD budget. The spend that a service
    aggregates is the double nearest to the sum of the amounts that match;
    while that sum is a safe integer, recording one more transaction raises
    the spend by the transaction's amount when it matches and leaves it as it
    is otherwise, and an empty ledger gives a spend of 0. *)
Theorem spend_of_one_more_transaction w budget t :
  let monthStart := startOfMonth (clock (ticks w)) in
  let monthEnd := endOfMonth (clock (ticks w)) in
  let w' := set_transactions (transactions w ++ [t]) w in
  let matching :=
    filter (fun t => matchQuery budget monthStart monthEnd t = true)
      (transactions w) in
  let total := foldr (fun t acc => amount t + acc) 0 matching in
  (matchQuery budget monthStart monthEnd t = true
   <-> tx_type t = EXPENSE /\ tx_status t = "COMPLETED"
       /\ monthStart <= tx_date t <= monthEnd
       /\ match budget_type budget with
          | USER => tx_userId t = budget_userId budget
          | HOUSEHOLD => tx_householdId t = budget_householdId budget
          end)
  /\ spentInCents w budget = toNumber total
  /\ spentInCents w' budget
     = toNumber (total + if matchQuery budget monthStart monthEnd t
                         then amount t else 0)
  /\ (- 2 ^ 53 < total < 2 ^ 53 ->
      spentInCents w budget = total
      /\ (matchQuery budget monthStart monthEnd t = false ->
          spentInCents w' budget = spentInCents w budget)
      /\ (matchQuery budget monthStart monthEnd t = true ->
          - 2 ^ 53 < total + amount t < 2 ^ 53 ->
          spentInCents w' budget = spentInCents w budget + amount t))
  /\ (transactions w = [] -> spentInCents w budget = 0).
Proof.
  intros monthStart monthEnd w' matching total.
  assert (Hw : spentInCents w budget = toNumber total).
  { unfold spentInCents. by rewrite totalSpentInCents_sum. }
  assert (Hw' : spentInCents w' budget
            = toNumber (total + if matchQuery budget monthStart monthEnd t
                                then amount t else 0)).
  { unfold spentInCents, w'. cbn [ticks transactions set_transactions].
    rewrite totalSpentInCents_sum, filter_app, foldr_amount_app.
    fold monthStart monthEnd. fold matching. fold total. f_equal. f_equal.
    rewrite filter_cons, filter_nil.
    destruct (matchQuery budget monthStart monthEnd t) eqn:E.
    - rewrite decide_True by done. cbn. lia.
    - rewrite decide_False by done. done. }
  split; [|split; [exact Hw|split; [exact Hw'|split]]].
  - unfold matchQuery.
    rewrite !andb_true_iff, bool_decide_eq_true, !Z.leb_le, String.eqb_eq.
    destruct (budget_type budget); rewrite bool_decide_eq_true; tauto.
  - intros Hsafe. rewrite Hw, Hw', (toNumber_safe total) by done.
    split; [done|]. split.
    + intros ->. rewrite Z.add_0_r. by apply toNumber_safe.
    + intros -> Hsafe'. by apply toNumber_safe.
  - intros Hempty. rewrite Hw. unfold total, matching. by rewrite Hempty.
Qed.

(** ** The status and the snapshot of a check *)

(** X2. For an active budget the snapshot that a check computes shows the
    spend and the limit of the status service; its percentage is the ratio
    times 100 in JavaScript's arithmetic, neither clamped nor rounded to
    hundredths, so it is at least 100 as soon as the spend reaches a positive
    limit; and the status's percentage is the snapshot's percentage clamped
    at 100 and passed through [Math.round(p * 100) / 100], which is 100
    whenever the snapshot's percentage is at least 100. *)
Theorem status_agrees_with_snapshot w budgetId budget :
  budgets w !! budgetId = Some budget ->
  isActive budget = true ->
  exists st w',
    getBudgetStatusService budgetId w = (Ok st, w')
    /\ currentSpending (snapshot w budget) = totalSpentThisMonth st
    /\ meta_budgetLimit (snapshot w budget) = budgetLimit st
    /\ meta_percentageUsed (snapshot w budget)
       = (if negb (Qle_bool (budgetLimit st) 0)
          then times (divide (totalSpentThisMonth st) (budgetLimit st)) 100
          else 0%Q)
    /\ percentageUsed st
       = divide (Math_round
                   (times (Qmin (meta_percentageUsed (snapshot w budget)) 100)
                      100)) 100
    /\ ((0 < budgetLimit st)%Q -> (budgetLimit st <= totalSpentThisMonth st)%Q ->
        (100 <= meta_percentageUsed (snapshot w budget))%Q)
    /\ ((100 <= meta_percentageUsed (snapshot w budget))%Q ->
        (percentageUsed st == 100)%Q).
Proof.
  intros Hb Hact. eexists; eexists.
  split; [by apply getBudgetStatusService_active|].
  split; [done|]. split; [done|]. split; [done|].
  unfold snapshot, checkMetadata, statusOf, spentInCents.
  cbn [percentageUsed meta_percentageUsed budgetLimit totalSpentThisMonth].
  set (spend := convertToDollarUnit (totalSpentInCents _)).
  set (limit := convertToDollarUnit (monthlyLimit budget)).
  destruct (Qle_bool limit 0) eqn:E; cbn [negb].
  - split; [reflexivity|]. split.
    + intros Hl. apply Qle_bool_iff in E. lra.
    + intros Hfull. lra.
  - split; [reflexivity|]. split.
    + intros Hl Hs. by apply ratio_reached.
    + intros Hfull. apply round2_full. by apply Q.min_r.
Qed.

(** ** When a check does nothing *)

Lemma channelsOf_nil user :
  channelsOf user = [] -> address EMAIL user = None /\ address SMS user = None.
Proof.
  unfold channelsOf. rewrite !filter_cons, filter_nil.
  destruct (address EMAIL user), (address SMS user); cbn; try done.
Qed.

Lemma sendBudgetAlertService_unreachable userId budgetId householdId t metadata0 w :
  is_Some (budgets w !! budgetId) ->
  unreachable w userId ->
  exists r,
    sendBudgetAlertService userId budgetId householdId t metadata0 w = (Ok r, w).
Proof.
  intros [budget Hb] Hun. unfold unreachable in Hun.
  unfold sendBudgetAlertService, bind at 1, findUserById.
  destruct (users w !! userId) as [user|]; [|by eexists].
  apply channelsOf_nil in Hun as [HE HS]. cbn in HE, HS.
  unfold bind at 1, findBudgetById. rewrite Hb.
  unfold bind at 1, emailAlert.
  destruct (truthy (email user)); [done|]. cbn.
  unfold bind at 1, smsAlert.
  destruct (phoneNumber user) as [phone|]; [|by eexists].
  destruct (truthy phone); [done|]. by eexists.
Qed.

Lemma dispatchAll_unreachable budgetId budget metadata0 t usersToNotify w :
  is_Some (budgets w !! budgetId) ->
  Forall (unreachable w) usersToNotify ->
  dispatchAll budgetId budget usersToNotify metadata0 t w = (Ok tt, w).
Proof.
  intros Hb. induction 1 as [|u rest Hu _ IH]; [done|].
  destruct (sendBudgetAlertService_unreachable u budgetId
              (budget_householdId budget) t metadata0 w Hb Hu) as [r Hrun].
  unfold dispatchAll in *. cbn [forEach]. unfold bind at 1 2.
  by rewrite Hrun.
Qed.

Lemma forEach_quiet {A} (body : A -> M unit) (xs : list A) w :
  (forall x, x ∈ xs -> body x w = (Ok tt, w)) ->
  forEach xs body w = (Ok tt, w).
Proof.
  induction xs as [|x xs IH]; intros Hquiet; [done|].
  cbn [forEach]. unfold bind. rewrite (Hquiet x) by apply list_elem_of_here.
  apply IH. intros y Hy. apply Hquiet. by apply list_elem_of_further.
Qed.

(** A threshold that stays silent in a check that starts in [w]: it is not
    reached, or it was sent this month, or nobody can be reached. *)
Lemma check_quiet_if budgetId budget w :
  budgets w !! budgetId = Some budget ->
  isActive budget = true ->
  (forall t, t ∈ thresholds ->
     (meta_percentageUsed (snapshot w budget) < inject_Z t)%Q
     \/ (exists a, a ∈ alerts w /\ alert_budgetId a = budgetId /\ threshold a = t
                   /\ status a = SENT /\ monthStartAt w <= createdAt a)
     \/ (forall userId, userId ∈ recipients (households w) budget ->
           unreachable w userId)) ->
  checkBudgetThresholdsService budgetId w = (Ok tt, set_ticks (S (ticks w)) w).
Proof.
  intros Hb Hact Hquiet. rewrite (check_run _ _ _ Hb Hact).
  apply forEach_quiet. intros t Hin.
  destruct (Qle_bool (inject_Z t) (meta_percentageUsed (snapshot w budget)))
    eqn:Hpct; [|by apply checkThreshold_below].
  destruct (Hquiet t Hin) as [Hlt|[Hsent|Hnobody]].
  - apply Qle_bool_iff in Hpct. lra.
  - apply checkThreshold_suppressed. by apply find_sent_iff.
  - destruct (List.find (sentThisMonth budgetId t (monthStartAt w))
                (alerts (set_ticks (S (ticks w)) w))) eqn:Hfind.
    + apply checkThreshold_suppressed. congruence.
    + rewrite checkThreshold_fires by done.
      apply dispatchAll_unreachable; [cbn; by rewrite Hb|].
      apply Forall_forall. intros u Hu. apply (Hnobody u Hu).
Qed.

(** X3. A check of an active budget returns, having only read the clock,
    exactly when each of the three thresholds is not reached, or has a SENT
    alert of this month, or none of the budget's recipients can be reached
    (each is missing from the users or has neither an email address nor a
    phone number); in every other case it raises the validation error of the
    alert schema after it handed one message to a transport, and stores no
    row. *)
Theorem check_does_nothing_iff w budgetId budget :
  budgets w !! budgetId = Some budget ->
  isActive budget = true ->
  let quiet :=
    forall t, t ∈ thresholds ->
      (meta_percentageUsed (snapshot w budget) < inject_Z t)%Q
      \/ (exists a, a ∈ alerts w /\ alert_budgetId a = budgetId /\ threshold a = t
                    /\ status a = SENT /\ monthStartAt w <= createdAt a)
      \/ (forall userId, userId ∈ recipients (households w) budget ->
            unreachable w userId) in
  (checkBudgetThresholdsService budgetId w = (Ok tt, set_ticks (S (ticks w)) w)
   <-> quiet)
  /\ (~ quiet ->
      exists msg w',
        checkBudgetThresholdsService budgetId w
        = (Throw (ValidationError "threshold"), w')
        /\ alerts w' = alerts w
        /\ outbox w' = outbox w ++ [msg]).
Proof.
  intros Hb Hact quiet.
  assert (Hquiet : (forall r w', checkBudgetThresholdsService budgetId w
                                 = (Ok r, w') -> quiet)).
  { intros r w' Hrun t Hin. rewrite (check_outcome _ _ _ Hb Hact) in Hrun.
    destruct (firstReachable _ _) as [[user channel]|] eqn:Hreach.
    - destruct (List.find _ thresholds) as [t'|] eqn:Hfind; [discriminate Hrun|].
      apply list_elem_of_In in Hin.
      pose proof (List.find_none _ _ Hfind t Hin) as Hdue. unfold due in Hdue.
      apply andb_false_iff in Hdue as [Hpct|Hsent].
      + left. apply Qnot_le_lt. intros Hle. apply Qle_bool_iff in Hle. congruence.
      + right. left. apply find_sent_iff. by destruct (List.find _ (alerts w)).
    - right. right. intros userId Hu. unfold unreachable.
      by apply (proj1 (firstReachable_None _ _) Hreach). }
  split; [split|].
  - intros Hrun. by apply (Hquiet tt _ Hrun).
  - by apply check_quiet_if.
  - intros Hloud. rewrite (check_outcome _ _ _ Hb Hact).
    destruct (firstReachable _ _) as [[user channel]|] eqn:Hreach;
      [destruct (List.find _ thresholds) as [t'|] eqn:Hfind|].
    + eexists; eexists. split; [reflexivity|].
      split; [by rewrite afterAttempt_alerts|by rewrite afterAttempt_outbox].
    + destruct Hloud. apply (Hquiet tt (set_ticks (S (ticks w)) w)).
      by rewrite (check_outcome _ _ _ Hb Hact), Hreach, Hfind.
    + destruct Hloud. apply (Hquiet tt (set_ticks (S (ticks w)) w)).
      by rewrite (check_outcome _ _ _ Hb Hact), Hreach.
Qed.

(** X4. A budget whose limit in display units is not positive never
    alerts: whatever was spent, the check of such an active budget sends
    nothing and records nothing. *)
Theorem no_limit_never_alerts w budgetId budget :
  budgets w !! budgetId = Some budget ->
  isActive budget = true ->
  (convertToDollarUnit (monthlyLimit budget) <= 0)%Q ->
  checkBudgetThresholdsService budgetId w = (Ok tt, set_ticks (S (ticks w)) w).
Proof.
  intros Hb Hact Hlimit. apply (check_quiet_if _ budget); [done|done|].
  intros t Hin. left.
  unfold snapshot, checkMetadata. cbn [meta_percentageUsed].
  apply Qle_bool_iff in Hlimit. rewrite Hlimit. cbn [negb].
  revert Hin. unfold thresholds. rewrite !elem_of_cons, elem_of_nil.
  intros [->|[->|[->|[]]]]; by vm_compute.
Qed.

(** ** The page of the alert query *)

#[local] Instance newerFirst_is_transitive : Transitive newerFirst.
Proof. unfold newerFirst. intros a b c. lia. Qed.

#[local] Instance newerFirst_is_total : Total newerFirst.
Proof. unfold newerFirst. intros a b. lia. Qed.

(** X6. The page of the alert query is made of the newest matching
    alerts: it holds as many alerts as the page limit allows or as match,
    whichever is less; when no more alerts match than the limit allows it
    holds them all; every matching alert it leaves out is at most as new as
    every alert it holds; and each entry is populated from the stores. *)
Theorem alert_page_is_newest w userId filters :
  let matching :=
    filter (fun a => matchesQuery (buildQuery userId filters) a = true)
           (alerts w) in
  exists page,
    getUserAlertsService userId filters w = (Ok page, w)
    /\ length page = Nat.min (pageLimit filters) (length matching)
    /\ ((length matching <= pageLimit filters)%nat -> map alert page ≡ₚ matching)
    /\ (forall a p, a ∈ matching -> a ∉ map alert page -> p ∈ page ->
          createdAt a <= createdAt (alert p))
    /\ (forall p, p ∈ page -> p = populate w (alert p)).
Proof.
  intros matching.
  set (sorted := merge_sort newerFirst matching).
  exists (map (populate w) (take (pageLimit filters) sorted)).
  split; [reflexivity|].
  assert (Hperm : sorted ≡ₚ matching) by apply merge_sort_Permutation.
  split; [|split; [|split]].
  - rewrite length_map, length_take. by rewrite Hperm.
  - intros Hfew. rewrite alert_populate, take_ge; [done|]. by rewrite Hperm.
  - intros a p Ha Hout Hp. rewrite alert_populate in Hout.
    apply list_elem_of_In, in_map_iff in Hp as (b & <- & Hb).
    apply list_elem_of_In in Hb. cbn [alert populate].
    rewrite <- Hperm in Ha.
    rewrite <- (take_drop (pageLimit filters) sorted) in Ha.
    apply elem_of_app in Ha as [Ha|Ha]; [done|].
    pose proof (StronglySorted_merge_sort newerFirst matching) as Hsorted.
    fold sorted in Hsorted.
    rewrite <- (take_drop (pageLimit filters) sorted) in Hsorted.
    apply (StronglySorted_app_1_elem_of _ _ _ b a Hsorted Hb Ha).
  - intros p Hp.
    apply list_elem_of_In, in_map_iff in Hp as (b & <- & _). done.
Qed.

(** ** The plain-text part of an email *)

Lemma append_empty_r (s : string) : (s ++ EmptyString)%string = s.
Proof.
  induction s as [|c s IH]; [done|]. by rewrite append_cons, IH.
Qed.

Lemma closes_app (s1 s2 : string) :
  closes (s1 ++ s2)%string = closes s1 || closes s2.
Proof.
  induction s1 as [|c s1 IH]; [done|].
  rewrite append_cons. cbn [closes]. by rewrite IH, orb_assoc.
Qed.

Lemma hasTag_no_closes (s : string) : closes s = false -> hasTag s = false.
Proof.
  induction s as [|c s IH]; cbn; [done|].
  intros Hc. apply orb_false_iff in Hc as [_ Hc].
  rewrite Hc, andb_false_r. by apply IH.
Qed.

Lemma append_snoc (p : string) (c : ascii) (s : string) :
  ((p ++ String c EmptyString) ++ s)%string = (p ++ String c s)%string.
Proof.
  induction p as [|d p IH]; [done|]. by rewrite !append_cons, IH.
Qed.

Lemma stripTags_from_noTag (s : string) :
  hasTag (stripTags_from None s) = false
  /\ forall p, closes p = false -> hasTag (stripTags_from (Some p) s) = false.
Proof.
  induction s as [|c s [IHn IHp]]; cbn [stripTags_from].
  - split; [done|]. intros p. apply hasTag_no_closes.
  - split.
    + destruct (Ascii.eqb c "<") eqn:Ec; [by apply IHp|].
      cbn [hasTag]. by rewrite Ec, IHn.
    + intros p Hp. destruct (Ascii.eqb c ">") eqn:Ec; [done|].
      apply IHp. rewrite closes_app, Hp. cbn. by rewrite Ec.
Qed.

Lemma stripTags_from_id (s : string) :
  (hasTag s = false -> stripTags_from None s = s)
  /\ forall p, closes s = false -> stripTags_from (Some p) s = (p ++ s)%string.
Proof.
  induction s as [|c s [IHn IHp]]; cbn [stripTags_from].
  - split; [done|]. intros p _. by rewrite append_empty_r.
  - split.
    + cbn [hasTag]. intros Htag. apply orb_false_iff in Htag as [Hopen Htag].
      destruct (Ascii.eqb c "<") eqn:Ec.
      * cbn in Hopen. rewrite IHp by done. apply Ascii.eqb_eq in Ec as ->. done.
      * by rewrite IHn.
    + intros p Hc. cbn [closes] in Hc. apply orb_false_iff in Hc as [Ec Hc].
      rewrite Ec, IHp by done. apply append_snoc.
Qed.

(** X7. Stripping the tags, [replace(/<[^>]*>/g, "")], leaves no tag
    behind: in the result no [<] is followed by a [>]; a text without a tag
    is left as it is; and stripping twice is stripping once. *)
Theorem stripTags_leaves_no_tag (s : string) :
  hasTag (stripTags s) = false
  /\ (hasTag s = false -> stripTags s = s)
  /\ stripTags (stripTags s) = stripTags s.
Proof.
  assert (Hno : hasTag (stripTags s) = false) by apply stripTags_from_noTag.
  split; [exact Hno|]. split.
  - apply stripTags_from_id.
  - by apply stripTags_from_id.
Qed.

(** ** What the engine stores *)

(** X5. The threshold check never stores anything, whatever the budget id:
    it keeps the budgets, users, households, transactions and alerts as they
    are, and it either returns without a message or raises the validation
    error of the alert schema after exactly one message was handed to a
    transport. *)
Theorem check_stores_nothing w budgetId :
  exists r msgs w',
    checkBudgetThresholdsService budgetId w = (r, w')
    /\ budgets w' = budgets w /\ users w' = users w
    /\ households w' = households w /\ transactions w' = transactions w
    /\ alerts w' = alerts w
    /\ outbox w' = outbox w ++ msgs
    /\ (r = Ok tt /\ msgs = []
        \/ r = Throw (ValidationError "threshold") /\ length msgs = 1%nat).
Proof.
  destruct (check_frame budgetId w) as (r & msgs & w' & Hrun & Hext & Hcases).
  exists r, msgs, w'. destruct Hext as [? ? ? ? Halerts ? ?].
  rewrite app_nil_r in Halerts. repeat (split; [done|]). done.
Qed.


(** X8. The alert schema rejects every alert: its validator of [threshold],
    built from [Object.values] of the numeric enum, compares the threshold
    with the enum's first name, so [AlertModel.create] raises the validation
    error and stores nothing, whatever the alert; a validator built from the
    three numbers alone would accept exactly 70, 90 and 100. *)
Theorem alert_schema_rejects_every_threshold input w :
  createAlert input w = (Throw (ValidationError "threshold"), w)
  /\ (forall v, thresholdValidator v = false)
  /\ (forall v, enumValidator [Num 70; Num 90; Num 100] v = true
                <-> v ∈ thresholds).
Proof.
  split; [apply createAlert_rejects|]. split; [apply thresholdEnum_rejects|].
  intros v. unfold enumValidator, thresholds, SEVENTY_PERCENT, NINETY_PERCENT,
    HUNDRED_PERCENT.
  rewrite bool_decide_eq_true, !elem_of_cons, !elem_of_nil.
  split; intros [E|[E|[E|[]]]]; first [injection E as -> | subst v]; auto.
Qed.

(** X18. The messages name their threshold: for two different thresholds
    among 70, 90 and 100 that the percentage has reached, the dispatcher
    renders two different email subjects and two different text messages,
    whatever the budget's name and the formatting of the amounts; the
    wording for an exceeded budget is used for threshold 100 only. *)
Theorem messages_name_their_threshold budget t t' metadata0 :
  t ∈ thresholds -> t' ∈ thresholds ->
  (inject_Z t <= meta_percentageUsed metadata0)%Q ->
  (inject_Z t' <= meta_percentageUsed metadata0)%Q ->
  t <> t' ->
  emailSubject budget t metadata0 <> emailSubject budget t' metadata0
  /\ smsMessage budget t metadata0 <> smsMessage budget t' metadata0
  /\ isOverBudget t metadata0 = (t =? 100).
Proof.
  intros Hin Hin' Hpct Hpct' Hne. apply Qle_bool_iff in Hpct, Hpct'.
  split; [by apply emailSubject_names_threshold|].
  split; [by apply smsMessage_names_threshold|by apply isOverBudget_reached].
Qed.

Lemma channelsOf_address channel others user :
  channelsOf user = channel :: others -> is_Some (address channel user).
Proof.
  intros Hc.
  assert (Hin : channel ∈ channelsOf user) by (rewrite Hc; apply list_elem_of_here).
  unfold channelsOf in Hin. by apply list_elem_of_filter in Hin as [? _].
Qed.

(** X9. A check of an active budget hands at most one message to a
    transport, and that message is the dispatcher's rendering, from the
    snapshot of this check, for a recipient on record and a threshold among
    70, 90 and 100 that the percentage has reached; it carries the wording
    for an exceeded budget exactly when the threshold is 100; an email goes to
    the recipient's address with the subject of that wording and a plain-text
    part that is its HTML body with the tags stripped and holds no tag; an
    SMS goes to the recipient's phone number. *)
Theorem check_messages_are_rendered w budgetId budget :
  budgets w !! budgetId = Some budget ->
  isActive budget = true ->
  exists r msgs w',
    checkBudgetThresholdsService budgetId w = (r, w')
    /\ outbox w' = outbox w ++ msgs
    /\ (length msgs <= 1)%nat
    /\ Forall (fun msg => exists t userId user,
         t ∈ [70; 90; 100]
         /\ (inject_Z t <= meta_percentageUsed (snapshot w budget))%Q
         /\ userId ∈ recipients (households w) budget
         /\ users w !! userId = Some user
         /\ messageOf user budget t (snapshot w budget) msg
         /\ isOverBudget t (snapshot w budget) = (t =? 100)
         /\ match msg with
            | EmailAttempt p =>
                to p = email user
                /\ subject p
                   = (if (t =? 100)%Z
                      then "🚨 Budget Exceeded: " ++ budget_name budget
                      else "⚠️ Budget Alert: " ++ budget_name budget ++ " - "
                           ++ thresholdText t ++ " Used")%string
                /\ text p = stripTags (html p)
                /\ hasTag (text p) = false
            | SmsAttempt phone body =>
                phoneNumber user = Some phone
                /\ body = smsMessage budget t (snapshot w budget)
            end) msgs.
Proof.
  intros Hb Hact. rewrite (check_outcome _ _ _ Hb Hact).
  destruct (firstReachable _ _) as [[user channel]|] eqn:Hreach;
    [destruct (List.find _ thresholds) as [t|] eqn:Hfind|].
  - eexists; exists [rendered channel user budget t (snapshot w budget)]; eexists.
    split; [reflexivity|]. split; [by rewrite afterAttempt_outbox|].
    split; [done|]. constructor; [|constructor].
    apply List.find_some in Hfind as [Hin Hdue].
    apply list_elem_of_In in Hin. apply due_spec in Hdue as [Hpct _].
    apply firstReachable_Some in Hreach as (userId & others & Hu & Huser & Hc).
    pose proof (isOverBudget_reached t (snapshot w budget)
                  (proj2 (Qle_bool_iff _ _) Hpct)) as Hover.
    exists t, userId, user.
    split; [done|]. split; [done|]. split; [done|]. split; [done|].
    apply channelsOf_address in Hc as [addr Haddr].
    destruct channel; cbn [rendered messageOf].
    + split; [done|]. split; [done|].
      cbn [renderedEmail to subject text html].
      split; [done|]. split; [unfold emailSubject; by rewrite Hover|].
      split; [done|]. apply stripTags_from_noTag.
    + cbn [address] in Haddr.
      destruct (phoneNumber user) as [phone|]; [|done]. done.
  - exists (Ok tt), [], (set_ticks (S (ticks w)) w).
    split; [done|]. split; [by rewrite app_nil_r|]. split; [cbn; lia|constructor].
  - exists (Ok tt), [], (set_ticks (S (ticks w)) w).
    split; [done|]. split; [by rewrite app_nil_r|]. split; [cbn; lia|constructor].
Qed.

(** ** Joining a household *)

Lemma isMember_spec (userId : ObjectId) household :
  isMember userId household = true
  <-> userId ∈ map member_userId (members household).
Proof.
  unfold isMember. rewrite existsb_exists, list_elem_of_In, in_map_iff.
  split.
  - intros (m & Hin & Heq). apply String.eqb_eq in Heq. by exists m.
  - intros (m & Heq & Hin). exists m. split; [done|]. by apply String.eqb_eq.
Qed.

(** X10. Joining is idempotent: after a join that returned, joining the same
    household again with the same user returns the same household and changes
    nothing. *)
Theorem join_twice_is_join_once (householdId userId : ObjectId) w household w1 :
  joinHouseholdService householdId userId w = (Ok household, w1) ->
  joinHouseholdService householdId userId w1 = (Ok household, w1).
Proof.
  intros Hjoin.
  apply joinHouseholdService_post in Hjoin as (_ & _ & _ & Hh & Hin).
  apply isMember_spec in Hin. unfold isMember in Hin.
  unfold joinHouseholdService, bind at 1, findHouseholdById.
  by rewrite Hh, Hin.
Qed.

(** X11. Joining keeps the household's members: for a household on record
    the join returns; the members it had stay, in their order and with their
    roles and dates; a user who was no member is added once, at the end, with
    the role MEMBER; a user who was a member changes nothing; the name and
    the limit of the household stay; user ids that were distinct stay
    distinct; the other households, the budgets, the users and the alerts are
    left alone. A household that is not on record raises NotFound. *)
Theorem join_keeps_members (householdId userId : ObjectId) w :
  match households w !! householdId with
  | None =>
      joinHouseholdService householdId userId w
      = (Throw (NotFoundException "Household not found"), w)
  | Some old =>
      exists joined w1,
        joinHouseholdService householdId userId w = (Ok joined, w1)
        /\ (if isMember userId old
            then joined = old /\ w1 = w
            else members joined
                 = members old ++ [{| member_userId := userId; role := MEMBER;
                                      joinedAt := clock (ticks w) |}]
                 /\ households w1 = <[householdId := joined]> (households w))
        /\ household_name joined = household_name old
        /\ monthlyBudgetLimit joined = monthlyBudgetLimit old
        /\ (NoDup (map member_userId (members old)) ->
            NoDup (map member_userId (members joined)))
        /\ (forall other, other <> householdId ->
              households w1 !! other = households w !! other)
        /\ budgets w1 = budgets w /\ users w1 = users w
        /\ alerts w1 = alerts w /\ transactions w1 = transactions w
  end.
Proof.
  destruct (households w !! householdId) as [old|] eqn:Hh.
  - unfold joinHouseholdService, bind at 1, findHouseholdById. rewrite Hh.
    fold (isMember userId old).
    destruct (isMember userId old) eqn:Hmember.
    + exists old, w. repeat split; done.
    + eexists; eexists. split; [reflexivity|]. cbn.
      split; [done|]. split; [done|]. split; [done|]. split.
      * intros Hnodup. rewrite map_app. apply NoDup_app.
        split; [done|]. split; [|apply NoDup_singleton].
        intros u Hu Hnew. apply list_elem_of_singleton in Hnew. cbn in Hnew.
        subst u. apply isMember_spec in Hu. congruence.
      * split; [|done]. intros other Hne. by apply lookup_insert_ne.
  - unfold joinHouseholdService, bind at 1, findHouseholdById. by rewrite Hh.
Qed.

(** ** The legacy status of a household *)

Lemma matchQuery_household budget householdId monthStart monthEnd t :
  budget_type budget = HOUSEHOLD ->
  budget_householdId budget = Some householdId ->
  matchQuery budget monthStart monthEnd t
  = matchHousehold householdId monthStart monthEnd t.
Proof.
  intros Hty Hh. unfold matchQuery, matchHousehold. rewrite Hty, Hh.
  destruct (bool_decide (tx_type t = EXPENSE)), (monthStart <=? tx_date t),
    (tx_date t <=? monthEnd), (String.eqb (tx_status t) "COMPLETED"),
    (bool_decide (tx_householdId t = Some householdId)); reflexivity.
Qed.

(** X12. The legacy status of a household: a household that is not on
    record raises NotFound; for one on record the status is computed, by the
    same calculation as a budget's status, from its own limit and the
    completed expenses of the month that carry its id; and it is the very
    result of the status service on any active HOUSEHOLD budget of that
    household that has the same limit. *)
Theorem legacy_status (householdId : ObjectId) w :
  match households w !! householdId with
  | None =>
      getBudgetStatusByHouseholdService householdId w
      = (Throw (NotFoundException "Household not found"), w)
  | Some household =>
      getBudgetStatusByHouseholdService householdId w
      = (Ok (statusOf
               (convertToDollarUnit
                  (totalSpentInCents
                     (householdAggregation householdId
                        (startOfMonth (clock (ticks w)))
                        (endOfMonth (clock (ticks w))) (transactions w))))
               (convertToDollarUnit (monthlyBudgetLimit household))),
         set_ticks (S (ticks w)) w)
      /\ forall budgetId budget,
           budgets w !! budgetId = Some budget ->
           isActive budget = true ->
           budget_type budget = HOUSEHOLD ->
           budget_householdId budget = Some householdId ->
           monthlyLimit budget = monthlyBudgetLimit household ->
           getBudgetStatusService budgetId w
           = getBudgetStatusByHouseholdService householdId w
  end.
Proof.
  destruct (households w !! householdId) as [household|] eqn:Hh.
  - assert (Hrun : getBudgetStatusByHouseholdService householdId w
      = (Ok (statusOf
               (convertToDollarUnit
                  (totalSpentInCents
                     (householdAggregation householdId
                        (startOfMonth (clock (ticks w)))
                        (endOfMonth (clock (ticks w))) (transactions w))))
               (convertToDollarUnit (monthlyBudgetLimit household))),
         set_ticks (S (ticks w)) w)).
    { unfold getBudgetStatusByHouseholdService, bind at 1, findHouseholdById.
      by rewrite Hh. }
    split; [exact Hrun|].
    intros budgetId budget Hb Hact Hty Hbh Hlimit.
    rewrite Hrun, (getBudgetStatusService_active _ _ _ Hb Hact), Hlimit.
    unfold spentInCents, aggregation, householdAggregation.
    rewrite (list_filter_iff _
               (fun t => matchHousehold householdId
                           (startOfMonth (clock (ticks w)))
                           (endOfMonth (clock (ticks w))) t = true)); [done|].
    intros t. by rewrite (matchQuery_household _ householdId).
  - unfold getBudgetStatusByHouseholdService, bind at 1, findHouseholdById.
    by rewrite Hh.
Qed.

(** ** Reading, listing and deleting budgets *)

Lemma notOwnedBy_false (userId : ObjectId) budget :
  notOwnedBy userId budget = false <-> budget_userId budget = Some userId.
Proof.
  unfold notOwnedBy. destruct (budget_userId budget) as [owner|]; [|done].
  rewrite negb_false_iff, String.eqb_eq. split; congruence.
Qed.

Lemma getBudgetByIdService_run (budgetId userId : ObjectId) budget w :
  budgets w !! budgetId = Some budget ->
  getBudgetByIdService budgetId userId w
  = match budget_type budget with
    | USER =>
        if notOwnedBy userId budget
        then (Throw (BadRequestException "You don't have access to this budget"), w)
        else (Ok budget, w)
    | HOUSEHOLD =>
        match budget_householdId budget with
        | Some h =>
            match households w !! h with
            | Some household =>
                if isMember userId household
                then (Ok budget, w)
                else (Throw (BadRequestException
                               "You don't have access to this budget"), w)
            | None => (Throw (NotFoundException "Household not found"), w)
            end
        | None => (Throw (NotFoundException "Household not found"), w)
        end
    end.
Proof.
  intros Hb. unfold getBudgetByIdService, bind at 1, findBudgetById.
  rewrite Hb. destruct (budget_type budget).
  - by destruct (notOwnedBy userId budget).
  - unfold bind at 1, findHouseholdOf.
    destruct (budget_householdId budget) as [h|]; [|done].
    destruct (households w !! h) as [household|]; [|done].
    by destruct (isMember userId household).
Qed.

Lemma getBudgetByIdService_spec (budgetId userId : ObjectId) budget w :
  budgets w !! budgetId = Some budget ->
  (mayRead w userId budget ->
   getBudgetByIdService budgetId userId w = (Ok budget, w))
  /\ (~ mayRead w userId budget ->
      exists e, getBudgetByIdService budgetId userId w = (Throw e, w)).
Proof.
  intros Hb. rewrite (getBudgetByIdService_run _ _ _ _ Hb). unfold mayRead.
  destruct (budget_type budget).
  - destruct (notOwnedBy userId budget) eqn:Hown.
    + split; [|by eexists]. intros Hyes. apply notOwnedBy_false in Hyes. congruence.
    + split; [done|]. intros Hno. by apply notOwnedBy_false in Hown.
  - destruct (budget_householdId budget) as [h|] eqn:Hbh.
    + destruct (households w !! h) as [household|] eqn:Hh.
      * destruct (isMember userId household) eqn:Hmember.
        -- split; [done|]. intros Hno. destruct Hno.
           exists h, household. by rewrite <- isMember_spec.
        -- split; [|by eexists]. intros (h' & hh' & [= <-] & Hh' & Hin).
           rewrite Hh in Hh'. injection Hh' as <-.
           apply isMember_spec in Hin. congruence.
      * split; [|by eexists]. intros (h' & hh' & [= <-] & Hh' & _). congruence.
    + split; [|by eexists]. by intros (h' & hh' & ? & _).
Qed.

(** X13. Reading a budget by id: a budget that is not on record raises
    NotFound; one on record is returned exactly to its owner, for a USER
    budget, or to the members of its household, whatever their role, for a
    HOUSEHOLD budget; everybody else gets an error; whether the budget is
    active plays no part; and the world is never changed. *)
Theorem budget_read_access (budgetId userId : ObjectId) w :
  snd (getBudgetByIdService budgetId userId w) = w
  /\ match budgets w !! budgetId with
     | None =>
         fst (getBudgetByIdService budgetId userId w)
         = Throw (NotFoundException "Budget not found")
     | Some budget =>
         (mayRead w userId budget <->
          fst (getBudgetByIdService budgetId userId w) = Ok budget)
         /\ (~ mayRead w userId budget <->
             exists e, fst (getBudgetByIdService budgetId userId w) = Throw e)
     end.
Proof.
  destruct (budgets w !! budgetId) as [budget|] eqn:Hb.
  - destruct (getBudgetByIdService_spec budgetId userId budget w Hb) as [Hyes Hno].
    assert (Hdec : mayRead w userId budget \/ ~ mayRead w userId budget).
    { unfold mayRead. destruct (budget_type budget).
      - destruct (decide (budget_userId budget = Some userId)); auto.
      - destruct (budget_householdId budget) as [h|] eqn:Hbh;
          [|right; by intros (? & ? & ? & _)].
        destruct (households w !! h) as [household|] eqn:Hh;
          [|right; intros (? & ? & [= <-] & ? & _); congruence].
        destruct (decide (userId ∈ map member_userId (members household)))
          as [Hin|Hout]; [left; by exists h, household|].
        right. intros (? & ? & [= <-] & Hh' & Hin).
        rewrite Hh in Hh'. by injection Hh' as <-. }
    destruct Hdec as [Hmay|Hnot].
    + rewrite (Hyes Hmay). cbn. split; [done|]. split.
      * split; [done|tauto].
      * split; [tauto|]. intros [e He]. discriminate He.
    + destruct (Hno Hnot) as [e He]. rewrite He. cbn. split; [done|]. split.
      * split; [tauto|]. intros He'. discriminate He'.
      * split; [by exists e|done].
  - assert (Hrun : getBudgetByIdService budgetId userId w
                   = (Throw (NotFoundException "Budget not found"), w)).
    { unfold getBudgetByIdService, bind at 1, findBudgetById. by rewrite Hb. }
    by rewrite Hrun.
Qed.

Lemma household_listed (userId : ObjectId) w h :
  h ∈ map fst (filter (fun entry => isMember userId (snd entry) = true)
                 (map_to_list (households w)))
  <-> exists household,
        households w !! h = Some household
        /\ userId ∈ map member_userId (members household).
Proof.
  rewrite list_elem_of_In, in_map_iff. split.
  - intros ([h' household] & <- & Hin).
    apply list_elem_of_In, list_elem_of_filter in Hin as [Hmember Hin].
    apply elem_of_map_to_list in Hin. exists household.
    split; [done|]. by apply isMember_spec.
  - intros (household & Hh & Hmember). exists (h, household).
    split; [done|]. apply list_elem_of_In, list_elem_of_filter.
    split; [by apply isMember_spec|]. by apply elem_of_map_to_list.
Qed.

(** X14. The budgets listed for a user are the active budgets the user may
    read: a budget is in one of the two lists exactly when it is on record
    under that id, is active, and reading it by id returns it to the user;
    the first list holds USER budgets only and the second HOUSEHOLD budgets
    only; no budget is listed twice; and the world is not changed. *)
Theorem listed_budgets_are_readable (userId : ObjectId) w :
  exists lists,
    getUserBudgetsService userId w = (Ok lists, w)
    /\ (forall id budget,
          (id, budget) ∈ userBudgets lists ++ householdBudgets lists
          <-> budgets w !! id = Some budget /\ isActive budget = true
              /\ getBudgetByIdService id userId w = (Ok budget, w))
    /\ Forall (fun entry => budget_type (snd entry) = USER) (userBudgets lists)
    /\ Forall (fun entry => budget_type (snd entry) = HOUSEHOLD)
         (householdBudgets lists)
    /\ NoDup (map fst (userBudgets lists ++ householdBudgets lists)).
Proof.
  eexists. split; [reflexivity|]. cbn [userBudgets householdBudgets].
  split; [|split; [|split]].
  - intros id budget. rewrite elem_of_app, !list_elem_of_filter,
      !elem_of_map_to_list.
    unfold isUserBudgetOf, isHouseholdBudgetIn. cbn [snd].
    rewrite !andb_true_iff, !bool_decide_eq_true. split.
    + intros [[[[Hty Hown] Hact] Hb]|[[[Hty Hin] Hact] Hb]].
      * split; [done|]. split; [done|].
        apply (getBudgetByIdService_spec id userId budget w Hb).
        unfold mayRead. by rewrite Hty.
      * split; [done|]. split; [done|].
        apply (getBudgetByIdService_spec id userId budget w Hb).
        unfold mayRead. rewrite Hty.
        destruct (budget_householdId budget) as [h|]; [|done].
        apply bool_decide_eq_true, household_listed in Hin
          as (household & Hh & Hmember).
        by exists h, household.
    + intros (Hb & Hact & Hread).
      assert (Hmay : mayRead w userId budget).
      { destruct (getBudgetByIdService_spec id userId budget w Hb) as [_ Hno].
        destruct (budget_type budget) eqn:Hty; unfold mayRead; rewrite Hty.
        - destruct (decide (budget_userId budget = Some userId)) as [|Hne];
            [done|].
          destruct Hno as [e He]; [unfold mayRead; by rewrite Hty|congruence].
        - destruct (budget_householdId budget) as [h|] eqn:Hbh.
          + destruct (households w !! h) as [household|] eqn:Hh.
            * destruct (decide (userId ∈ map member_userId (members household)))
                as [Hin|Hout]; [by exists h, household|].
              destruct Hno as [e He]; [|congruence].
              unfold mayRead. rewrite Hty.
              intros (? & ? & Hbh' & Hh' & Hin).
              rewrite Hbh in Hbh'. injection Hbh' as <-.
              rewrite Hh in Hh'. by injection Hh' as <-.
            * destruct Hno as [e He]; [|congruence].
              unfold mayRead. rewrite Hty.
              intros (? & ? & Hbh' & ? & _). congruence.
          + destruct Hno as [e He]; [|congruence].
            unfold mayRead. rewrite Hty. intros (? & ? & ? & _). congruence. }
      unfold mayRead in Hmay. destruct (budget_type budget) eqn:Hty.
      * left. done.
      * right. destruct Hmay as (h & household & Hbh & Hh & Hin).
        rewrite Hbh. split; [|done]. split; [|done]. split; [done|].
        apply bool_decide_eq_true, household_listed. by exists household.
  - apply Forall_forall. intros entry Hin.
    apply list_elem_of_filter in Hin as [Hp _]. unfold isUserBudgetOf in Hp.
    rewrite !andb_true_iff, !bool_decide_eq_true in Hp. tauto.
  - apply Forall_forall. intros entry Hin.
    apply list_elem_of_filter in Hin as [Hp _]. unfold isHouseholdBudgetIn in Hp.
    rewrite !andb_true_iff, !bool_decide_eq_true in Hp. tauto.
  - rewrite map_app. apply NoDup_app. split; [|split].
    + apply (NoDup_fmap_2_strong fst).
      * intros [i1 b1] [i2 b2] H1 H2 Heq. cbn in Heq. subst i2.
        apply list_elem_of_filter in H1 as [_ H1].
        apply list_elem_of_filter in H2 as [_ H2].
        apply elem_of_map_to_list in H1, H2. congruence.
      * apply NoDup_filter, NoDup_map_to_list.
    + intros id H1 H2.
      apply list_elem_of_In, in_map_iff in H1 as ([i1 b1] & <- & H1).
      apply list_elem_of_In, in_map_iff in H2 as ([i2 b2] & Heq & H2).
      cbn in Heq. subst i2.
      apply list_elem_of_In, list_elem_of_filter in H1 as [Hp1 H1].
      apply list_elem_of_In, list_elem_of_filter in H2 as [Hp2 H2].
      apply elem_of_map_to_list in H1, H2.
      rewrite H1 in H2. injection H2 as <-.
      unfold isUserBudgetOf in Hp1. unfold isHouseholdBudgetIn in Hp2.
      rewrite !andb_true_iff, !bool_decide_eq_true in Hp1, Hp2. cbn in Hp1, Hp2.
      destruct Hp1 as [[Hty1 _] _]. destruct Hp2 as [[Hty2 _] _]. congruence.
    + apply (NoDup_fmap_2_strong fst).
      * intros [i1 b1] [i2 b2] H1 H2 Heq. cbn in Heq. subst i2.
        apply list_elem_of_filter in H1 as [_ H1].
        apply list_elem_of_filter in H2 as [_ H2].
        apply elem_of_map_to_list in H1, H2. congruence.
      * apply NoDup_filter, NoDup_map_to_list.
Qed.

Lemma getBudgetStatusService_absent budgetId w :
  budgets w !! budgetId = None ->
  getBudgetStatusService budgetId w
  = (Throw (NotFoundException "Budget not found"), w).
Proof.
  intros Hb. unfold getBudgetStatusService, bind at 1, findBudgetById.
  by rewrite Hb.
Qed.

(** The status of a budget is read off the budget's document, the ledger and
    the clock. *)
Lemma getBudgetStatusService_reads budgetId w1 w2 :
  budgets w1 !! budgetId = budgets w2 !! budgetId ->
  transactions w1 = transactions w2 ->
  ticks w1 = ticks w2 ->
  fst (getBudgetStatusService budgetId w1)
  = fst (getBudgetStatusService budgetId w2).
Proof.
  intros Hb Htx Hticks.
  destruct (budgets w2 !! budgetId) as [budget|] eqn:Hb2.
  - destruct (isActive budget) eqn:Hact.
    + rewrite (getBudgetStatusService_active _ budget w1),
        (getBudgetStatusService_active _ budget w2) by done.
      cbn [fst]. unfold spentInCents. by rewrite Htx, Hticks.
    + by rewrite (getBudgetStatusService_inactive _ budget w1),
        (getBudgetStatusService_inactive _ budget w2).
  - by rewrite !getBudgetStatusService_absent.
Qed.

Lemma deleteBudgetService_run (budgetId userId : ObjectId) budget w :
  budgets w !! budgetId = Some budget ->
  (mayDelete w userId budget ->
   deleteBudgetService budgetId userId w
   = (Ok {| success := true |}, set_budgets (delete budgetId (budgets w)) w))
  /\ (~ mayDelete w userId budget ->
      exists e, deleteBudgetService budgetId userId w = (Throw e, w)).
Proof.
  intros Hb. unfold mayDelete.
  assert (Hrun : deleteBudgetService budgetId userId w
    = match budget_type budget with
      | USER =>
          if notOwnedBy userId budget
          then (Throw (BadRequestException "You can only delete your own budgets"), w)
          else (Ok {| success := true |},
                set_budgets (delete budgetId (budgets w)) w)
      | HOUSEHOLD =>
          match budget_householdId budget with
          | Some h =>
              match households w !! h with
              | Some household =>
                  match findMember userId household with
                  | Some member =>
                      match role member with
                      | OWNER => (Ok {| success := true |},
                                  set_budgets (delete budgetId (budgets w)) w)
                      | _ => (Throw (BadRequestException
                                       "Only owners can delete household budgets"), w)
                      end
                  | None => (Throw (BadRequestException
                                      "Only owners can delete household budgets"), w)
                  end
              | None => (Throw (NotFoundException "Household not found"), w)
              end
          | None => (Throw (NotFoundException "Household not found"), w)
          end
      end).
  { unfold deleteBudgetService, bind at 1, findBudgetById. rewrite Hb.
    unfold bind at 1. destruct (budget_type budget).
    - by destruct (notOwnedBy userId budget).
    - unfold bind at 1, findHouseholdOf.
      destruct (budget_householdId budget) as [h|]; [|done].
      destruct (households w !! h) as [household|]; [|done].
      destruct (findMember userId household) as [member|]; [|done].
      by destruct (role member). }
  rewrite Hrun. destruct (budget_type budget).
  - destruct (notOwnedBy userId budget) eqn:Hown.
    + split; [|by eexists]. intros Hyes. apply notOwnedBy_false in Hyes. congruence.
    + split; [done|]. intros Hno. by apply notOwnedBy_false in Hown.
  - destruct (budget_householdId budget) as [h|] eqn:Hbh.
    + destruct (households w !! h) as [household|] eqn:Hh.
      * destruct (findMember userId household) as [member|] eqn:Hm.
        -- destruct (role member) eqn:Hrole.
           ++ split; [done|]. intros Hno. destruct Hno. by exists h, household, member.
           ++ split; [|by eexists].
              intros (? & ? & ? & [= <-] & Hh' & Hm' & Hr). congruence.
           ++ split; [|by eexists].
              intros (? & ? & ? & [= <-] & Hh' & Hm' & Hr). congruence.
        -- split; [|by eexists].
           intros (? & ? & ? & [= <-] & Hh' & Hm' & _). congruence.
      * split; [|by eexists]. intros (? & ? & ? & [= <-] & Hh' & _). congruence.
    + split; [|by eexists]. by intros (? & ? & ? & ? & _).
Qed.

Lemma mayDelete_dec w (userId : ObjectId) budget :
  mayDelete w userId budget \/ ~ mayDelete w userId budget.
Proof.
  unfold mayDelete. destruct (budget_type budget).
  - destruct (decide (budget_userId budget = Some userId)); auto.
  - destruct (budget_householdId budget) as [h|] eqn:Hbh;
      [|right; by intros (? & ? & ? & ? & _)].
    destruct (households w !! h) as [household|] eqn:Hh;
      [|right; intros (? & ? & ? & [= <-] & ? & _); congruence].
    destruct (findMember userId household) as [member|] eqn:Hm;
      [|right; intros (? & ? & ? & [= <-] & ? & ? & _); congruence].
    destruct (role member) eqn:Hrole;
      [left; by exists h, household, member| |];
      right; intros (? & ? & ? & [= <-] & ? & ? & ?); congruence.
Qed.

(** X15. Deleting a budget is all or nothing: a budget that is not on
    record raises NotFound; one on record is deleted exactly for its owner,
    for a USER budget, or for the member of its household whose membership
    has the role OWNER, for a HOUSEHOLD budget; for everybody else (a MEMBER,
    a VIEWER, a stranger, or when the household is gone) the service throws
    and the world is left as it is. *)
Theorem budget_delete_access (budgetId userId : ObjectId) w :
  match budgets w !! budgetId with
  | None =>
      deleteBudgetService budgetId userId w
      = (Throw (NotFoundException "Budget not found"), w)
  | Some budget =>
      (mayDelete w userId budget <->
       deleteBudgetService budgetId userId w
       = (Ok {| success := true |}, set_budgets (delete budgetId (budgets w)) w))
      /\ (~ mayDelete w userId budget <->
          exists e, deleteBudgetService budgetId userId w = (Throw e, w))
  end.
Proof.
  destruct (budgets w !! budgetId) as [budget|] eqn:Hb.
  - destruct (deleteBudgetService_run budgetId userId budget w Hb) as [Hyes Hno].
    destruct (mayDelete_dec w userId budget) as [Hmay|Hnot].
    + split; split; try tauto.
      intros [e He]. rewrite (Hyes Hmay) in He. discriminate He.
    + split; split; try tauto.
      intros Hok. destruct (Hno Hnot) as [e He]. rewrite He in Hok.
      discriminate Hok.
  - unfold deleteBudgetService, bind at 1, findBudgetById. by rewrite Hb.
Qed.

(** X16. After a budget was deleted, it is gone and nothing else is: the
    status service and reading it by id raise NotFound for its id, the
    threshold check returns without doing anything, every other budget is on
    record as before with the same status result, and the users, households,
    transactions and alerts are as they were, so that the deleted budget's
    alerts stay in the ledger and are returned by the alert query without a
    populated budget. *)
Theorem budget_deleted (budgetId userId : ObjectId) w r w' :
  deleteBudgetService budgetId userId w = (Ok r, w') ->
  budgets w' = delete budgetId (budgets w)
  /\ users w' = users w /\ households w' = households w
  /\ transactions w' = transactions w /\ alerts w' = alerts w
  /\ getBudgetStatusService budgetId w'
     = (Throw (NotFoundException "Budget not found"), w')
  /\ getBudgetByIdService budgetId userId w'
     = (Throw (NotFoundException "Budget not found"), w')
  /\ checkBudgetThresholdsService budgetId w' = (Ok tt, w')
  /\ (forall other, other <> budgetId ->
        budgets w' !! other = budgets w !! other
        /\ fst (getBudgetStatusService other w')
           = fst (getBudgetStatusService other w))
  /\ (forall recipient filters,
        map alert (fst_ok (getUserAlertsService recipient filters w'))
        = map alert (fst_ok (getUserAlertsService recipient filters w)))
  /\ (forall a, alert_budgetId a = budgetId ->
        populated_budget (populate w' a) = None).
Proof.
  intros Hrun.
  assert (Hw : w' = set_budgets (delete budgetId (budgets w)) w).
  { destruct (budgets w !! budgetId) as [budget|] eqn:Hb.
    - destruct (deleteBudgetService_run budgetId userId budget w Hb) as [Hyes Hno].
      destruct (mayDelete_dec w userId budget) as [Hmay|Hnot].
      + rewrite (Hyes Hmay) in Hrun. by injection Hrun as _ <-.
      + destruct (Hno Hnot) as [e He]. rewrite He in Hrun. discriminate Hrun.
    - unfold deleteBudgetService, bind at 1, findBudgetById in Hrun.
      rewrite Hb in Hrun. discriminate Hrun. }
  subst w'. cbn [budgets users households transactions alerts set_budgets].
  assert (Hgone : delete budgetId (budgets w) !! budgetId = None)
    by apply lookup_delete_eq.
  split; [done|]. split; [done|]. split; [done|]. split; [done|]. split; [done|].
  split; [|split; [|split; [|split; [|split]]]].
  - by apply getBudgetStatusService_absent.
  - unfold getBudgetByIdService, bind at 1, findBudgetById. cbn [budgets set_budgets].
    by rewrite Hgone.
  - unfold checkBudgetThresholdsService, bind at 1, findBudgetById.
    cbn [budgets set_budgets]. by rewrite Hgone.
  - intros other Hne.
    assert (Hsame : delete budgetId (budgets w) !! other = budgets w !! other)
      by (by apply lookup_delete_ne).
    split; [done|]. by apply getBudgetStatusService_reads.
  - intros recipient filters. unfold getUserAlertsService. cbn [fst fst_ok alerts set_budgets].
    by rewrite !alert_populate.
  - intros a Ha. unfold populate. cbn [populated_budget budgets set_budgets].
    by rewrite Ha, Hgone.
Qed.

(** ** Changing the limit of a household *)

Variable convertToCents : Q -> Z.

Lemma getBudgetStatusByHouseholdService_run (householdId : ObjectId) household w :
  households w !! householdId = Some household ->
  getBudgetStatusByHouseholdService householdId w
  = (Ok (statusOf
           (convertToDollarUnit
              (totalSpentInCents
                 (householdAggregation householdId
                    (startOfMonth (clock (ticks w)))
                    (endOfMonth (clock (ticks w))) (transactions w))))
           (convertToDollarUnit (monthlyBudgetLimit household))),
     set_ticks (S (ticks w)) w).
Proof.
  intros Hh.
  unfold getBudgetStatusByHouseholdService, bind at 1, findHouseholdById.
  by rewrite Hh.
Qed.

(** X17. Changing the limit of a household is all or nothing and is for
    owners only. It returns exactly when the household is on record, the
    caller's membership has the role OWNER and the new limit in minor units is
    not negative; then only the limit of that household changes, its name and
    members stay, and the legacy status of the household afterwards shows the
    new limit over the same spend. Otherwise nothing is stored, and what is
    thrown is NotFound (also for a caller who is a member without being an
    owner) or the validation error of a negative limit. *)
Theorem household_limit_update (householdId userId : ObjectId) (newLimit : Q) w :
  let run := updateBudgetLimitService convertToCents householdId userId newLimit w in
  ((exists old member,
      households w !! householdId = Some old
      /\ findMember userId old = Some member
      /\ role member = OWNER
      /\ 0 <= convertToCents newLimit)
   <-> exists updated, fst run = Returned updated)
  /\ match fst run with
     | Returned updated =>
         exists old,
           households w !! householdId = Some old
           /\ updated = {| household_name := household_name old;
                           monthlyBudgetLimit := convertToCents newLimit;
                           members := members old |}
           /\ snd run = set_households (<[householdId := updated]> (households w)) w
           /\ fst (getBudgetStatusByHouseholdService householdId (snd run))
              = Ok (statusOf
                      (totalSpentThisMonth
                         (statusOf
                            (convertToDollarUnit
                               (totalSpentInCents
                                  (householdAggregation householdId
                                     (startOfMonth (clock (ticks w)))
                                     (endOfMonth (clock (ticks w)))
                                     (transactions w))))
                            (convertToDollarUnit (monthlyBudgetLimit old))))
                      (convertToDollarUnit (convertToCents newLimit)))
     | Raised thrown =>
         snd run = w
         /\ (thrown = ValidationError "monthlyBudgetLimit"
             /\ convertToCents newLimit < 0
             \/ exists msg, thrown = AppThrown (NotFoundException msg))
     end.
Proof.
  intros run. subst run. unfold updateBudgetLimitService.
  destruct (households w !! householdId) as [old|] eqn:Hh.
  - destruct (findMember userId old) as [member|] eqn:Hm.
    + destruct (role member) eqn:Hrole.
      * cbn [monthlyBudgetLimit].
        destruct (Z.ltb_spec (convertToCents newLimit) 0) as [Hneg|Hok];
          cbn [fst snd].
        -- split; [|split; [done|left; done]]. split.
           ++ intros (? & ? & [= <-] & Hm' & _ & Hpos). lia.
           ++ intros [? Heq]. discriminate Heq.
        -- split.
           ++ split; [by eexists|]. intros _. by exists old, member.
           ++ exists old. split; [done|]. split; [done|]. split; [done|].
              rewrite (getBudgetStatusByHouseholdService_run householdId
                         {| household_name := household_name old;
                            monthlyBudgetLimit := convertToCents newLimit;
                            members := members old |});
                [done|]. cbn. apply lookup_insert_eq.
      * cbn [fst snd]. split; [|split; [done|right; by eexists]]. split.
        -- intros (? & ? & [= <-] & Hm' & Hr & _). congruence.
        -- intros [? Heq]. discriminate Heq.
      * cbn [fst snd]. split; [|split; [done|right; by eexists]]. split.
        -- intros (? & ? & [= <-] & Hm' & Hr & _). congruence.
        -- intros [? Heq]. discriminate Heq.
    + cbn [fst snd]. split; [|split; [done|right; by eexists]]. split.
      * intros (? & ? & [= <-] & Hm' & _). congruence.
      * intros [? Heq]. discriminate Heq.
  - cbn [fst snd]. split; [|split; [done|right; by eexists]]. split.
    + intros (? & ? & Hh' & _). discriminate Hh'.
    + intros [? Heq]. discriminate Heq.
Qed.

End MoreProperties.


(** ** The further properties on the toy deployment *)

Lemma status_agrees_with_snapshot_witness :
  budgets overspent !! "b1" = Some groceries /\ isActive groceries = true
  /\ exists st w',
       @getBudgetStatusService demoCollaborators "b1" overspent = (Ok st, w')
       /\ currentSpending (@snapshot demoCollaborators overspent groceries)
          = totalSpentThisMonth st
       /\ (meta_percentageUsed (@snapshot demoCollaborators overspent groceries)
           == 124)%Q
       /\ (percentageUsed st == 100)%Q.
Proof.
  split; [reflexivity|]. split; [reflexivity|].
  destruct (@status_agrees_with_snapshot demoCollaborators overspent "b1"
              groceries eq_refl eq_refl)
    as (st & w' & Hrun & Hspend & _ & _ & _ & _ & Hfull).
  exists st, w'. split; [exact Hrun|]. split; [exact Hspend|].
  split; [by vm_compute|]. apply Hfull. by vm_compute.
Defined.

Lemma check_does_nothing_iff_witness :
  budgets settled !! "b1" = Some groceries /\ isActive groceries = true
  /\ @checkBudgetThresholdsService demoCollaborators "b1" settled
     = (Ok tt, set_ticks 1 settled).
Proof.
  split; [reflexivity|]. split; [reflexivity|].
  destruct (@check_does_nothing_iff demoCollaborators settled "b1" groceries
              eq_refl eq_refl)
    as [[_ Hquiet] _].
  apply Hquiet. intros t Hin. unfold thresholds in Hin.
  rewrite !elem_of_cons, elem_of_nil in Hin.
  destruct Hin as [->|[->|[->|[]]]].
  - right. left. exists (sentRow "u1" "b1" EMAIL 70 SENT 95).
    split; [apply list_elem_of_here|]. repeat split. by vm_compute.
  - left. by vm_compute.
  - left. by vm_compute.
Defined.

Lemma no_limit_never_alerts_witness :
  budgets unlimitedWorld !! "b4" = Some unlimited /\ isActive unlimited = true
  /\ (centsToDollars (monthlyLimit unlimited) <= 0)%Q
  /\ @checkBudgetThresholdsService demoCollaborators "b4" unlimitedWorld
     = (Ok tt, set_ticks 1 unlimitedWorld).
Proof.
  split; [reflexivity|]. split; [reflexivity|]. split; [by vm_compute|].
  apply (@no_limit_never_alerts demoCollaborators unlimitedWorld "b4" unlimited
           eq_refl eq_refl).
  by vm_compute.
Defined.

Lemma check_messages_are_rendered_witness :
  budgets overspent !! "b1" = Some groceries /\ isActive groceries = true
  /\ exists r msgs w',
       @checkBudgetThresholdsService demoCollaborators "b1" overspent = (r, w')
       /\ outbox w' = outbox overspent ++ msgs
       /\ Forall (fun msg => match msg with
                             | EmailAttempt p => hasTag (text p) = false
                             | SmsAttempt _ _ => True
                             end) msgs.
Proof.
  split; [reflexivity|]. split; [reflexivity|].
  destruct (@check_messages_are_rendered demoCollaborators overspent "b1"
              groceries eq_refl eq_refl)
    as (r & msgs & w' & Hrun & Hout & _ & Hmsgs).
  exists r, msgs, w'. split; [exact Hrun|]. split; [exact Hout|].
  eapply Forall_impl; [exact Hmsgs|].
  intros [p|phone body] (t & u & user & _ & _ & _ & _ & _ & _ & Hshape);
    [apply Hshape|exact I].
Defined.

Lemma messages_name_their_threshold_witness :
  70 ∈ thresholds /\ 90 ∈ thresholds
  /\ (inject_Z 90 <= meta_percentageUsed someMetadata)%Q
  /\ @emailSubject groceries 70 someMetadata
     <> @emailSubject groceries 90 someMetadata.
Proof.
  assert (H70 : 70 ∈ thresholds) by apply list_elem_of_here.
  assert (H90 : 90 ∈ thresholds)
    by apply list_elem_of_further, list_elem_of_here.
  split; [exact H70|]. split; [exact H90|]. split; [by vm_compute|].
  apply (@messages_name_their_threshold demoCollaborators groceries 70 90
           someMetadata H70 H90); [by vm_compute|by vm_compute|lia].
Defined.

Lemma join_twice_is_join_once_witness :
  exists household w1,
    @joinHouseholdService demoCollaborators "h1" "u2" notifiedHome
    = (Ok household, w1)
    /\ @joinHouseholdService demoCollaborators "h1" "u2" w1 = (Ok household, w1).
Proof.
  destruct (@joinHouseholdService demoCollaborators "h1" "u2" notifiedHome)
    as [[household|e] w1] eqn:Hjoin; [|by vm_compute in Hjoin].
  exists household, w1. split; [reflexivity|].
  exact (@join_twice_is_join_once demoCollaborators "h1" "u2" notifiedHome
           household w1 Hjoin).
Defined.

Lemma budget_deleted_witness :
  exists r w',
    deleteBudgetService "b1" "u1" notified = (Ok r, w')
    /\ alerts w' = alerts notified
    /\ @checkBudgetThresholdsService demoCollaborators "b1" w' = (Ok tt, w').
Proof.
  destruct (deleteBudgetService "b1" "u1" notified)
    as [[r|e] w'] eqn:Hrun; [|by vm_compute in Hrun].
  exists r, w'. split; [reflexivity|].
  destruct (@budget_deleted demoCollaborators "b1" "u1" notified r w' Hrun)
    as (_ & _ & _ & _ & Halerts & _ & _ & Hcheck & _).
  split; [exact Halerts|exact Hcheck].
Defined.

(** The services that write, on the toy deployment: Bob, who is no member,
    may neither read nor delete the household's budget; Alice, its owner, may
    set a limit, but not a negative one. *)
Example scenario_access :
  fst (getBudgetByIdService "b2" "u2" overspent)
  = Throw (BadRequestException "You don't have access to this budget")
  /\ fst (deleteBudgetService "b2" "u2" overspent)
     = Throw (BadRequestException "Only owners can delete household budgets")
  /\ fst (updateBudgetLimitService dollarsToCents "h1" "u2" 100 overspent)
     = Raised (AppThrown (NotFoundException
                            "User is not a member of this household"))
  /\ fst (updateBudgetLimitService dollarsToCents "h1" "u1" (-1) overspent)
     = Raised (ValidationError "monthlyBudgetLimit")
  /\ monthlyBudgetLimit
       <$> (households
              (snd (updateBudgetLimitService dollarsToCents "h1" "u1" 750
                      overspent)) !! "h1")
     = Some 75000.
Proof. by vm_compute. Qed.

(** The dispatcher with guests on record: Carol, who has a phone number
    only, is sent the text message before the dispatcher raises; Dave, who
    has no address, makes it return an empty list. *)
Example scenario_guests :
  let sms := @sendBudgetAlertService demoCollaborators "u3" "b1" None 100
               someMetadata guests in
  let none := @sendBudgetAlertService demoCollaborators "u4" "b1" None 100
                someMetadata guests in
  fst sms = Throw (ValidationError "threshold")
  /\ alerts (snd sms) = []
  /\ map headline (outbox (snd sms))
     = [("+15550003",
         "🚨 Budget Alert: Groceries exceeded! Spent: $ of $")]
  /\ none = (Ok (Some []), guests).
Proof. by vm_compute. Qed.

(** The sum of a ledger beyond the safe integers reaches the service as the
    nearest double. *)
Example scenario_large_total :
  toNumber (2 ^ 53 + 1) = 2 ^ 53 /\ toNumber (2 ^ 53 + 3) = 2 ^ 53 + 4
  /\ toNumber 62000 = 62000.
Proof. by vm_compute. Qed.
